(** * tds_fdw: a foreign data wrapper over DB-Library

    A shallow embedding of [src/tds_fdw.c].  The file follows the C source
    function by function:

    - the option table, [tds_fdw_validator], [tdsIsValidOption],
      [tdsOptionSetInit] and [tdsGetOptions] (option resolution);
    - [tdsSetupConnection], [tdsGetRowCount], [tdsGetStartupCost] and
      [tdsConvertToCString] (helpers);
    - [tdsBeginForeignScan], [tdsIterateForeignScan], [tdsReScanForeignScan]
      and [tdsEndForeignScan] (the scan cursor);
    - [tdsGetForeignRelSize] and [tdsEstimateCosts] (the planner adapter);
    - [tds_err_handler] and [tds_msg_handler] (the callbacks).

    The source is read as it is compiled: [DEBUG] is not defined, so the
    notices under [#ifdef DEBUG] are absent, and the planner entry points
    are those of the branch for PostgreSQL 9.2 and later.

    The code is effectful in three ways, and each is kept explicit:

    - it calls DB-Library, which is not part of the repository: the library
      is an abstract interface ([DBLibrary]) whose answers are arbitrary, and
      every call the program makes is appended to a log ([calls]);
    - it raises host errors with [ereport(ERROR, ...)], which in PostgreSQL
      does not return to the caller: control unwinds to the host, so no
      statement that textually follows it in the C function is executed;
    - it mutates the scan node's private state ([fdw_state]) and the
      planner's relation entry ([baserel]) in place, so both live in the
      threaded state and keep their updates when an error is raised.

    The runs written here are those in which every call of the library
    comes back with its answer and every request for memory is served.
    The library may instead turn to the two callbacks it was given, and
    the host may refuse a request for memory or a value while it builds a
    tuple; those runs end in the library or in the host and are not
    followed, so the properties below say what a call's answer leads to,
    not that a call answers. *)

From Stdlib Require Import ZArith List String Ascii Bool Lia DecimalString.
From Stdlib Require Import DecimalPos.
Import ListNotations.
Local Open Scope string_scope.
Local Open Scope list_scope.
Local Open Scope Z_scope.

Infix "+++" := String.append (at level 60, right associativity).

(** ** Machine integers and C library helpers *)

(** A C [int] is 32 bits wide; [to_int] is the two's complement wrap-around. *)
Definition to_int (z : Z) : Z := (z + 2 ^ 31) mod 2 ^ 32 - 2 ^ 31.

(** A C [long] is 64 bits wide on the platforms the wrapper is built for;
    [strtol] saturates at its bounds. *)
Definition LONG_MIN : Z := - 2 ^ 63.
Definition LONG_MAX : Z := 2 ^ 63 - 1.
Definition clamp_long (z : Z) : Z := Z.max LONG_MIN (Z.min LONG_MAX z).

(** The largest C [int]. *)
Definition INT_MAX : Z := 2 ^ 31 - 1.

(** A C [double] has a significand of 53 bits.  [round_double z] is the
    whole number a [double] holds for the exact value [z]: [z] itself
    below 2^53 in magnitude, and beyond that the nearest multiple of the
    spacing of the doubles at that magnitude, a tie going to the even
    significand. *)
Definition round_double (z : Z) : Z :=
  let m := Z.abs z in
  if m <? 2 ^ 53 then z
  else
    let ulp := 2 ^ (Z.log2 m - 52) in
    let q := m / ulp in
    let r := m mod ulp in
    let q' :=
      if 2 * r <? ulp then q
      else if ulp <? 2 * r then q + 1
      else if Z.even q then q else q + 1 in
    Z.sgn z * (q' * ulp).

(** [a + b] on two doubles that hold whole numbers: adding 0 gives the
    other operand, and any other sum is the exact sum, rounded. *)
Definition double_add (a b : Z) : Z :=
  if b =? 0 then a else if a =? 0 then b else round_double (a + b).

Definition ascii_code (c : ascii) : Z := Z.of_N (N_of_ascii c).

(** [isspace] in the C locale: space, and the control characters 9 to 13. *)
Definition isspace (c : ascii) : bool :=
  (ascii_code c =? 32) || ((9 <=? ascii_code c) && (ascii_code c <=? 13)).

Definition isdigit (c : ascii) : bool :=
  (48 <=? ascii_code c) && (ascii_code c <=? 57).

Fixpoint skip_spaces (s : string) : string :=
  match s with
  | String c rest => if isspace c then skip_spaces rest else s
  | EmptyString => s
  end.

(** The value of the longest prefix of decimal digits, continuing [acc]. *)
Fixpoint digits_value (acc : Z) (s : string) : Z :=
  match s with
  | String c rest =>
      if isdigit c then digits_value (10 * acc + (ascii_code c - 48)) rest
      else acc
  | EmptyString => acc
  end.

(** [strtol(nptr, NULL, 10)]: leading white space, an optional sign, then
    the longest run of digits; no digits gives 0. *)
Definition strtol10 (s : string) : Z :=
  match skip_spaces s with
  | String c rest =>
      if Ascii.eqb c "-" then clamp_long (- digits_value 0 rest)
      else if Ascii.eqb c "+" then clamp_long (digits_value 0 rest)
      else clamp_long (digits_value 0 (String c rest))
  | EmptyString => 0
  end.

(** [atoi] as the C library defines it, [(int) strtol(nptr, NULL, 10)]. *)
Definition atoi (s : string) : Z := to_int (strtol10 s).

(** The text [printf] produces for ["%i"]. *)
Definition string_of_int (z : Z) : string := NilZero.string_of_int (Z.to_int z).

Definition strlen (s : string) : Z := Z.of_nat (String.length s).

(** The character 34, as a string. *)
Definition double_quote : string := String (ascii_of_nat 34) EmptyString.

(** ** Host-engine vocabulary (PostgreSQL headers) *)

Definition Oid := Z.
Definition InvalidOid : Oid := 0.
Definition ForeignServerRelationId : Oid := 1417.
Definition UserMappingRelationId : Oid := 1418.
Definition ForeignTableRelationId : Oid := 3118.

Inductive elevel := NOTICE | ERROR.

Inductive sqlerrcode :=
| ERRCODE_FDW_INVALID_OPTION_NAME
| ERRCODE_SYNTAX_ERROR
| ERRCODE_FDW_OUT_OF_MEMORY
| ERRCODE_FDW_UNABLE_TO_ESTABLISH_CONNECTION
| ERRCODE_FDW_UNABLE_TO_CREATE_EXECUTION.

(** What an [ereport] call carries: the [errcode], [errmsg] and [errhint]
    auxiliary calls.  A report without [errcode] has [None]. *)
Record ErrorData := mkErrorData {
  errcode : option sqlerrcode;
  errmsg : string;
  errhint : option string
}.

(** One element of an option list: [def->defname] and [defGetString(def)]. *)
Record DefElem := mkDefElem {
  defname : string;
  defGetString : string
}.

(** ** DB-Library vocabulary (sybdb.h) *)

Definition RETCODE := Z.
Definition SUCCEED : RETCODE := 1.
Definition FAIL : RETCODE := 0.
Definition NO_MORE_RESULTS : RETCODE := 2.
Definition REG_ROW : Z := -1.
Definition NO_MORE_ROWS : Z := -2.
Definition BUF_FULL : Z := -3.
Definition FALSE : Z := 0.
Definition INT_CANCEL : Z := 2.

Definition SYBTEXT : Z := 35.
Definition SYBVARBINARY : Z := 37.
Definition SYBVARCHAR : Z := 39.
Definition SYBBINARY : Z := 45.
Definition SYBCHAR : Z := 47.

(** Pointers to the library's opaque structures: [None] is [NULL]. *)
Definition LOGINREC_ptr := option N.
Definition DBPROCESS_ptr := option N.

(** [BYTE *]: a pointer to raw bytes, or [NULL]. *)
Definition BYTE_ptr := option (list Byte.byte).

(** [char *] results handed to the host: a buffer, or [NULL]. *)
Definition cstring_ptr := option (list Byte.byte).

Definition is_null {A} (p : option A) : bool :=
  match p with None => true | Some _ => false end.

(** Every DB-Library entry point the wrapper calls, with its arguments. *)
Inductive Call :=
| Call_dbinit
| Call_dberrhandle
| Call_dbmsghandle
| Call_dblogin
| Call_DBSETLUSER (login : LOGINREC_ptr) (username : option string)
| Call_DBSETLPWD (login : LOGINREC_ptr) (password : option string)
| Call_DBSETLCHARSET (login : LOGINREC_ptr) (character_set : string)
| Call_DBSETLNATLANG (login : LOGINREC_ptr) (language : string)
| Call_dbopen (login : LOGINREC_ptr) (conn_string : string)
| Call_dbuse (dbproc : DBPROCESS_ptr) (database : string)
| Call_dbcmd (dbproc : DBPROCESS_ptr) (query : option string)
| Call_dbsqlexec (dbproc : DBPROCESS_ptr)
| Call_dbresults (dbproc : DBPROCESS_ptr)
| Call_dbnextrow (dbproc : DBPROCESS_ptr)
| Call_DBCOUNT (dbproc : DBPROCESS_ptr)
| Call_dbnumcols (dbproc : DBPROCESS_ptr)
| Call_dbcoltype (dbproc : DBPROCESS_ptr) (column : Z)
| Call_dbdatlen (dbproc : DBPROCESS_ptr) (column : Z)
| Call_dbdata (dbproc : DBPROCESS_ptr) (column : Z)
| Call_dbwillconvert (srctype desttype : Z)
| Call_dbconvert (dbproc : DBPROCESS_ptr) (srctype : Z)
    (src : list Byte.byte) (srclen : Z) (desttype : Z) (destlen : Z)
| Call_dbclose (dbproc : DBPROCESS_ptr)
| Call_dbloginfree (login : LOGINREC_ptr)
| Call_dbexit.

(** The library as the wrapper sees it.  [world] is everything behind the
    interface (the client runtime, the connection, the remote server).
    A call returns to the wrapper: it answers from the current world and
    moves it on with [lib_effect]; the row accessors and the conversion
    routines only read.  What the library does with the two callbacks it
    is given ([dberrhandle], [dbmsghandle]) is its own business and is not
    part of the interface. *)
Record DBLibrary := mkDBLibrary {
  world : Type;
  lib_effect : Call -> world -> world;
  lib_dbinit : world -> RETCODE;
  lib_dblogin : world -> LOGINREC_ptr;
  lib_dbopen : world -> LOGINREC_ptr -> string -> DBPROCESS_ptr;
  lib_dbuse : world -> DBPROCESS_ptr -> string -> RETCODE;
  lib_dbcmd : world -> DBPROCESS_ptr -> option string -> RETCODE;
  lib_dbsqlexec : world -> DBPROCESS_ptr -> RETCODE;
  lib_dbresults : world -> DBPROCESS_ptr -> RETCODE;
  lib_dbnextrow : world -> DBPROCESS_ptr -> Z;
  lib_DBCOUNT : world -> DBPROCESS_ptr -> Z;
  lib_dbnumcols : world -> DBPROCESS_ptr -> Z;
  lib_dbcoltype : world -> DBPROCESS_ptr -> Z -> Z;
  lib_dbdatlen : world -> DBPROCESS_ptr -> Z -> Z;
  lib_dbdata : world -> DBPROCESS_ptr -> Z -> BYTE_ptr;
  lib_dbwillconvert : world -> Z -> Z -> Z;
  (** the return value, and what the destination buffer holds afterwards *)
  lib_dbconvert : world -> DBPROCESS_ptr -> Z -> list Byte.byte -> Z -> Z -> Z
                  -> Z * list Byte.byte
}.

(** ** Data of the wrapper *)

Record TdsFdwOption := mkTdsFdwOption {
  optname : string;
  optcontext : Oid
}.

(** The table ends where the C array has its [{ NULL, InvalidOid }] entry. *)
Definition valid_options : list TdsFdwOption :=
  [ mkTdsFdwOption "servername" ForeignServerRelationId;
    mkTdsFdwOption "language" ForeignServerRelationId;
    mkTdsFdwOption "character_set" ForeignServerRelationId;
    mkTdsFdwOption "port" ForeignServerRelationId;
    mkTdsFdwOption "username" UserMappingRelationId;
    mkTdsFdwOption "password" UserMappingRelationId;
    mkTdsFdwOption "database" ForeignTableRelationId;
    mkTdsFdwOption "query" ForeignTableRelationId;
    mkTdsFdwOption "table" ForeignTableRelationId ].

(** The [char *] members are [None] while they are [NULL]. *)
Record TdsFdwOptionSet := mkTdsFdwOptionSet {
  servername : option string;
  language : option string;
  character_set : option string;
  port : Z;
  username : option string;
  password : option string;
  database : option string;
  query : option string;
  table : option string
}.

Definition set_servername v os :=
  mkTdsFdwOptionSet v (language os) (character_set os) (port os)
    (username os) (password os) (database os) (query os) (table os).
Definition set_language v os :=
  mkTdsFdwOptionSet (servername os) v (character_set os) (port os)
    (username os) (password os) (database os) (query os) (table os).
Definition set_character_set v os :=
  mkTdsFdwOptionSet (servername os) (language os) v (port os)
    (username os) (password os) (database os) (query os) (table os).
Definition set_port v os :=
  mkTdsFdwOptionSet (servername os) (language os) (character_set os) v
    (username os) (password os) (database os) (query os) (table os).
Definition set_username v os :=
  mkTdsFdwOptionSet (servername os) (language os) (character_set os) (port os)
    v (password os) (database os) (query os) (table os).
Definition set_password v os :=
  mkTdsFdwOptionSet (servername os) (language os) (character_set os) (port os)
    (username os) v (database os) (query os) (table os).
Definition set_database v os :=
  mkTdsFdwOptionSet (servername os) (language os) (character_set os) (port os)
    (username os) (password os) v (query os) (table os).
Definition set_query v os :=
  mkTdsFdwOptionSet (servername os) (language os) (character_set os) (port os)
    (username os) (password os) (database os) v (table os).
Definition set_table v os :=
  mkTdsFdwOptionSet (servername os) (language os) (character_set os) (port os)
    (username os) (password os) (database os) (query os) v.

(** The members [columns] and [ncols] of the C structure are never
    assigned or read, and are left out. *)
Record TdsFdwExecutionState := mkTdsFdwExecutionState {
  fe_login : LOGINREC_ptr;
  fe_dbproc : DBPROCESS_ptr;
  fe_query : option string;
  fe_first : Z;
  fe_row : Z
}.

(** What the three catalog lookups of [tdsGetOptions] return for the
    foreign table at hand: [GetForeignTable], [GetForeignServer] and
    [GetUserMapping]. *)
Record ForeignCatalog := mkForeignCatalog {
  f_table_options : list DefElem;
  f_server_options : list DefElem;
  f_mapping_options : list DefElem
}.

Definition DEFAULT_SERVERNAME : string := "127.0.0.1".

(** [sizeof(TdsFdwExecutionState)] with 8-byte pointers and 4-byte ints. *)
Definition sizeof_TdsFdwExecutionState : Z := 48.

(** ** A scripted library

    An instance of [DBLibrary] that plays a fixed script: the answers of the
    session calls are given, the result set is a list of rows, and a
    successful conversion copies the source bytes.  It is used to run the
    wrapper on concrete inputs. *)
Module Script.

Record column := mkColumn {
  col_type : Z;
  col_len : Z;
  col_data : BYTE_ptr
}.

Record remote := mkRemote {
  on_dbinit : RETCODE;
  on_dblogin : LOGINREC_ptr;
  on_dbopen : DBPROCESS_ptr;
  on_dbuse : RETCODE;
  on_dbcmd : RETCODE;
  on_dbsqlexec : RETCODE;
  on_dbresults : RETCODE;
  rows : list (list column);        (* the result set of the query *)
  on_DBCOUNT : Z;
  on_dbwillconvert : Z;
  on_dbconvert : option Z;          (* [Some r]: conversions fail with [r] *)
  stale : list Byte.byte            (* what a fresh buffer happens to hold *)
}.

Record script_world := mkWorld {
  script : remote;
  pending : list (list column);     (* rows not fetched yet *)
  current : list column             (* the row under the cursor *)
}.

Definition start (r : remote) : script_world := mkWorld r (rows r) [].

Definition effect (c : Call) (w : script_world) : script_world :=
  match c with
  | Call_dbnextrow _ =>
      match pending w with
      | row :: rest => mkWorld (script w) rest row
      | [] => mkWorld (script w) [] []
      end
  | _ => w
  end.

Definition column_at (w : script_world) (col : Z) : option column :=
  if 1 <=? col then nth_error (current w) (Z.to_nat (col - 1)) else None.

Definition library : DBLibrary :=
  mkDBLibrary script_world effect
    (fun w => on_dbinit (script w))
    (fun w => on_dblogin (script w))
    (fun w _ _ => on_dbopen (script w))
    (fun w _ _ => on_dbuse (script w))
    (fun w _ _ => on_dbcmd (script w))
    (fun w _ => on_dbsqlexec (script w))
    (fun w _ => on_dbresults (script w))
    (fun w _ => match pending w with [] => NO_MORE_ROWS | _ :: _ => REG_ROW end)
    (fun w _ => on_DBCOUNT (script w))
    (fun w _ => Z.of_nat (List.length (current w)))
    (fun w _ col =>
       match column_at w col with Some c => col_type c | None => -1 end)
    (fun w _ col =>
       match column_at w col with Some c => col_len c | None => -1 end)
    (fun w _ col =>
       match column_at w col with Some c => col_data c | None => None end)
    (fun w _ _ => on_dbwillconvert (script w))
    (fun w _ _ src srclen _ _ =>
       match on_dbconvert (script w) with
       | Some r => (r, stale (script w))
       | None => (srclen, src)
       end).

(** A server that accepts the session and answers the query with [rows]. *)
Definition healthy (rows : list (list column)) : remote :=
  mkRemote SUCCEED (Some 1%N) (Some 2%N) SUCCEED SUCCEED SUCCEED SUCCEED
    rows (Z.of_nat (List.length rows)) 1 None [].

End Script.

(** ** The state the code runs in, and its monad *)

(** How a C function ends: it returns ([Done]), it raises a host error
    through [ereport(ERROR, ...)] ([Raised]), or it leaves the behaviour the
    C standard defines ([Undefined]: a write past a buffer, a read through
    [NULL]). *)
Inductive outcome (A : Type) :=
| Done (a : A)
| Raised (e : ErrorData)
| Undefined.
Arguments Done {A} a.
Arguments Raised {A} e.
Arguments Undefined {A}.

Section Wrapper.

Context {L : DBLibrary}.

Record state := mkState {
  lib : world L;                              (* behind DB-Library *)
  calls : list Call;                          (* calls made, oldest first *)
  notices : list ErrorData;                   (* ereport(NOTICE, ...) *)
  fdw_state : option TdsFdwExecutionState;    (* node->fdw_state *)
  baserel_rows : Z;                           (* baserel->rows *)
  baserel_tuples : Z                          (* baserel->tuples *)
}.

Definition M (A : Type) : Type := state -> outcome A * state.

Definition ret {A} (a : A) : M A := fun s => (Done a, s).

Definition bind {A B} (m : M A) (k : A -> M B) : M B :=
  fun s =>
    match m s with
    | (Done a, s') => k a s'
    | (Raised e, s') => (Raised e, s')
    | (Undefined, s') => (Undefined, s')
    end.

Notation "x <- m ;; k" := (bind m (fun x => k))
  (at level 61, m at next level, right associativity).
Notation "m ;; k" := (bind m (fun _ => k))
  (at level 61, right associativity).

Definition undefined {A} : M A := fun s => (Undefined, s).

(** [ereport]: at [ERROR] the host takes control and the caller's
    remaining statements never run; at [NOTICE] the message is delivered
    and the call returns. *)
Definition ereport (lvl : elevel) (e : ErrorData) : M unit :=
  fun s =>
    match lvl with
    | ERROR => (Raised e, s)
    | NOTICE =>
        (Done tt,
         mkState (lib s) (calls s) (notices s ++ [e]) (fdw_state s)
           (baserel_rows s) (baserel_tuples s))
    end.

Definition report (code : sqlerrcode) (msg : string) : ErrorData :=
  mkErrorData (Some code) msg None.

(** [palloc] hands out memory or raises an error of its own; it has no
    [NULL] result, so the [== NULL] branches of the source are kept but
    never taken.  What is written here is the run in which the request
    is served: a request the host refuses (a negative size, one above its
    limit, no memory left) ends inside [palloc] and is not followed. *)
Definition palloc (size : Z) : M bool :=
  fun s => (Done true, s).

(** [pfree] of a buffer that is still allocated.  Which buffers are
    allocated is not kept, so a buffer released a second time is not
    told apart. *)
Definition pfree : M unit := ret tt.

(** A call that returns, and changes the world behind the library.  A
    call during which the library turns to [tds_err_handler] does not
    return, since the handler raises, and what [tds_msg_handler] delivers
    during a call is not recorded in [notices]: the calls written here
    are those that come back with their answer. *)
Definition lib_call {A} (c : Call) (answer : world L -> A) : M A :=
  fun s =>
    (Done (answer (lib s)),
     mkState (lib_effect L c (lib s)) (calls s ++ [c]) (notices s)
       (fdw_state s) (baserel_rows s) (baserel_tuples s)).

(** A call that only reads it. *)
Definition lib_read {A} (c : Call) (answer : world L -> A) : M A :=
  fun s =>
    (Done (answer (lib s)),
     mkState (lib s) (calls s ++ [c]) (notices s)
       (fdw_state s) (baserel_rows s) (baserel_tuples s)).

Definition dbinit : M RETCODE :=
  lib_call Call_dbinit (fun w => lib_dbinit L w).
Definition dberrhandle : M unit :=
  lib_call Call_dberrhandle (fun _ => tt).
Definition dbmsghandle : M unit :=
  lib_call Call_dbmsghandle (fun _ => tt).
Definition dblogin : M LOGINREC_ptr :=
  lib_call Call_dblogin (fun w => lib_dblogin L w).
Definition DBSETLUSER (login : LOGINREC_ptr) (v : option string) : M unit :=
  lib_call (Call_DBSETLUSER login v) (fun _ => tt).
Definition DBSETLPWD (login : LOGINREC_ptr) (v : option string) : M unit :=
  lib_call (Call_DBSETLPWD login v) (fun _ => tt).
Definition DBSETLCHARSET (login : LOGINREC_ptr) (v : string) : M unit :=
  lib_call (Call_DBSETLCHARSET login v) (fun _ => tt).
Definition DBSETLNATLANG (login : LOGINREC_ptr) (v : string) : M unit :=
  lib_call (Call_DBSETLNATLANG login v) (fun _ => tt).
Definition dbopen (login : LOGINREC_ptr) (conn_string : string)
  : M DBPROCESS_ptr :=
  lib_call (Call_dbopen login conn_string)
    (fun w => lib_dbopen L w login conn_string).
Definition dbuse (dbproc : DBPROCESS_ptr) (db : string) : M RETCODE :=
  lib_call (Call_dbuse dbproc db) (fun w => lib_dbuse L w dbproc db).
Definition dbcmd (dbproc : DBPROCESS_ptr) (q : option string) : M RETCODE :=
  lib_call (Call_dbcmd dbproc q) (fun w => lib_dbcmd L w dbproc q).
Definition dbsqlexec (dbproc : DBPROCESS_ptr) : M RETCODE :=
  lib_call (Call_dbsqlexec dbproc) (fun w => lib_dbsqlexec L w dbproc).
Definition dbresults (dbproc : DBPROCESS_ptr) : M RETCODE :=
  lib_call (Call_dbresults dbproc) (fun w => lib_dbresults L w dbproc).
Definition dbnextrow (dbproc : DBPROCESS_ptr) : M Z :=
  lib_call (Call_dbnextrow dbproc) (fun w => lib_dbnextrow L w dbproc).
Definition dbclose (dbproc : DBPROCESS_ptr) : M unit :=
  lib_call (Call_dbclose dbproc) (fun _ => tt).
Definition dbloginfree (login : LOGINREC_ptr) : M unit :=
  lib_call (Call_dbloginfree login) (fun _ => tt).
Definition dbexit : M unit :=
  lib_call Call_dbexit (fun _ => tt).

Definition DBCOUNT (dbproc : DBPROCESS_ptr) : M Z :=
  lib_read (Call_DBCOUNT dbproc) (fun w => lib_DBCOUNT L w dbproc).
Definition dbnumcols (dbproc : DBPROCESS_ptr) : M Z :=
  lib_read (Call_dbnumcols dbproc) (fun w => lib_dbnumcols L w dbproc).
Definition dbcoltype (dbproc : DBPROCESS_ptr) (column : Z) : M Z :=
  lib_read (Call_dbcoltype dbproc column)
    (fun w => lib_dbcoltype L w dbproc column).
Definition dbdatlen (dbproc : DBPROCESS_ptr) (column : Z) : M Z :=
  lib_read (Call_dbdatlen dbproc column)
    (fun w => lib_dbdatlen L w dbproc column).
Definition dbdata (dbproc : DBPROCESS_ptr) (column : Z) : M BYTE_ptr :=
  lib_read (Call_dbdata dbproc column)
    (fun w => lib_dbdata L w dbproc column).
Definition dbwillconvert (srctype desttype : Z) : M Z :=
  lib_read (Call_dbwillconvert srctype desttype)
    (fun w => lib_dbwillconvert L w srctype desttype).
Definition dbconvert (dbproc : DBPROCESS_ptr) (srctype : Z)
    (src : list Byte.byte) (srclen desttype destlen : Z)
  : M (Z * list Byte.byte) :=
  lib_read (Call_dbconvert dbproc srctype src srclen desttype destlen)
    (fun w => lib_dbconvert L w dbproc srctype src srclen desttype destlen).

(** ** Option resolution *)

Fixpoint tdsIsValidOption_from (opts : list TdsFdwOption)
    (option : string) (context : Oid) : bool :=
  match opts with
  | opt :: rest =>
      if (context =? optcontext opt) && String.eqb (optname opt) option
      then true
      else tdsIsValidOption_from rest option context
  | [] => false
  end.

Definition tdsIsValidOption (option : string) (context : Oid) : bool :=
  tdsIsValidOption_from valid_options option context.

Definition tdsOptionSetInit : TdsFdwOptionSet :=
  mkTdsFdwOptionSet None None None 0 None None None None None.

(** The hint of [tds_fdw_validator]: the names valid for [catalog],
    comma separated, built in a [StringInfo]. *)
Definition valid_names_buf (catalog : Oid) : string :=
  fold_left
    (fun buf opt =>
       if catalog =? optcontext opt
       then buf +++ (if 0 <? strlen buf then ", " else "") +++ optname opt
       else buf)
    valid_options "".

Definition redundant_option (name value : string) : ErrorData :=
  report ERRCODE_SYNTAX_ERROR
    ("Redundant option: " +++ name +++ " (" +++ value +++ ")").

(** The body of the [foreach] loop of [tds_fdw_validator]. *)
Definition tds_fdw_validator_step (catalog : Oid) (option_set : TdsFdwOptionSet)
    (def : DefElem) : M TdsFdwOptionSet :=
  (if negb (tdsIsValidOption (defname def) catalog)
   then
     let buf := valid_names_buf catalog in
     ereport ERROR
       (mkErrorData (Some ERRCODE_FDW_INVALID_OPTION_NAME)
          ("Invalid option " +++ double_quote +++ defname def
           +++ double_quote)
          (Some ("Valid options in this context are: " +++
                 (if 0 <? strlen buf then buf else "<none>"))))
   else ret tt) ;;
  if String.eqb (defname def) "servername" then
    (if negb (is_null (servername option_set))
     then ereport ERROR (redundant_option "servername" (defGetString def))
     else ret tt) ;;
    ret (set_servername (Some (defGetString def)) option_set)
  else if String.eqb (defname def) "language" then
    (if negb (is_null (language option_set))
     then ereport ERROR (redundant_option "language" (defGetString def))
     else ret tt) ;;
    ret (set_language (Some (defGetString def)) option_set)
  else if String.eqb (defname def) "character_set" then
    (if negb (is_null (character_set option_set))
     then ereport ERROR (redundant_option "character_set" (defGetString def))
     else ret tt) ;;
    ret (set_character_set (Some (defGetString def)) option_set)
  else if String.eqb (defname def) "port" then
    (if negb (port option_set =? 0)
     then ereport ERROR (redundant_option "port" (defGetString def))
     else ret tt) ;;
    ret (set_port (atoi (defGetString def)) option_set)
  else if String.eqb (defname def) "username" then
    (if negb (is_null (username option_set))
     then ereport ERROR (redundant_option "username" (defGetString def))
     else ret tt) ;;
    ret (set_username (Some (defGetString def)) option_set)
  else if String.eqb (defname def) "password" then
    (if negb (is_null (password option_set))
     then ereport ERROR (redundant_option "password" (defGetString def))
     else ret tt) ;;
    ret (set_password (Some (defGetString def)) option_set)
  else if String.eqb (defname def) "database" then
    (if negb (is_null (database option_set))
     then ereport ERROR (redundant_option "database" (defGetString def))
     else ret tt) ;;
    ret (set_database (Some (defGetString def)) option_set)
  else if String.eqb (defname def) "query" then
    (if negb (is_null (table option_set))
     then ereport ERROR
            (report ERRCODE_SYNTAX_ERROR
               "Conflicting options: query cannot be used with table")
     else ret tt) ;;
    (if negb (is_null (query option_set))
     then ereport ERROR (redundant_option "query" (defGetString def))
     else ret tt) ;;
    ret (set_query (Some (defGetString def)) option_set)
  else if String.eqb (defname def) "table" then
    (if negb (is_null (query option_set))
     then ereport ERROR
            (report ERRCODE_SYNTAX_ERROR
               "Conflicting options: table cannot be used with query")
     else ret tt) ;;
    (if negb (is_null (table option_set))
     then ereport ERROR (redundant_option "table" (defGetString def))
     else ret tt) ;;
    ret (set_table (Some (defGetString def)) option_set)
  else ret option_set.

Fixpoint tds_fdw_validator_loop (catalog : Oid) (option_set : TdsFdwOptionSet)
    (options_list : list DefElem) : M TdsFdwOptionSet :=
  match options_list with
  | def :: rest =>
      option_set' <- tds_fdw_validator_step catalog option_set def ;;
      tds_fdw_validator_loop catalog option_set' rest
  | [] => ret option_set
  end.

Definition tds_fdw_validator (options_list : list DefElem) (catalog : Oid)
  : M unit :=
  tds_fdw_validator_loop catalog tdsOptionSetInit options_list ;;
  ret tt.

(** The body of the [foreach] loop of [tdsGetOptions]: nothing is checked,
    each recognised name overwrites its member. *)
Definition tdsGetOptions_step (option_set : TdsFdwOptionSet) (def : DefElem)
  : TdsFdwOptionSet :=
  if String.eqb (defname def) "servername" then
    set_servername (Some (defGetString def)) option_set
  else if String.eqb (defname def) "language" then
    set_language (Some (defGetString def)) option_set
  else if String.eqb (defname def) "character_set" then
    set_character_set (Some (defGetString def)) option_set
  else if String.eqb (defname def) "port" then
    set_port (atoi (defGetString def)) option_set
  else if String.eqb (defname def) "username" then
    set_username (Some (defGetString def)) option_set
  else if String.eqb (defname def) "password" then
    set_password (Some (defGetString def)) option_set
  else if String.eqb (defname def) "database" then
    set_database (Some (defGetString def)) option_set
  else if String.eqb (defname def) "query" then
    set_query (Some (defGetString def)) option_set
  else if String.eqb (defname def) "table" then
    set_table (Some (defGetString def)) option_set
  else option_set.

(** [list_concat] of the table, server and user-mapping options, in that
    order. *)
Definition merged_options (cat : ForeignCatalog) : list DefElem :=
  ([] ++ f_table_options cat) ++ f_server_options cat ++ f_mapping_options cat.

Definition tdsGetOptions (cat : ForeignCatalog) : M TdsFdwOptionSet :=
  let option_set := tdsOptionSetInit in
  let options := merged_options cat in
  let option_set := fold_left tdsGetOptions_step options option_set in
  (* Default values, if not set *)
  option_set <-
    (if is_null (servername option_set) then
       ok <- palloc ((strlen DEFAULT_SERVERNAME + 1) * 1) ;;
       (if negb ok
        then ereport ERROR
               (report ERRCODE_FDW_OUT_OF_MEMORY
                  "Failed to allocate memory for connection string")
        else ret tt) ;;
       ret (set_servername (Some DEFAULT_SERVERNAME) option_set)
     else ret option_set) ;;
  (* Check required options *)
  (if is_null (table option_set) && is_null (query option_set)
   then ereport ERROR
          (report ERRCODE_SYNTAX_ERROR
             "Either a table or a query must be specified")
   else ret tt) ;;
  ret option_set.

(** ** Connection set-up *)

(** [sprintf] into a buffer of [size] bytes: the text and its terminator
    must fit, a longer text is written past the end of the buffer. *)
Definition sprintf (size : Z) (text : string) : M string :=
  if strlen text + 1 <=? size then ret text else undefined.

(** [snprintf] into a buffer of [size] bytes: at most [size - 1] characters
    are stored, and the length of the whole text is returned. *)
Definition snprintf (size : Z) (text : string) : string * Z :=
  (String.substring 0 (Z.to_nat (size - 1)) text, strlen text).

(** How ["%s"] shows a [char *] in a message. *)
Definition show (p : option string) : string :=
  match p with Some s => s | None => "(null)" end.

Definition query_prefix : string := "SELECT * FROM ".

(** The last part of [tdsSetupConnection], from the comment "Getting
    query" on: an explicit query is kept, otherwise one is built from the
    table name. *)
Definition tdsSetupConnection_query (option_set : TdsFdwOptionSet)
    (dbproc : DBPROCESS_ptr) : M (Z * TdsFdwOptionSet * DBPROCESS_ptr) :=
  if negb (is_null (query option_set)) then
    ret (0, option_set, dbproc)
  else
    match table option_set with
    | None => undefined                        (* strlen(NULL) *)
    | Some table =>
        let len := strlen query_prefix + strlen table + 1 in
        ok <- palloc (len * 1) ;;
        if negb ok then
          ereport ERROR
            (report ERRCODE_FDW_OUT_OF_MEMORY
               "Failed to allocate memory for query") ;;
          ret (-1, option_set, dbproc)
        else
          let '(text, n) := snprintf len (query_prefix +++ table) in
          if n <? 0 then
            ereport ERROR
              (report ERRCODE_FDW_OUT_OF_MEMORY "Failed to build query") ;;
            ret (-1, option_set, dbproc)
          else
            ret (0, set_query (Some text) option_set, dbproc)
    end.

(** [tdsSetupConnection(option_set, login, &dbproc)]: the result carries the
    return value, the option set (its [query] member may be assigned) and
    the connection stored through the third argument. *)
Definition tdsSetupConnection (option_set : TdsFdwOptionSet)
    (login : LOGINREC_ptr) : M (Z * TdsFdwOptionSet * DBPROCESS_ptr) :=
  DBSETLUSER login (username option_set) ;;
  DBSETLPWD login (password option_set) ;;
  (match character_set option_set with
   | Some cs => DBSETLCHARSET login cs
   | None => ret tt
   end) ;;
  (match language option_set with
   | Some lang => DBSETLNATLANG login lang
   | None => ret tt
   end) ;;
  match servername option_set with
  | None => undefined                          (* strlen(NULL) *)
  | Some servername =>
      let size := (strlen servername + 10) * 1 in
      ok <- palloc size ;;
      if negb ok then
        ereport ERROR
          (report ERRCODE_FDW_OUT_OF_MEMORY
             "Failed to allocate memory for connection string") ;;
        ret (-1, option_set, None)
      else
        conn_string <-
          (if negb (port option_set =? 0)
           then sprintf size
                  (servername +++ ":" +++ string_of_int (port option_set))
           else sprintf size servername) ;;
        dbproc <- dbopen login conn_string ;;
        if is_null dbproc then
          ereport ERROR
            (report ERRCODE_FDW_UNABLE_TO_ESTABLISH_CONNECTION
               ("Failed to connect using connection string " +++ conn_string
                +++ " with user " +++ show (username option_set))) ;;
          ret (-1, option_set, dbproc)
        else
          pfree ;;
          match database option_set with
          | Some db =>
              erc <- dbuse dbproc db ;;
              if erc =? FAIL then
                ereport ERROR
                  (report ERRCODE_FDW_UNABLE_TO_ESTABLISH_CONNECTION
                     ("Failed to select database " +++ db)) ;;
                ret (-1, option_set, dbproc)
              else tdsSetupConnection_query option_set dbproc
          | None => tdsSetupConnection_query option_set dbproc
          end
  end.

(** ** Planner helpers *)

Definition tdsGetRowCount (option_set : TdsFdwOptionSet)
    (login : LOGINREC_ptr) (dbproc : DBPROCESS_ptr) : M Z :=
  let rows_report := 0 in
  let cleanup (rows_report : Z) : M Z := ret rows_report in
  erc <- dbcmd dbproc (query option_set) ;;
  if erc =? FAIL then
    ereport ERROR
      (report ERRCODE_FDW_UNABLE_TO_CREATE_EXECUTION
         ("Failed to set current query to " +++ show (query option_set))) ;;
    cleanup rows_report
  else
    erc <- dbsqlexec dbproc ;;
    if erc =? FAIL then
      ereport ERROR
        (report ERRCODE_FDW_UNABLE_TO_CREATE_EXECUTION
           ("Failed to execute query " +++ show (query option_set))) ;;
      cleanup rows_report
    else
      erc <- dbresults dbproc ;;
      if erc =? FAIL then
        ereport ERROR
          (report ERRCODE_FDW_UNABLE_TO_CREATE_EXECUTION
             ("Failed to get results from query "
              +++ show (query option_set))) ;;
        cleanup rows_report
      else if erc =? NO_MORE_RESULTS then
        cleanup rows_report
      else if erc =? SUCCEED then
        ret_code <- dbnextrow dbproc ;;
        let count (_ : unit) : M Z :=
          rows_report <- DBCOUNT dbproc ;;
          cleanup rows_report in
        if negb (ret_code =? NO_MORE_ROWS) then
          if ret_code =? REG_ROW then
            (* rows_increment++ *)
            count tt
          else if ret_code =? BUF_FULL then
            ereport ERROR
              (report ERRCODE_FDW_OUT_OF_MEMORY
                 "Buffer filled up while getting plan for query") ;;
            cleanup rows_report
          else if ret_code =? FAIL then
            ereport ERROR
              (report ERRCODE_FDW_UNABLE_TO_CREATE_EXECUTION
                 "Failed to get row while getting plan for query") ;;
            cleanup rows_report
          else
            ereport ERROR
              (report ERRCODE_FDW_UNABLE_TO_CREATE_EXECUTION
                 "Failed to get plan for query. Unknown return code.") ;;
            cleanup rows_report
        else count tt
      else
        ereport ERROR
          (report ERRCODE_FDW_UNABLE_TO_CREATE_EXECUTION
             ("Unknown return code getting results from query "
              +++ show (query option_set))) ;;
        cleanup rows_report.

Definition tdsGetStartupCost (option_set : TdsFdwOptionSet) : M Z :=
  match servername option_set with
  | None => undefined                          (* strcmp(NULL, ...) *)
  | Some servername =>
      if String.eqb servername "127.0.0.1" || String.eqb servername "localhost"
      then ret 0
      else ret 25
  end.

(** ** Column conversion *)

(** The [switch (srctype)] of [tdsConvertToCString]: the size of the
    destination buffer ([real_destlen]), the length passed to [dbconvert]
    ([destlen], where -1 asks for a terminated string) and [desttype]. *)
Definition tdsConvertToCString_switch (srctype srclen : Z) : Z * Z * Z :=
  if (srctype =? SYBCHAR) || (srctype =? SYBVARCHAR) || (srctype =? SYBTEXT)
  then (srclen + 1, -1, SYBCHAR)
  else if (srctype =? SYBBINARY) || (srctype =? SYBVARBINARY)
  then (srclen, srclen, SYBBINARY)
  else (1000, -1, SYBCHAR).

Definition tdsConvertToCString (dbproc : DBPROCESS_ptr) (srctype : Z)
    (src : list Byte.byte) (srclen : Z) : M cstring_ptr :=
  let '(real_destlen, destlen, desttype) :=
    tdsConvertToCString_switch srctype srclen in
  can <- dbwillconvert srctype desttype ;;
  if negb (can =? FALSE) then
    ok <- palloc (real_destlen * 1) ;;
    (if negb ok
     then ereport ERROR
            (report ERRCODE_FDW_OUT_OF_MEMORY
               "Failed to allocate memory for column value")
     else ret tt) ;;
    r <- dbconvert dbproc srctype src srclen desttype destlen ;;
    let '(ret_value, dest) := r in
    (if ret_value =? FAIL then ret tt        (* only a DEBUG notice *)
     else if ret_value =? -1 then ret tt     (* only a DEBUG notice *)
     else ret tt) ;;
    ret (Some dest)                          (* return dest *)
  else
    ret None.                                (* dest is still NULL *)

(** ** The scan cursor *)

(** The slot the iterator returns: [None] after [ExecClearTuple], or the
    array [BuildTupleFromCStrings] was given, [values\[0 .. ncols-1\]].
    Building the tuple from the array, one value for each column the
    relation declares and each through the input function of its type, is
    the host's part and is not followed. *)
Definition TupleTableSlot := option (list cstring_ptr).

(** [festate = node->fdw_state], then used through the pointer. *)
Definition get_festate : M TdsFdwExecutionState :=
  fun s =>
    match fdw_state s with
    | Some festate => (Done festate, s)
    | None => (Undefined, s)
    end.

Definition set_fdw_state (p : option TdsFdwExecutionState) : M unit :=
  fun s =>
    (Done tt,
     mkState (lib s) (calls s) (notices s) p (baserel_rows s)
       (baserel_tuples s)).

(** [festate->first = v] *)
Definition set_first (v : Z) : M unit :=
  festate <- get_festate ;;
  set_fdw_state
    (Some (mkTdsFdwExecutionState (fe_login festate) (fe_dbproc festate)
             (fe_query festate) v (fe_row festate))).

(** [festate->row++]: [row] is an [int], and the increment of [INT_MAX]
    overflows, which C leaves undefined. *)
Definition incr_row : M unit :=
  festate <- get_festate ;;
  if fe_row festate <? INT_MAX then
    set_fdw_state
      (Some (mkTdsFdwExecutionState (fe_login festate) (fe_dbproc festate)
               (fe_query festate) (fe_first festate) (fe_row festate + 1)))
  else undefined.

Definition tdsBeginForeignScan (cat : ForeignCatalog) : M unit :=
  option_set <- tdsGetOptions cat ;;
  rc <- dbinit ;;
  (if rc =? FAIL
   then ereport ERROR
          (report ERRCODE_FDW_OUT_OF_MEMORY
             "Failed to initialize DB-Library environment")
   else ret tt) ;;
  dberrhandle ;;
  dbmsghandle ;;
  login <- dblogin ;;
  (if is_null login
   then ereport ERROR
          (report ERRCODE_FDW_OUT_OF_MEMORY
             "Failed to initialize DB-Library login structure")
   else ret tt) ;;
  r <- tdsSetupConnection option_set login ;;
  let '(rc, option_set, dbproc) := r in
  if negb (rc =? 0) then
    ret tt                                      (* goto cleanup *)
  else
    ok <- palloc sizeof_TdsFdwExecutionState ;;
    (if negb ok
     then ereport ERROR
            (report ERRCODE_FDW_OUT_OF_MEMORY
               "Failed to allocate memory for execution state")
     else ret tt) ;;
    set_fdw_state
      (Some (mkTdsFdwExecutionState login dbproc (query option_set) 1 0)).

(** The body of the column loop of [tdsIterateForeignScan]: the value of
    [values\[ncol\]]. *)
Definition tdsIterateForeignScan_column (dbproc : DBPROCESS_ptr) (ncol : Z)
  : M cstring_ptr :=
  srctype <- dbcoltype dbproc (ncol + 1) ;;
  srclen <- dbdatlen dbproc (ncol + 1) ;;
  src <- dbdata dbproc (ncol + 1) ;;
  if srclen =? 0 then
    ret None
  else
    match src with
    | None => ret None
    | Some bytes => tdsConvertToCString dbproc srctype bytes srclen
    end.

(** [for (ncol = ...; ncol < ncols; ncol++)], with [todo] iterations left. *)
Fixpoint tdsIterateForeignScan_columns (dbproc : DBPROCESS_ptr) (todo : nat)
    (ncol : Z) : M (list cstring_ptr) :=
  match todo with
  | O => ret []
  | S todo' =>
      value <- tdsIterateForeignScan_column dbproc ncol ;;
      values <- tdsIterateForeignScan_columns dbproc todo' (ncol + 1) ;;
      ret (value :: values)
  end.

(** The block of [tdsIterateForeignScan] guarded by [if (festate->first)]:
    the query is sent, executed, and its result set is asked for. *)
Definition tdsIterateForeignScan_first (festate : TdsFdwExecutionState)
  : M unit :=
  set_first 0 ;;
  erc <- dbcmd (fe_dbproc festate) (fe_query festate) ;;
  (if erc =? FAIL
   then ereport ERROR
          (report ERRCODE_FDW_UNABLE_TO_CREATE_EXECUTION
             ("Failed to set current query to "
              +++ show (fe_query festate)))
   else ret tt) ;;
  erc <- dbsqlexec (fe_dbproc festate) ;;
  (if erc =? FAIL
   then ereport ERROR
          (report ERRCODE_FDW_UNABLE_TO_CREATE_EXECUTION
             ("Failed to execute query " +++ show (fe_query festate)))
   else ret tt) ;;
  erc <- dbresults (fe_dbproc festate) ;;
  if erc =? FAIL then
    ereport ERROR
      (report ERRCODE_FDW_UNABLE_TO_CREATE_EXECUTION
         ("Failed to get results from query "
          +++ show (fe_query festate)))
  else if erc =? NO_MORE_RESULTS then
    ereport ERROR
      (report ERRCODE_FDW_UNABLE_TO_CREATE_EXECUTION
         ("There appears to be no results from query "
          +++ show (fe_query festate)))
  else if erc =? SUCCEED then
    ret tt
  else
    ereport ERROR
      (report ERRCODE_FDW_UNABLE_TO_CREATE_EXECUTION
         ("Unknown return code getting results from query "
          +++ show (fe_query festate))).

(** The rest of [tdsIterateForeignScan], from the comment "Fetching next
    row" on; [slot] has been cleared. *)
Definition tdsIterateForeignScan_fetch (festate : TdsFdwExecutionState)
    (slot : TupleTableSlot) : M TupleTableSlot :=
  ret_code <- dbnextrow (fe_dbproc festate) ;;
  if negb (ret_code =? NO_MORE_ROWS) then
    if ret_code =? REG_ROW then
      incr_row ;;
      ncols <- dbnumcols (fe_dbproc festate) ;;
      ok <- palloc (ncols * 8) ;;
      (if negb ok
       then ereport ERROR
              (report ERRCODE_FDW_OUT_OF_MEMORY
                 "Failed to allocate memory for column array")
       else ret tt) ;;
      values <-
        tdsIterateForeignScan_columns (fe_dbproc festate) (Z.to_nat ncols) 0 ;;
      ret (Some values)          (* BuildTupleFromCStrings, ExecStoreTuple *)
    else if ret_code =? BUF_FULL then
      ereport ERROR
        (report ERRCODE_FDW_OUT_OF_MEMORY "Buffer filled up during query") ;;
      ret slot
    else if ret_code =? FAIL then
      ereport ERROR
        (report ERRCODE_FDW_UNABLE_TO_CREATE_EXECUTION
           "Failed to get row during query") ;;
      ret slot
    else
      ereport ERROR
        (report ERRCODE_FDW_UNABLE_TO_CREATE_EXECUTION
           "Failed to get row during query. Unknown return code.") ;;
      ret slot
  else
    ereport NOTICE (mkErrorData None "No more rows" None) ;;
    ret slot.

Definition tdsIterateForeignScan : M TupleTableSlot :=
  festate <- get_festate ;;
  let slot : TupleTableSlot := None in          (* ExecClearTuple(slot) *)
  (if negb (fe_first festate =? 0)
   then tdsIterateForeignScan_first festate
   else ret tt) ;;
  tdsIterateForeignScan_fetch festate slot.

Definition tdsReScanForeignScan : M unit := ret tt.

Definition tdsEndForeignScan : M unit :=
  festate <- get_festate ;;
  (if negb (is_null (fe_query festate)) then pfree else ret tt) ;;
  dbclose (fe_dbproc festate) ;;
  dbloginfree (fe_login festate) ;;
  dbexit.

(** ** The planner adapter (the branch for PostgreSQL 9.2 and later) *)

Definition set_baserel (rows tuples : Z) : M unit :=
  fun s =>
    (Done tt,
     mkState (lib s) (calls s) (notices s) (fdw_state s) rows tuples).

Definition get_baserel_rows : M Z := fun s => (Done (baserel_rows s), s).

Definition tdsGetForeignRelSize (cat : ForeignCatalog) : M unit :=
  let cleanup_before_init : M unit := ret tt in
  let cleanup_before_login : M unit := dbexit ;; cleanup_before_init in
  let cleanup (dbproc : DBPROCESS_ptr) (login : LOGINREC_ptr) : M unit :=
    dbclose dbproc ;; dbloginfree login ;; cleanup_before_login in
  option_set <- tdsGetOptions cat ;;
  rc <- dbinit ;;
  if rc =? FAIL then
    ereport ERROR
      (report ERRCODE_FDW_OUT_OF_MEMORY
         "Failed to initialize DB-Library environment") ;;
    cleanup_before_init
  else
    dberrhandle ;;
    dbmsghandle ;;
    login <- dblogin ;;
    if is_null login then
      ereport ERROR
        (report ERRCODE_FDW_OUT_OF_MEMORY
           "Failed to initialize DB-Library login structure") ;;
      cleanup_before_login
    else
      r <- tdsSetupConnection option_set login ;;
      let '(rc, option_set, dbproc) := r in
      if negb (rc =? 0) then
        cleanup dbproc login
      else
        rows <- tdsGetRowCount option_set login dbproc ;;
        set_baserel rows rows ;;
        cleanup dbproc login.

(** The two costs and the row estimate are C doubles holding whole
    numbers (an [int] startup cost, a row estimate that came from an
    [int]); they are given by the whole number they hold, and their sum
    is the sum of two doubles.  The result is
    [( *startup_cost, *total_cost )]. *)
Definition tdsEstimateCosts (cat : ForeignCatalog) : M (Z * Z) :=
  option_set <- tdsGetOptions cat ;;
  startup_cost <- tdsGetStartupCost option_set ;;
  rows <- get_baserel_rows ;;
  ret (startup_cost, double_add rows startup_cost).

(** The access path of [tdsGetForeignPaths]: the row estimate and the two
    costs given to [create_foreignscan_path]; the other arguments are
    [NIL] and [NULL]. *)
Record ForeignPath := mkForeignPath {
  path_rows : Z;
  path_startup_cost : Z;
  path_total_cost : Z
}.

(** The result is the path handed to [add_path]. *)
Definition tdsGetForeignPaths (cat : ForeignCatalog) : M ForeignPath :=
  costs <- tdsEstimateCosts cat ;;
  let '(startup_cost, total_cost) := costs in
  rows <- get_baserel_rows ;;
  ret (mkForeignPath rows startup_cost total_cost).

Definition tdsAnalyzeForeignTable : M bool := ret false.

Definition tdsExplainForeignScan : M unit := ret tt.

(** ** The planner adapter (the branch for versions before 9.2) *)

(** The two costs of an [FdwPlan]; [makeNode] hands it out zeroed, and
    [fdw_private] is [NIL]. *)
Record FdwPlan := mkFdwPlan {
  plan_startup_cost : Z;
  plan_total_cost : Z
}.

Definition tdsPlanForeignScan (cat : ForeignCatalog) : M FdwPlan :=
  let fdwplan := mkFdwPlan 0 0 in                       (* makeNode *)
  let cleanup_before_init (fdwplan : FdwPlan) : M FdwPlan := ret fdwplan in
  let cleanup_before_login (fdwplan : FdwPlan) : M FdwPlan :=
    dbexit ;; cleanup_before_init fdwplan in
  let cleanup (dbproc : DBPROCESS_ptr) (login : LOGINREC_ptr)
      (fdwplan : FdwPlan) : M FdwPlan :=
    dbclose dbproc ;; dbloginfree login ;; cleanup_before_login fdwplan in
  option_set <- tdsGetOptions cat ;;
  startup_cost <- tdsGetStartupCost option_set ;;
  let fdwplan := mkFdwPlan startup_cost (plan_total_cost fdwplan) in
  rc <- dbinit ;;
  if rc =? FAIL then
    ereport ERROR
      (report ERRCODE_FDW_OUT_OF_MEMORY
         "Failed to initialize DB-Library environment") ;;
    cleanup_before_init fdwplan
  else
    dberrhandle ;;
    dbmsghandle ;;
    login <- dblogin ;;
    if is_null login then
      ereport ERROR
        (report ERRCODE_FDW_OUT_OF_MEMORY
           "Failed to initialize DB-Library login structure") ;;
      cleanup_before_login fdwplan
    else
      r <- tdsSetupConnection option_set login ;;
      let '(rc, option_set, dbproc) := r in
      if negb (rc =? 0) then
        cleanup dbproc login fdwplan
      else
        rows <- tdsGetRowCount option_set login dbproc ;;
        set_baserel rows rows ;;
        let fdwplan :=
          mkFdwPlan (plan_startup_cost fdwplan)
            (double_add rows (plan_startup_cost fdwplan)) in
        cleanup dbproc login fdwplan.

(** ** The callbacks registered with DB-Library *)

Definition tds_err_handler (dbproc : DBPROCESS_ptr)
    (severity dberr oserr : Z) (dberrstr oserrstr : option string) : M Z :=
  ereport ERROR
    (report ERRCODE_FDW_UNABLE_TO_CREATE_EXECUTION
       ("DB-Library error: DB #: " +++ string_of_int dberr
        +++ ", DB Msg: " +++ show dberrstr
        +++ ", OS #: " +++ string_of_int oserr
        +++ ", OS Msg: " +++ show oserrstr
        +++ ", Level: " +++ string_of_int severity)) ;;
  ret INT_CANCEL.

Definition tds_msg_handler (dbproc : DBPROCESS_ptr)
    (msgno msgstate severity : Z) (msgtext svr_name proc_name : option string)
    (line : Z) : M Z :=
  ereport NOTICE
    (mkErrorData None
       ("DB-Library notice: Msg #: " +++ string_of_int msgno
        +++ ", Msg state: " +++ string_of_int msgstate
        +++ ", Msg: " +++ show msgtext
        +++ ", Server: " +++ show svr_name
        +++ ", Process: " +++ show proc_name
        +++ ", Line: " +++ string_of_int line
        +++ ", Level: " +++ string_of_int severity)
       None) ;;
  ret 0.

End Wrapper.


(** ** Vocabulary of the properties *)

(** An option list supplies a name when one of its elements carries it. *)
Definition supplies (name : string) (options : list DefElem) : bool :=
  existsb (fun def => String.eqb (defname def) name) options.

(** The value of the last element of the list that carries [name]. *)
Fixpoint last_value (name : string) (options : list DefElem) : option string :=
  match options with
  | def :: rest =>
      match last_value name rest with
      | Some v => Some v
      | None =>
          if String.eqb (defname def) name then Some (defGetString def)
          else None
      end
  | [] => None
  end.

(** The precedence the wording "credential over server over table" names:
    the user mapping's value if it has one, else the server's, else the
    table's. *)
Definition precedence (name : string) (cat : ForeignCatalog) : option string :=
  match last_value name (f_mapping_options cat) with
  | Some v => Some v
  | None =>
      match last_value name (f_server_options cat) with
      | Some v => Some v
      | None => last_value name (f_table_options cat)
      end
  end.

(** The plan a way of looking names up describes: every member holds the
    value found for its name, the server name falls back to its default,
    and the port is the number [atoi] reads in the value, 0 without one. *)
Definition plan_of (lookup : string -> option string) : TdsFdwOptionSet :=
  mkTdsFdwOptionSet
    (Some (match lookup "servername" with
           | Some v => v
           | None => DEFAULT_SERVERNAME
           end))
    (lookup "language")
    (lookup "character_set")
    (match lookup "port" with Some v => atoi v | None => 0 end)
    (lookup "username")
    (lookup "password")
    (lookup "database")
    (lookup "query")
    (lookup "table").

Definition resolved_by_precedence (cat : ForeignCatalog) : TdsFdwOptionSet :=
  plan_of (fun name => precedence name cat).

Definition resolved_by_last_occurrence (cat : ForeignCatalog)
  : TdsFdwOptionSet :=
  plan_of (fun name => last_value name (merged_options cat)).

(** What the [foreach] loop of [tdsGetOptions] leaves in each member: the
    last value the list has for the member's name, else what was there. *)
Definition overlay (l : list DefElem) (os : TdsFdwOptionSet)
  : TdsFdwOptionSet :=
  let pick name (old : option string) :=
    match last_value name l with Some v => Some v | None => old end in
  mkTdsFdwOptionSet
    (pick "servername" (servername os))
    (pick "language" (language os))
    (pick "character_set" (character_set os))
    (match last_value "port" l with Some v => atoi v | None => port os end)
    (pick "username" (username os))
    (pick "password" (password os))
    (pick "database" (database os))
    (pick "query" (query os))
    (pick "table" (table os)).

(** The error of [tdsGetOptions] for a configuration without table and
    query. *)
Definition missing_table_and_query : ErrorData :=
  report ERRCODE_SYNTAX_ERROR "Either a table or a query must be specified".

(** The three reads the column loop starts each column with. *)
Definition column_reads (dbproc : DBPROCESS_ptr) (ncol : Z) : list Call :=
  [Call_dbcoltype dbproc (ncol + 1); Call_dbdatlen dbproc (ncol + 1);
   Call_dbdata dbproc (ncol + 1)].

(** The error classes of the taxonomy, read off the [errcode]. *)
Definition is_ConfigurationError (e : ErrorData) : bool :=
  match errcode e with
  | Some ERRCODE_FDW_INVALID_OPTION_NAME | Some ERRCODE_SYNTAX_ERROR => true
  | _ => false
  end.

(** Calls that compile, execute or retrieve the result set of a query. *)
Definition is_compile_execute (c : Call) : bool :=
  match c with
  | Call_dbcmd _ _ | Call_dbsqlexec _ | Call_dbresults _ => true
  | _ => false
  end.

(** Calls that release a resource of the session. *)
Definition is_release (c : Call) : bool :=
  match c with
  | Call_dbclose _ | Call_dbloginfree _ | Call_dbexit => true
  | _ => false
  end.

(** Calls of the conversion facility. *)
Definition is_conversion (c : Call) : bool :=
  match c with
  | Call_dbwillconvert _ _ | Call_dbconvert _ _ _ _ _ _ => true
  | _ => false
  end.

(** The host strings [dbopen] was called with, oldest first. *)
Fixpoint dbopen_hosts (cs : list Call) : list string :=
  match cs with
  | Call_dbopen _ conn_string :: rest => conn_string :: dbopen_hosts rest
  | _ :: rest => dbopen_hosts rest
  | [] => []
  end.

(** A value [atoi] finds a number in: after white space and an optional
    sign it starts with a digit. *)
Definition starts_with_digit (s : string) : bool :=
  match s with String c _ => isdigit c | EmptyString => false end.

Definition numeric (s : string) : bool :=
  match skip_spaces s with
  | String c rest =>
      if Ascii.eqb c "-" then starts_with_digit rest
      else if Ascii.eqb c "+" then starts_with_digit rest
      else isdigit c
  | EmptyString => false
  end.

(** Calls that set a session up. *)
Definition is_session_setup (c : Call) : bool :=
  match c with
  | Call_dbinit | Call_dberrhandle | Call_dbmsghandle | Call_dblogin
  | Call_DBSETLUSER _ _ | Call_DBSETLPWD _ _ | Call_DBSETLCHARSET _ _
  | Call_DBSETLNATLANG _ _ | Call_dbopen _ _ | Call_dbuse _ _ => true
  | _ => false
  end.

(** Calls that fetch a row and read its columns. *)
Definition is_row_access (c : Call) : bool :=
  match c with
  | Call_dbnextrow _ | Call_dbnumcols _ | Call_dbcoltype _ _
  | Call_dbdatlen _ _ | Call_dbdata _ _ | Call_dbwillconvert _ _
  | Call_dbconvert _ _ _ _ _ _ => true
  | _ => false
  end.

(** Two scan states of one session: same handles, same query. *)
Definition same_session (a b : TdsFdwExecutionState) : Prop :=
  fe_login a = fe_login b /\ fe_dbproc a = fe_dbproc b /\
  fe_query a = fe_query b.

(** The three calls of the first iteration, in the order they are made. *)
Definition compile_execute_calls (festate : TdsFdwExecutionState) : list Call :=
  [Call_dbcmd (fe_dbproc festate) (fe_query festate);
   Call_dbsqlexec (fe_dbproc festate);
   Call_dbresults (fe_dbproc festate)].

(** The calls that release a session, in the order [tdsEndForeignScan]
    makes them. *)
Definition release_calls (festate : TdsFdwExecutionState) : list Call :=
  [Call_dbclose (fe_dbproc festate); Call_dbloginfree (fe_login festate);
   Call_dbexit].

(** The state with [tr] appended to the log and nothing else changed. *)
Definition add_calls {L} (tr : list Call) (s : @state L) : @state L :=
  mkState (lib s) (calls s ++ tr) (notices s) (fdw_state s)
    (baserel_rows s) (baserel_tuples s).

(** The state after the host has asked [n] times for the next row. *)
Definition iterate_times {L} (n : nat) (s : @state L) : @state L :=
  Nat.iter n (fun s => snd (tdsIterateForeignScan s)) s.

(** Whether the option set already holds a value for the text option
    [name]; the port is a number and is not recorded this way. *)
Definition recorded (os : TdsFdwOptionSet) (name : string) : bool :=
  if String.eqb name "servername" then negb (is_null (servername os))
  else if String.eqb name "language" then negb (is_null (language os))
  else if String.eqb name "character_set" then
    negb (is_null (character_set os))
  else if String.eqb name "username" then negb (is_null (username os))
  else if String.eqb name "password" then negb (is_null (password os))
  else if String.eqb name "database" then negb (is_null (database os))
  else if String.eqb name "query" then negb (is_null (query os))
  else if String.eqb name "table" then negb (is_null (table os))
  else false.

(** The options other than the port. *)
Definition text_option (def : DefElem) : bool :=
  negb (String.eqb (defname def) "port").

(** The three option lists of a catalog entry pass the validator, each in
    its own context. *)
Definition validated {L} (cat : ForeignCatalog) (s : @state L) : Prop :=
  tds_fdw_validator (f_table_options cat) ForeignTableRelationId s
  = (Done tt, s) /\
  tds_fdw_validator (f_server_options cat) ForeignServerRelationId s
  = (Done tt, s) /\
  tds_fdw_validator (f_mapping_options cat) UserMappingRelationId s
  = (Done tt, s).

(** The calls that fill the login record: user and password always, the
    character set and the language when the plan has them, in this
    order. *)
Definition login_settings (os : TdsFdwOptionSet) (login : LOGINREC_ptr)
  : list Call :=
  [Call_DBSETLUSER login (username os); Call_DBSETLPWD login (password os)]
  ++ match character_set os with
     | Some cs => [Call_DBSETLCHARSET login cs]
     | None => []
     end
  ++ match language os with
     | Some lang => [Call_DBSETLNATLANG login lang]
     | None => []
     end.

(** The database selection that follows the opening of the connection,
    when the plan names a database. *)
Definition database_selection (os : TdsFdwOptionSet) (dbproc : DBPROCESS_ptr)
  : list Call :=
  match database os with
  | Some db => [Call_dbuse dbproc db]
  | None => []
  end.

(** The host string of a plan: the server name, with the port when the
    port is not 0. *)
Definition host_string (os : TdsFdwOptionSet) (host : string) : string :=
  if port os =? 0 then host
  else host +++ ":" +++ string_of_int (port os).

(** The calls of a row-count estimate that found no result set, and of one
    that found a result set and looked at its first row. *)
Definition count_without_result_set (dbproc : DBPROCESS_ptr)
    (q : option string) : list Call :=
  [Call_dbcmd dbproc q; Call_dbsqlexec dbproc; Call_dbresults dbproc].

Definition count_with_result_set (dbproc : DBPROCESS_ptr)
    (q : option string) : list Call :=
  [Call_dbcmd dbproc q; Call_dbsqlexec dbproc; Call_dbresults dbproc;
   Call_dbnextrow dbproc; Call_DBCOUNT dbproc].

(** An outcome of the older planner entry point, read as the pair of costs
    the newer one returns. *)
Definition costs_of_plan {L} (r : outcome FdwPlan * @state L)
  : outcome (Z * Z) * @state L :=
  match r with
  | (Done plan, s) => (Done (plan_startup_cost plan, plan_total_cost plan), s)
  | (Raised e, s) => (Raised e, s)
  | (Undefined, s) => (Undefined, s)
  end.

(** The newer planner entry points in the order the host calls them: the
    size of the relation, then the costs. *)
Definition size_then_costs {L} (cat : ForeignCatalog)
    (s : @state L) : outcome (Z * Z) * @state L :=
  match tdsGetForeignRelSize cat s with
  | (Done _, s1) => tdsEstimateCosts cat s1
  | (Raised e, s1) => (Raised e, s1)
  | (Undefined, s1) => (Undefined, s1)
  end.

(** The world behind the library after the calls [tr], each of which
    moves it on. *)
Definition after_calls {L : DBLibrary} (tr : list Call) (w : world L)
  : world L :=
  fold_left (fun w c => lib_effect L c w) tr w.

(** The notice of a request that found no further row. *)
Definition no_more_rows_notice : ErrorData :=
  mkErrorData None "No more rows" None.

(** 1 when the request for the next row made in [s] returns a row. *)
Definition delivered {L} (s : @state L) : Z :=
  match fst (tdsIterateForeignScan s) with
  | Done (Some _) => 1
  | _ => 0
  end.

(** The number of rows the first [n] requests made from [s] return. *)
Fixpoint rows_delivered {L} (n : nat) (s : @state L) : Z :=
  match n with
  | O => 0
  | S n' => rows_delivered n' s + delivered (iterate_times n' s)
  end.

(** 1 when the request for the next row made in [s] fetches a row:
    [dbnextrow] answers [REG_ROW], and the request goes on to ask for
    the number of columns. *)
Definition fetched {L} (s : @state L) : Z :=
  if existsb (fun c => match c with Call_dbnumcols _ => true | _ => false end)
       (skipn (List.length (calls s))
          (calls (snd (tdsIterateForeignScan s))))
  then 1 else 0.

(** The number of rows the first [n] requests made from [s] fetch. *)
Fixpoint rows_fetched {L} (n : nat) (s : @state L) : Z :=
  match n with
  | O => 0
  | S n' => rows_fetched n' s + fetched (iterate_times n' s)
  end.

(** The calls every session starts with. *)
Definition library_start (login : LOGINREC_ptr) : list Call :=
  [Call_dbinit; Call_dberrhandle; Call_dbmsghandle; Call_dblogin].

(** The login record a session begun in the world [w] is given. *)
Definition session_login {L : DBLibrary} (w : world L) : LOGINREC_ptr :=
  lib_dblogin L
    (after_calls [Call_dbinit; Call_dberrhandle; Call_dbmsghandle] w).

(** The connection [dbopen] answers with, for the plan [os] and the login
    record [login], when the login settings start in the world [w]. *)
Definition session_connection {L : DBLibrary} (os : TdsFdwOptionSet)
    (host : string) (login : LOGINREC_ptr) (w : world L) : DBPROCESS_ptr :=
  lib_dbopen L (after_calls (login_settings os login) w) login
    (host_string os host).

(** The library lets the connection of the plan [os] be set up from the
    world [w]: [dbopen] answers with a connection, and the database of
    the plan, when it names one, is selected. *)
Definition connection_opens {L : DBLibrary} (os : TdsFdwOptionSet)
    (host : string) (login : LOGINREC_ptr) (w : world L) : Prop :=
  let dbproc := session_connection os host login w in
  is_null dbproc = false /\
  forall db,
    database os = Some db ->
    lib_dbuse L
      (lib_effect L (Call_dbopen login (host_string os host))
         (after_calls (login_settings os login) w))
      dbproc db
    <> FAIL.

(** The library lets a whole session of the plan [os] begin in the world
    [w]: it initialises, hands out a login record, and lets the connection
    be set up. *)
Definition session_opens {L : DBLibrary} (os : TdsFdwOptionSet)
    (host : string) (w : world L) : Prop :=
  lib_dbinit L w <> FAIL /\
  is_null (session_login w) = false /\
  connection_opens os host (session_login w)
    (after_calls (library_start (session_login w)) w).

(** ** Concrete inputs *)

Definition text : string -> list Byte.byte := String.list_byte_of_string.

(** A fresh run against a scripted remote: nothing logged, no scan state. *)
Definition fresh (r : Script.remote) : @state Script.library :=
  mkState (L := Script.library) (Script.start r) [] [] None 0 0.

(** The configuration of the scenario [table=employees]. *)
Definition employees_cat : ForeignCatalog :=
  mkForeignCatalog
    [mkDefElem "table" "employees"]
    [mkDefElem "servername" "dbhost"; mkDefElem "port" "1433"]
    [mkDefElem "username" "reader"; mkDefElem "password" "secret"].

(** The configuration of the scenario with both [query] and [table]. *)
Definition conflicting_options : list DefElem :=
  [mkDefElem "query" "SELECT id FROM t"; mkDefElem "table" "t"].

Definition conflicting_cat : ForeignCatalog :=
  mkForeignCatalog conflicting_options [] [].

(** Two rows of two columns: a [SYBCHAR] and a four-byte integer
    ([SYBINT4] is 56), the integer of the first row being absent. *)
Definition two_rows : list (list Script.column) :=
  [ [Script.mkColumn SYBCHAR 2 (Some (text "ab"));
     Script.mkColumn 56 0 None];
    [Script.mkColumn SYBCHAR 1 (Some (text "x"));
     Script.mkColumn 56 4 (Some (text "1234"))] ].

(** The scan of [employees_cat] against a healthy server, begun. *)
Definition employees_begun : @state Script.library :=
  snd (tdsBeginForeignScan employees_cat (fresh (Script.healthy two_rows))).

(** A server that accepts the session and then refuses the query:
    [dbcmd] returns [FAIL]. *)
Definition refusing_query : Script.remote :=
  Script.mkRemote SUCCEED (Some 1%N) (Some 2%N) SUCCEED FAIL SUCCEED SUCCEED
    two_rows 2 1 None [].

(** A server whose result set cannot be retrieved: [dbresults] returns
    [FAIL]. *)
Definition failing_results : Script.remote :=
  Script.mkRemote SUCCEED (Some 1%N) (Some 2%N) SUCCEED SUCCEED SUCCEED FAIL
    two_rows 2 1 None [].

(** One row with one four-byte integer column; the library says it can
    convert the type, and [dbconvert] then returns [FAIL], leaving in the
    destination the two bytes it held before. *)
Definition failing_conversion : Script.remote :=
  Script.mkRemote SUCCEED (Some 1%N) (Some 2%N) SUCCEED SUCCEED SUCCEED SUCCEED
    [[Script.mkColumn 56 4 (Some (text "1234"))]] 1 1 (Some FAIL)
    (text "??").

(** Three rows of one character column. *)
Definition three_rows : list (list Script.column) :=
  [ [Script.mkColumn SYBCHAR 1 (Some (text "a"))];
    [Script.mkColumn SYBCHAR 1 (Some (text "b"))];
    [Script.mkColumn SYBCHAR 1 (Some (text "c"))] ].

(** A configuration that names a server and neither a table nor a
    query. *)
Definition server_only_cat : ForeignCatalog :=
  mkForeignCatalog [] [mkDefElem "servername" "dbhost"] [].

(** A configuration that names a table and nothing else. *)
Definition table_only_cat : ForeignCatalog :=
  mkForeignCatalog [mkDefElem "table" "t"] [] [].

(** The options of a foreign table that names a table and a database. *)
Definition table_and_database : list DefElem :=
  [mkDefElem "table" "employees"; mkDefElem "database" "hr"].

(** The context of the options of the wrapper itself, which the host
    knows as [ForeignDataWrapperRelationId]. *)
Definition wrapper_context : Oid := 2328.

(** The plan of the [employees] configuration. *)
Definition employees_plan : TdsFdwOptionSet :=
  mkTdsFdwOptionSet (Some "dbhost") None None 1433 (Some "reader")
    (Some "secret") None None (Some "employees").

(** The scan state of the [employees] scan when it has begun. *)
Definition employees_festate : TdsFdwExecutionState :=
  mkTdsFdwExecutionState (Some 1%N) (Some 2%N)
    (Some "SELECT * FROM employees") 1 0.

(** A server that cannot be reached: [dbopen] returns [NULL]. *)
Definition unreachable : Script.remote :=
  Script.mkRemote SUCCEED (Some 1%N) None SUCCEED SUCCEED SUCCEED SUCCEED
    two_rows 2 1 None [].

(** A server that executes the query and has no result set for it. *)
Definition no_result_set : Script.remote :=
  Script.mkRemote SUCCEED (Some 1%N) (Some 2%N) SUCCEED SUCCEED SUCCEED
    NO_MORE_RESULTS [] 0 1 None [].

(** A library that answers every [dbnextrow] with [next] and accepts
    everything else; it has no columns to read. *)
Definition answering (next : Z) : DBLibrary :=
  mkDBLibrary unit (fun _ w => w)
    (fun _ => SUCCEED) (fun _ => Some 1%N) (fun _ _ _ => Some 2%N)
    (fun _ _ _ => SUCCEED) (fun _ _ _ => SUCCEED) (fun _ _ => SUCCEED)
    (fun _ _ => SUCCEED) (fun _ _ => next) (fun _ _ => 0) (fun _ _ => 0)
    (fun _ _ _ => 0) (fun _ _ _ => 0) (fun _ _ _ => None)
    (fun _ _ _ => FALSE) (fun _ _ _ src _ _ _ => (FAIL, src)).

(** A scan over [answering next] that is past its first request. *)
Definition later_festate : TdsFdwExecutionState :=
  mkTdsFdwExecutionState (Some 1%N) (Some 2%N) (Some "SELECT 1") 0 0.

Definition later_request (next : Z) : @state (answering next) :=
  mkState (L := answering next) tt [] [] (Some later_festate) 0 0.

(** ** Option resolution: properties *)

Section OptionResolution.

Context {L : DBLibrary}.
Implicit Types (s : @state L) (cat : ForeignCatalog) (def : DefElem)
  (os : TdsFdwOptionSet).

Lemma last_value_app name (l1 l2 : list DefElem) :
  last_value name (l1 ++ l2) =
  match last_value name l2 with
  | Some v => Some v
  | None => last_value name l1
  end.
Proof.
  induction l1 as [|d l1 IH]; simpl.
  - now destruct (last_value name l2).
  - rewrite IH. now destruct (last_value name l2).
Qed.

Lemma last_value_merged name cat :
  last_value name (merged_options cat) = precedence name cat.
Proof.
  unfold merged_options, precedence. simpl.
  rewrite !last_value_app.
  now destruct (last_value name (f_mapping_options cat)),
    (last_value name (f_server_options cat)).
Qed.

Lemma supplies_last_value name (l : list DefElem) :
  supplies name l = negb (is_null (last_value name l)).
Proof.
  unfold supplies.
  induction l as [|d l IH]; simpl; [reflexivity|].
  rewrite IH.
  destruct (last_value name l); simpl.
  - now rewrite orb_true_r.
  - rewrite orb_false_r. now destruct (String.eqb (defname d) name).
Qed.

Ltac name_cases def :=
  repeat match goal with
  | |- context [String.eqb (defname def) ?n] =>
      let E := fresh "E" in
      destruct (String.eqb (defname def) n) eqn:E;
      [apply String.eqb_eq in E; rewrite E in *; simpl in * | ]
  end.

Lemma overlay_cons def (l : list DefElem) os :
  overlay l (tdsGetOptions_step os def) = overlay (def :: l) os.
Proof.
  unfold overlay. simpl. f_equal.
  all: match goal with
       | |- context [last_value ?n ?x] => destruct (last_value n x)
       end; [reflexivity|].
  all: unfold tdsGetOptions_step; name_cases def; reflexivity.
Qed.

Lemma tdsGetOptions_loop (l : list DefElem) :
  forall os, fold_left tdsGetOptions_step l os = overlay l os.
Proof.
  induction l as [|d l IH]; intros os; simpl.
  - now destruct os.
  - rewrite IH. apply overlay_cons.
Qed.

Lemma option_eta {A} (o : option A) :
  match o with Some v => Some v | None => None end = o.
Proof. now destruct o. Qed.

(** [tdsGetOptions] in closed form: it touches nothing, fails exactly when
    neither a table nor a query is configured, and otherwise returns the
    plan of [resolved_by_precedence]. *)
Lemma tdsGetOptions_run cat s :
  tdsGetOptions cat s =
  (if is_null (precedence "table" cat) && is_null (precedence "query" cat)
   then Raised missing_table_and_query
   else Done (resolved_by_precedence cat), s).
Proof.
  unfold tdsGetOptions. rewrite tdsGetOptions_loop.
  unfold overlay, resolved_by_precedence, plan_of.
  rewrite !last_value_merged.
  unfold bind, ret, palloc, ereport, tdsOptionSetInit. simpl.
  rewrite !option_eta.
  destruct (precedence "servername" cat),
    (precedence "table" cat), (precedence "query" cat); reflexivity.
Qed.

Lemma tdsGetOptions_done cat s os s' :
  tdsGetOptions cat s = (Done os, s') ->
  s' = s /\ os = resolved_by_precedence cat /\
  (is_null (precedence "table" cat) && is_null (precedence "query" cat)) = false.
Proof.
  rewrite tdsGetOptions_run.
  destruct (is_null (precedence "table" cat) && is_null (precedence "query" cat));
    intros H; inversion H; auto.
Qed.

(** *** The validator *)

(** One pass through the loop body either raises a configuration error or
    records the option; what was recorded stays, and [query] and [table]
    are only recorded while the other one is absent. *)
Lemma tds_fdw_validator_step_cases catalog os def s :
  match tds_fdw_validator_step catalog os def s with
  | (Raised e, s') => s' = s /\ is_ConfigurationError e = true
  | (Done os', s') =>
      s' = s /\
      (is_null (query os) = false -> is_null (query os') = false) /\
      (is_null (table os) = false -> is_null (table os') = false) /\
      (defname def = "query" ->
       is_null (table os) = true /\ is_null (query os') = false) /\
      (defname def = "table" ->
       is_null (query os) = true /\ is_null (table os') = false)
  | (Undefined, _) => False
  end.
Proof.
  unfold tds_fdw_validator_step, bind, ret, ereport.
  destruct (tdsIsValidOption (defname def) catalog); simpl; [|auto].
  destruct os as [sn lg cs pt un pw db qu tb]; simpl.
  name_cases def;
    repeat match goal with
    | |- context [if negb (is_null ?p) then _ else _] => destruct p; simpl
    | |- context [if negb (?p =? 0) then _ else _] => destruct (p =? 0); simpl
    end;
    repeat apply conj; auto; try discriminate;
    intros H; try discriminate; rewrite H in *; discriminate.
Qed.

Lemma supplies_cons name def (l : list DefElem) :
  supplies name (def :: l) = String.eqb (defname def) name || supplies name l.
Proof. reflexivity. Qed.

(** Once one of the two is recorded, the other one coming up later in the
    list stops the loop. *)
Lemma tds_fdw_validator_loop_pending catalog s (l : list DefElem) :
  forall os,
    (is_null (table os) = false /\ supplies "query" l = true) \/
    (is_null (query os) = false /\ supplies "table" l = true) ->
    exists e,
      tds_fdw_validator_loop catalog os l s = (Raised e, s) /\
      is_ConfigurationError e = true.
Proof.
  induction l as [|d l IH]; intros os H.
  - destruct H as [[_ H]|[_ H]]; discriminate.
  - simpl. unfold bind.
    pose proof (tds_fdw_validator_step_cases catalog os d s) as Hs.
    destruct (tds_fdw_validator_step catalog os d s) as [[os'|e|] s1];
      [|destruct Hs as [-> He]; eauto|contradiction].
    destruct Hs as (-> & Hq & Ht & Hdq & Hdt).
    rewrite !supplies_cons in H.
    destruct H as [[Hn H]|[Hn H]]; apply orb_true_iff in H; destruct H as [H|H].
    + apply String.eqb_eq in H. destruct (Hdq H). congruence.
    + apply IH. left. auto.
    + apply String.eqb_eq in H. destruct (Hdt H). congruence.
    + apply IH. right. auto.
Qed.

Lemma tds_fdw_validator_loop_conflict catalog s (l : list DefElem) :
  forall os,
    supplies "query" l = true -> supplies "table" l = true ->
    exists e,
      tds_fdw_validator_loop catalog os l s = (Raised e, s) /\
      is_ConfigurationError e = true.
Proof.
  induction l as [|d l IH]; intros os Hq Ht; [discriminate|].
  simpl. unfold bind.
  pose proof (tds_fdw_validator_step_cases catalog os d s) as Hs.
  destruct (tds_fdw_validator_step catalog os d s) as [[os'|e|] s1];
    [|destruct Hs as [-> He]; eauto|contradiction].
  destruct Hs as (-> & _ & _ & Hdq & Hdt).
  rewrite supplies_cons in Hq, Ht.
  destruct (String.eqb (defname d) "query") eqn:Eq.
  - apply String.eqb_eq in Eq. destruct (Hdq Eq) as [_ Hset].
    rewrite Eq in Ht. simpl in Ht.
    apply tds_fdw_validator_loop_pending. right. auto.
  - destruct (String.eqb (defname d) "table") eqn:Et.
    + apply String.eqb_eq in Et. destruct (Hdt Et) as [_ Hset].
      simpl in Hq.
      apply tds_fdw_validator_loop_pending. left. auto.
    + simpl in Hq, Ht. apply IH; assumption.
Qed.

Lemma precedence_of_table_level name table_options server_options
    mapping_options :
  supplies name table_options = true ->
  is_null
    (precedence name
       (mkForeignCatalog table_options server_options mapping_options))
  = false.
Proof.
  rewrite supplies_last_value. unfold precedence. simpl.
  destruct (last_value name mapping_options),
    (last_value name server_options),
    (last_value name table_options); simpl; auto; discriminate.
Qed.

(** C1, as the code has it.  An option list that supplies both [query] and
    [table] is refused where options are defined: [tds_fdw_validator]
    raises a configuration error on it, in every context, and leaves the
    state as it found it, so no library call was made.  The resolution
    step [tdsGetOptions] does not look for the conflict: on the same list
    as the table's options it returns a plan with both members set. *)
Theorem validator_rejects_query_with_table
    (options_list server_options mapping_options : list DefElem)
    (catalog : Oid) s :
  supplies "query" options_list = true ->
  supplies "table" options_list = true ->
  (exists e,
     tds_fdw_validator options_list catalog s = (Raised e, s) /\
     is_ConfigurationError e = true) /\
  (exists os,
     tdsGetOptions
       (mkForeignCatalog options_list server_options mapping_options) s
     = (Done os, s) /\
     is_null (query os) = false /\ is_null (table os) = false).
Proof.
  intros Hq Ht. split.
  - destruct (tds_fdw_validator_loop_conflict catalog s options_list
                tdsOptionSetInit Hq Ht) as (e & He & Hc).
    exists e. split; [|assumption].
    unfold tds_fdw_validator, bind. now rewrite He.
  - rewrite tdsGetOptions_run.
    pose proof (precedence_of_table_level "query" options_list server_options
                  mapping_options Hq) as Pq.
    pose proof (precedence_of_table_level "table" options_list server_options
                  mapping_options Ht) as Pt.
    rewrite Pq, Pt. simpl. eexists. split; [reflexivity|]. simpl. auto.
Qed.

(** C9.  Whatever the three levels hold, each member of the resolved plan
    is taken from the last element carrying its name in the list
    table options, server options, user-mapping options; that is, a value of
    the user mapping overrides one of the server, which overrides one of
    the table. *)
Theorem resolution_takes_last_occurrence cat s os s' :
  tdsGetOptions cat s = (Done os, s') ->
  os = resolved_by_last_occurrence cat /\
  os = resolved_by_precedence cat /\
  forall name,
    last_value name
      (f_table_options cat ++ f_server_options cat ++ f_mapping_options cat)
    = precedence name cat.
Proof.
  intros H. apply tdsGetOptions_done in H. destruct H as (_ & -> & _).
  repeat apply conj.
  - unfold resolved_by_precedence, resolved_by_last_occurrence, plan_of.
    now rewrite !last_value_merged.
  - reflexivity.
  - intros name. apply (last_value_merged name cat).
Qed.

(** *** Costs *)

Lemma tdsGetStartupCost_run os s host :
  servername os = Some host ->
  tdsGetStartupCost os s =
  (Done (if String.eqb host "127.0.0.1" || String.eqb host "localhost"
         then 0 else 25), s).
Proof.
  intros H. unfold tdsGetStartupCost. rewrite H.
  now destruct (String.eqb host "127.0.0.1" || String.eqb host "localhost").
Qed.

(** A double holds every whole number of magnitude up to 2^53. *)
Lemma round_double_exact (z : Z) : Z.abs z <= 2 ^ 53 -> round_double z = z.
Proof.
  intros H. unfold round_double. cbv zeta.
  destruct (Z.abs z <? 2 ^ 53) eqn:E; [reflexivity|].
  apply Z.ltb_ge in E.
  assert (Hz : z = 2 ^ 53 \/ z = - 2 ^ 53) by lia.
  destruct Hz as [-> | ->]; vm_compute; reflexivity.
Qed.

(** The sum of two whole-number doubles is exact as long as it stays
    within 2^53. *)
Lemma double_add_exact (a b : Z) :
  Z.abs (a + b) <= 2 ^ 53 -> double_add a b = a + b.
Proof.
  intros H. unfold double_add.
  destruct (b =? 0) eqn:B; [apply Z.eqb_eq in B; lia|].
  destruct (a =? 0) eqn:A; [apply Z.eqb_eq in A; lia|].
  now apply round_double_exact.
Qed.

(** C8.  For a configuration that resolves, and whatever row estimate the
    relation carries, the startup cost is 0 when the resolved server name is
    exactly [127.0.0.1] or [localhost] and 25 otherwise, and the total cost
    is the sum of the row estimate and the startup cost as the addition of
    two doubles gives it: the row estimate plus the startup cost for every
    row estimate within 2^53 - 25 in magnitude, which includes every [int]
    the row count can be. *)
Theorem estimate_costs_by_servername cat s os s' :
  tdsGetOptions cat s = (Done os, s') ->
  exists host,
    servername os = Some host /\
    let startup_cost :=
      if String.eqb host "127.0.0.1" || String.eqb host "localhost"
      then 0 else 25 in
    tdsGetStartupCost os s = (Done startup_cost, s) /\
    tdsEstimateCosts cat s
    = (Done (startup_cost, double_add (baserel_rows s) startup_cost), s) /\
    (Z.abs (baserel_rows s) + 25 <= 2 ^ 53 ->
     tdsEstimateCosts cat s
     = (Done (startup_cost, baserel_rows s + startup_cost), s)).
Proof.
  intros H. unfold tdsEstimateCosts, bind. rewrite H.
  apply tdsGetOptions_done in H. destruct H as (-> & -> & _).
  eexists. split; [reflexivity|]. cbv zeta.
  erewrite !tdsGetStartupCost_run by reflexivity.
  split; [reflexivity|]. split; [reflexivity|].
  intros Hrows. unfold get_baserel_rows, ret. rewrite double_add_exact.
  - reflexivity.
  - destruct (_ || _); lia.
Qed.

End OptionResolution.

(** The scenario with both options: the validator answers with the message
    of the conflict, resolution goes through. *)
(** The theorem at the scenario with both options, in the table context. *)
Lemma validator_rejects_query_with_table_witness :
  supplies "query" conflicting_options = true /\
  supplies "table" conflicting_options = true /\
  (exists e,
     tds_fdw_validator conflicting_options ForeignTableRelationId
       (fresh (Script.healthy two_rows))
     = (Raised e, fresh (Script.healthy two_rows)) /\
     is_ConfigurationError e = true) /\
  (exists os,
     tdsGetOptions (mkForeignCatalog conflicting_options [] [])
       (fresh (Script.healthy two_rows))
     = (Done os, fresh (Script.healthy two_rows)) /\
     is_null (query os) = false /\ is_null (table os) = false).
Proof.
  split; [reflexivity|]. split; [reflexivity|].
  apply (validator_rejects_query_with_table (L := Script.library)
           conflicting_options [] [] ForeignTableRelationId
           (fresh (Script.healthy two_rows)));
    reflexivity.
Defined.

(** C1 as worded fails: resolution of a configuration with both [query] and
    [table] returns a plan instead of a configuration error, and the scan
    that follows goes on to open the connection. *)
Lemma resolution_accepts_query_with_table :
  supplies "query" (merged_options conflicting_cat) = true /\
  supplies "table" (merged_options conflicting_cat) = true /\
  tdsGetOptions conflicting_cat (fresh (Script.healthy two_rows))
  = (Done (mkTdsFdwOptionSet (Some "127.0.0.1") None None 0 None None None
             (Some "SELECT id FROM t") (Some "t")),
     fresh (Script.healthy two_rows)) /\
  fst (tdsBeginForeignScan conflicting_cat (fresh (Script.healthy two_rows)))
  = Done tt /\
  dbopen_hosts
    (calls (snd (tdsBeginForeignScan conflicting_cat
                   (fresh (Script.healthy two_rows)))))
  = ["127.0.0.1"].
Proof. repeat split. Qed.

(** The validator on small lists: the message of the conflict names the
    option met second; an option of another context is refused with the
    names valid in this one; a repeated option is refused, except a port
    after a port that read as 0. *)
Example validator_messages :
  let run (options : list DefElem) (catalog : Oid) :=
    fst (tds_fdw_validator options catalog (fresh (Script.healthy two_rows))) in
  run [mkDefElem "query" "SELECT id FROM t"; mkDefElem "table" "t"]
    ForeignTableRelationId
  = Raised (report ERRCODE_SYNTAX_ERROR
              "Conflicting options: table cannot be used with query") /\
  run [mkDefElem "table" "t"; mkDefElem "query" "SELECT id FROM t"]
    ForeignTableRelationId
  = Raised (report ERRCODE_SYNTAX_ERROR
              "Conflicting options: query cannot be used with table") /\
  run [mkDefElem "table" "t"; mkDefElem "username" "reader"]
    ForeignTableRelationId
  = Raised (mkErrorData (Some ERRCODE_FDW_INVALID_OPTION_NAME)
              ("Invalid option " +++ double_quote +++ "username"
               +++ double_quote)
              (Some "Valid options in this context are: database, query, table"))
  /\
  run [mkDefElem "servername" "a"; mkDefElem "servername" "b"]
    ForeignServerRelationId
  = Raised (report ERRCODE_SYNTAX_ERROR "Redundant option: servername (b)") /\
  run [mkDefElem "port" "0"; mkDefElem "port" "1433"] ForeignServerRelationId
  = Done tt /\
  run [mkDefElem "table" "t"] ForeignTableRelationId = Done tt.
Proof. vm_compute. repeat split. Qed.

(** The theorem at a configuration where the server name is given by the
    table and the server, and the user name by the server and the mapping. *)
Lemma resolution_takes_last_occurrence_witness :
  let cat :=
    mkForeignCatalog
      [mkDefElem "table" "t"; mkDefElem "servername" "from-table"]
      [mkDefElem "servername" "from-server"; mkDefElem "port" "1433";
       mkDefElem "username" "server-user"]
      [mkDefElem "username" "mapped-user"] in
  let os :=
    mkTdsFdwOptionSet (Some "from-server") None None 1433
      (Some "mapped-user") None None None (Some "t") in
  tdsGetOptions cat (fresh (Script.healthy two_rows))
  = (Done os, fresh (Script.healthy two_rows)) /\
  os = resolved_by_last_occurrence cat /\
  os = resolved_by_precedence cat /\
  forall name,
    last_value name
      (f_table_options cat ++ f_server_options cat ++ f_mapping_options cat)
    = precedence name cat.
Proof.
  intros cat os. split; [reflexivity|].
  apply (resolution_takes_last_occurrence (L := Script.library) cat
           (fresh (Script.healthy two_rows)) os
           (fresh (Script.healthy two_rows))).
  reflexivity.
Defined.

(** The theorem at the [employees] configuration, whose server is remote. *)
Lemma estimate_costs_by_servername_witness :
  let s := fresh (Script.healthy two_rows) in
  let os :=
    mkTdsFdwOptionSet (Some "dbhost") None None 1433 (Some "reader")
      (Some "secret") None None (Some "employees") in
  tdsGetOptions employees_cat s = (Done os, s) /\
  exists host,
    servername os = Some host /\
    let startup_cost :=
      if String.eqb host "127.0.0.1" || String.eqb host "localhost"
      then 0 else 25 in
    tdsGetStartupCost os s = (Done startup_cost, s) /\
    tdsEstimateCosts employees_cat s
    = (Done (startup_cost, double_add (baserel_rows s) startup_cost), s) /\
    (Z.abs (baserel_rows s) + 25 <= 2 ^ 53 ->
     tdsEstimateCosts employees_cat s
     = (Done (startup_cost, baserel_rows s + startup_cost), s)).
Proof.
  intros s os. split; [reflexivity|].
  apply (estimate_costs_by_servername (L := Script.library) employees_cat s
           os s).
  reflexivity.
Defined.

(** The row estimate of the scenario is within the bound, and its total
    cost is the row estimate plus 25. *)
Example employees_costs :
  let s := fresh (Script.healthy two_rows) in
  Z.abs (baserel_rows s) + 25 <= 2 ^ 53 /\
  tdsEstimateCosts employees_cat s = (Done (25, baserel_rows s + 25), s).
Proof. split; [vm_compute; discriminate|vm_compute; reflexivity]. Qed.

(** Beyond 2^53 the sum is rounded: a row estimate of 10^17 and the
    startup cost of a remote server give a total cost of 10^17 + 32. *)
Example total_cost_is_a_double :
  let s : @state Script.library :=
    mkState (L := Script.library) (Script.start (Script.healthy two_rows))
      [] [] None 100000000000000000 100000000000000000 in
  tdsEstimateCosts employees_cat s = (Done (25, 100000000000000032), s).
Proof. vm_compute. reflexivity. Qed.

(** ** Session set-up: properties *)

Arguments strlen : simpl never.
Arguments snprintf : simpl never.
Arguments string_of_int : simpl never.
Arguments atoi : simpl never.
Arguments query_prefix : simpl never.

Lemma strlen_append (a b : string) : strlen (a +++ b) = strlen a + strlen b.
Proof.
  unfold strlen. induction a as [|c a IH]; simpl String.length.
  - reflexivity.
  - rewrite !Nat2Z.inj_succ. simpl in IH. lia.
Qed.

Lemma substring_whole (a : string) : String.substring 0 (String.length a) a = a.
Proof. induction a as [|c a IH]; simpl; [reflexivity|now rewrite IH]. Qed.

(** [snprintf] with room for the whole text stores the whole text. *)
Lemma snprintf_exact (a : string) : snprintf (strlen a + 1) a = (a, strlen a).
Proof.
  unfold snprintf, strlen.
  replace (Z.of_nat (String.length a) + 1 - 1) with (Z.of_nat (String.length a))
    by lia.
  now rewrite Nat2Z.id, substring_whole.
Qed.

Lemma snprintf_exact_query (t : string) :
  snprintf (strlen query_prefix + strlen t + 1) (query_prefix +++ t)
  = (query_prefix +++ t, strlen (query_prefix +++ t)).
Proof. rewrite <- strlen_append. apply snprintf_exact. Qed.

Lemma digits_value_no_digit acc (s : string) :
  starts_with_digit s = false -> digits_value acc s = acc.
Proof. destruct s as [|c s]; simpl; [reflexivity|]. now intros ->. Qed.

Lemma atoi_zero : atoi "0" = 0.
Proof. reflexivity. Qed.

(** A value without a number in it reads as 0. *)
Lemma atoi_not_numeric (v : string) : numeric v = false -> atoi v = 0.
Proof.
  unfold numeric, atoi, strtol10.
  destruct (skip_spaces v) as [|c rest]; [reflexivity|].
  destruct (Ascii.eqb c "-"); [|destruct (Ascii.eqb c "+")]; intros H.
  - now rewrite digits_value_no_digit.
  - now rewrite digits_value_no_digit.
  - simpl. now rewrite H.
Qed.

Lemma dbopen_hosts_app (a b : list Call) :
  dbopen_hosts (a ++ b) = dbopen_hosts a ++ dbopen_hosts b.
Proof.
  induction a as [|c a IH]; simpl; [reflexivity|].
  destruct c; simpl; now rewrite IH.
Qed.

Lemma filter_other_class (P Q : Call -> bool) (tr : list Call) :
  (forall c, P c = true -> Q c = false) ->
  forallb P tr = true -> filter Q tr = [].
Proof.
  intros HPQ. induction tr as [|c tr IH]; simpl; [reflexivity|].
  intros H. apply andb_true_iff in H. destruct H as [Hc Htr].
  now rewrite (HPQ c Hc), IH.
Qed.

Lemma setup_is_not_compile_execute c :
  is_session_setup c = true -> is_compile_execute c = false.
Proof. now destruct c. Qed.

Lemma setup_is_not_release c :
  is_session_setup c = true -> is_release c = false.
Proof. now destruct c. Qed.

Lemma row_access_is_not_compile_execute c :
  is_row_access c = true -> is_compile_execute c = false.
Proof. now destruct c. Qed.

Lemma row_access_is_not_release c :
  is_row_access c = true -> is_release c = false.
Proof. now destruct c. Qed.

(** A sequence that returns: its first part returned, and so did the
    rest, run on its result. *)
Lemma bind_done {L : DBLibrary} {A B} (m : @M L A) (k : A -> @M L B) s b s' :
  bind m k s = (Done b, s') ->
  exists a s1, m s = (Done a, s1) /\ k a s1 = (Done b, s').
Proof.
  unfold bind. destruct (m s) as [[a|e|] s1]; intros H;
    [eauto | discriminate | discriminate].
Qed.

Tactic Notation "monad_inv" hyp(H) "as" ident(a) ident(s1) ident(H1) :=
  apply bind_done in H; destruct H as (a & s1 & H1 & H).

Section Session.

Context {L : DBLibrary}.
Implicit Types (s : @state L) (cat : ForeignCatalog) (os : TdsFdwOptionSet)
  (login : LOGINREC_ptr) (dbproc : DBPROCESS_ptr).

Ltac unfold_setup :=
  unfold tdsSetupConnection, tdsSetupConnection_query, bind, ret, ereport,
    palloc, pfree, undefined, sprintf, DBSETLUSER, DBSETLPWD, DBSETLCHARSET,
    DBSETLNATLANG, dbopen, dbuse, lib_call.

Ltac run_setup := unfold_setup; simpl.

Ltac branches :=
  repeat (match goal with
          | |- context [if ?c then _ else _] => destruct c eqn:?
          | |- context [match ?x with Some _ => _ | None => _ end] =>
              destruct x eqn:?
          | |- context [let '(_, _) := ?x in _] => destruct x eqn:?
          end; simpl).

(** Whatever happens in [tdsSetupConnection], it only makes set-up calls
    and leaves the scan state and the relation entry alone. *)
Lemma tdsSetupConnection_frame os login s :
  let s' := snd (tdsSetupConnection os login s) in
  (exists tr, calls s' = calls s ++ tr /\ forallb is_session_setup tr = true)
  /\ notices s' = notices s /\ fdw_state s' = fdw_state s
  /\ baserel_rows s' = baserel_rows s /\ baserel_tuples s' = baserel_tuples s.
Proof.
  run_setup. branches; repeat apply conj; try reflexivity;
    rewrite <- ?app_assoc; simpl; eexists; (split; [reflexivity|reflexivity]).
Qed.

(** The host string [dbopen] gets: the server name, followed by a colon
    and the port when the port member is not 0.  The buffer has room for
    the name and nine more characters, so the port's text may have eight. *)
Lemma tdsSetupConnection_host os login s host :
  servername os = Some host ->
  port os = 0 \/ strlen (string_of_int (port os)) <= 8 ->
  dbopen_hosts (calls (snd (tdsSetupConnection os login s)))
  = dbopen_hosts (calls s)
    ++ [if port os =? 0 then host
        else host +++ ":" +++ string_of_int (port os)].
Proof.
  intros Hhost Hfit.
  assert (Hroom :
            (strlen (if port os =? 0 then host
                     else host +++ ":" +++ string_of_int (port os)) + 1
             <=? (strlen host + 10) * 1) = true).
  { apply Z.leb_le. destruct (port os =? 0) eqn:E.
    - lia.
    - apply Z.eqb_neq in E. rewrite !strlen_append.
      change (strlen ":") with 1. lia. }
  unfold_setup. rewrite Hhost. cbv beta iota zeta.
  destruct (port os =? 0); cbv beta iota zeta delta [negb];
    rewrite Hroom; simpl;
    branches; rewrite ?dbopen_hosts_app; simpl;
    rewrite ?dbopen_hosts_app; simpl;
    rewrite ?app_nil_r; try reflexivity.
Qed.

(** When [tdsSetupConnection] returns, it returns 0 with an open
    connection, and the query of the plan is the explicit one or, without
    one, the prefix followed by the table name. *)
Lemma tdsSetupConnection_done os login s rc os' dbproc s' :
  tdsSetupConnection os login s = (Done (rc, os', dbproc), s') ->
  rc = 0 /\ is_null dbproc = false /\
  os' = match query os with
        | Some q => os
        | None =>
            set_query (option_map (fun t => query_prefix +++ t) (table os)) os
        end.
Proof.
  unfold_setup.
  destruct (query os) as [q|] eqn:Hq, (table os) as [t|] eqn:Ht;
    cbv beta iota; rewrite ?snprintf_exact_query; simpl;
    branches; intros H; inversion H; subst; auto.
Qed.

(** A scan that has begun: the plan was resolved, the session was set up
    with set-up calls only, and the scan state holds the two handles, the
    query of the plan, [first = 1] and [row = 0]. *)
Lemma tdsBeginForeignScan_done cat s s' :
  tdsBeginForeignScan cat s = (Done tt, s') ->
  exists os login os' dbproc s1 s2 tr,
    tdsGetOptions cat s = (Done os, s) /\
    tdsSetupConnection os login s1 = (Done (0, os', dbproc), s2) /\
    fdw_state s' =
      Some (mkTdsFdwExecutionState login dbproc (query os') 1 0) /\
    calls s' = calls s ++ tr /\ forallb is_session_setup tr = true.
Proof.
  intros H. unfold tdsBeginForeignScan in H.
  monad_inv H as os s1 Hopt.
  destruct (tdsGetOptions_done _ _ _ _ Hopt) as (-> & Hos & _).
  monad_inv H as rc s2 Hinit. inversion Hinit; subst rc s2; clear Hinit.
  monad_inv H as u s3 Hchk.
  destruct (lib_dbinit L (lib s) =? FAIL); [discriminate|].
  inversion Hchk; subst u s3; clear Hchk.
  monad_inv H as u s4 Herr. inversion Herr; subst u s4; clear Herr.
  monad_inv H as u s5 Hmsg. inversion Hmsg; subst u s5; clear Hmsg.
  monad_inv H as login s6 Hlogin. inversion Hlogin; subst s6; clear Hlogin.
  monad_inv H as u s7 Hnull.
  destruct (is_null login); [discriminate|].
  inversion Hnull; subst u s7; clear Hnull.
  monad_inv H as r s8 Hsetup. destruct r as [[rc os'] dbproc].
  destruct (tdsSetupConnection_done _ _ _ _ _ _ _ Hsetup) as (-> & _ & _).
  match type of Hsetup with
  | tdsSetupConnection ?o ?l ?st = _ =>
      pose proof (tdsSetupConnection_frame o l st) as Hframe
  end.
  rewrite Hsetup in Hframe. cbv zeta in Hframe. simpl fst in Hframe.
  simpl snd in Hframe.
  destruct Hframe as ((tr & Htr & Hcls) & _).
  simpl in Htr.
  unfold bind, palloc, ret, set_fdw_state in H. simpl in H.
  inversion H; subst s'; clear H. simpl.
  exists os, login, os', dbproc. do 2 eexists.
  exists ([Call_dbinit; Call_dberrhandle; Call_dbmsghandle; Call_dblogin] ++ tr).
  split; [exact Hopt|]. split; [exact Hsetup|].
  split; [reflexivity|]. split.
  - rewrite Htr, <- !app_assoc. reflexivity.
  - simpl. exact Hcls.
Qed.

(** C10.  The port member of the plan is what [atoi] reads in the
    configured value, and 0 without a port option, with the value ["0"] and
    with a value that has no number in it.  With the port member 0 the host
    string handed to [dbopen] is the server name alone; with another port
    (whose text fits the buffer) it is the server name, a colon and the
    port; so the host string has that second form only when the port
    member is not 0. *)
Theorem host_string_has_port_only_when_nonzero cat s os s1 login :
  tdsGetOptions cat s = (Done os, s1) ->
  exists host,
    servername os = Some host /\
    port os = match precedence "port" cat with
              | Some v => atoi v
              | None => 0
              end /\
    (precedence "port" cat = None \/ precedence "port" cat = Some "0" \/
     (exists v, precedence "port" cat = Some v /\ numeric v = false) ->
     port os = 0) /\
    (port os = 0 ->
     dbopen_hosts (calls (snd (tdsSetupConnection os login s1)))
     = dbopen_hosts (calls s1) ++ [host]) /\
    (port os <> 0 -> strlen (string_of_int (port os)) <= 8 ->
     dbopen_hosts (calls (snd (tdsSetupConnection os login s1)))
     = dbopen_hosts (calls s1)
       ++ [host +++ ":" +++ string_of_int (port os)]) /\
    (dbopen_hosts (calls (snd (tdsSetupConnection os login s1)))
     = dbopen_hosts (calls s1)
       ++ [host +++ ":" +++ string_of_int (port os)] ->
     port os <> 0).
Proof.
  intros H. apply tdsGetOptions_done in H. destruct H as (-> & -> & _).
  eexists. split; [reflexivity|]. split; [reflexivity|]. repeat apply conj.
  - simpl. intros [->|[->|(v & -> & Hv)]];
      [reflexivity|reflexivity|now apply atoi_not_numeric].
  - intros H0.
    erewrite tdsSetupConnection_host by (try reflexivity; now left).
    now rewrite H0.
  - intros Hn Hfit.
    erewrite tdsSetupConnection_host by (try reflexivity; now right).
    apply Z.eqb_neq in Hn. now rewrite Hn.
  - intros Hhosts H0.
    erewrite tdsSetupConnection_host in Hhosts
      by (try reflexivity; now left).
    rewrite H0 in Hhosts. simpl in Hhosts.
    apply app_inv_head in Hhosts. inversion Hhosts as [Hname].
    apply (f_equal strlen) in Hname. rewrite !strlen_append in Hname.
    unfold strlen in Hname. simpl in Hname. lia.
Qed.

End Session.

(** The theorem at the [employees] configuration, whose port is 1433. *)
Lemma host_string_has_port_only_when_nonzero_witness :
  let s := fresh (Script.healthy two_rows) in
  let os :=
    mkTdsFdwOptionSet (Some "dbhost") None None 1433 (Some "reader")
      (Some "secret") None None (Some "employees") in
  tdsGetOptions employees_cat s = (Done os, s) /\
  exists host,
    servername os = Some host /\
    port os = match precedence "port" employees_cat with
              | Some v => atoi v
              | None => 0
              end /\
    (precedence "port" employees_cat = None \/
     precedence "port" employees_cat = Some "0" \/
     (exists v, precedence "port" employees_cat = Some v /\ numeric v = false)
     -> port os = 0) /\
    (port os = 0 ->
     dbopen_hosts (calls (snd (tdsSetupConnection os (Some 1%N) s)))
     = dbopen_hosts (calls s) ++ [host]) /\
    (port os <> 0 -> strlen (string_of_int (port os)) <= 8 ->
     dbopen_hosts (calls (snd (tdsSetupConnection os (Some 1%N) s)))
     = dbopen_hosts (calls s)
       ++ [host +++ ":" +++ string_of_int (port os)]) /\
    (dbopen_hosts (calls (snd (tdsSetupConnection os (Some 1%N) s)))
     = dbopen_hosts (calls s)
       ++ [host +++ ":" +++ string_of_int (port os)] ->
     port os <> 0).
Proof.
  intros s os. split; [reflexivity|].
  apply (host_string_has_port_only_when_nonzero (L := Script.library)
           employees_cat s os s (Some 1%N)).
  reflexivity.
Defined.

(** Ports that read as 0 leave the host string without a port; a port of
    nine digits is written past the end of the connection-string buffer. *)
Example port_values :
  let host_for (port_option : list DefElem) :=
    let cat := mkForeignCatalog [mkDefElem "table" "t"] port_option [] in
    let s := fresh (Script.healthy two_rows) in
    (fst (tdsBeginForeignScan cat s),
     dbopen_hosts (calls (snd (tdsBeginForeignScan cat s)))) in
  host_for [] = (Done tt, ["127.0.0.1"]) /\
  host_for [mkDefElem "port" "0"] = (Done tt, ["127.0.0.1"]) /\
  host_for [mkDefElem "port" "tds"] = (Done tt, ["127.0.0.1"]) /\
  host_for [mkDefElem "port" "4294967296"] = (Done tt, ["127.0.0.1"]) /\
  host_for [mkDefElem "port" "1433"] = (Done tt, ["127.0.0.1:1433"]) /\
  host_for [mkDefElem "port" "123456789"] = (Undefined, []).
Proof. repeat split. Qed.

(** ** The scan cursor: properties *)

Section Scan.

Context {L : DBLibrary}.
Implicit Types (s : @state L) (cat : ForeignCatalog)
  (festate : TdsFdwExecutionState) (login : LOGINREC_ptr)
  (dbproc : DBPROCESS_ptr).

Lemma add_calls_add_calls (a b : list Call) s :
  add_calls b (add_calls a s) = add_calls (a ++ b) s.
Proof. unfold add_calls. simpl. now rewrite app_assoc. Qed.

Lemma add_calls_nil s : add_calls [] s = s.
Proof. unfold add_calls. rewrite app_nil_r. now destruct s. Qed.

(** [tdsConvertToCString] in closed form.  It never fails, and what it
    returns depends on [dbwillconvert] alone: [NULL] when the library
    cannot convert, the destination buffer otherwise, whatever [dbconvert]
    returned. *)
Lemma tdsConvertToCString_run dbproc srctype (src : list Byte.byte) srclen s :
  tdsConvertToCString dbproc srctype src srclen s =
  let '(real_destlen, destlen, desttype) :=
    tdsConvertToCString_switch srctype srclen in
  if lib_dbwillconvert L (lib s) srctype desttype =? FALSE
  then (Done None, add_calls [Call_dbwillconvert srctype desttype] s)
  else
    (Done (Some (snd (lib_dbconvert L (lib s) dbproc srctype src srclen
                        desttype destlen))),
     add_calls
       [Call_dbwillconvert srctype desttype;
        Call_dbconvert dbproc srctype src srclen desttype destlen] s).
Proof.
  unfold tdsConvertToCString.
  destruct (tdsConvertToCString_switch srctype srclen)
    as [[real_destlen destlen] desttype].
  unfold bind, ret, palloc, ereport, dbwillconvert, dbconvert, lib_read,
    add_calls.
  simpl.
  destruct (lib_dbwillconvert L (lib s) srctype desttype =? FALSE); simpl;
    [reflexivity|].
  destruct (lib_dbconvert L (lib s) dbproc srctype src srclen desttype destlen)
    as [ret_value dest].
  simpl. rewrite <- app_assoc.
  destruct (ret_value =? FAIL); [reflexivity|].
  destruct (ret_value =? -1); reflexivity.
Qed.

(** The loop body in closed form. *)
Lemma tdsIterateForeignScan_column_run dbproc ncol s :
  tdsIterateForeignScan_column dbproc ncol s =
  let s3 := add_calls (column_reads dbproc ncol) s in
  if lib_dbdatlen L (lib s) dbproc (ncol + 1) =? 0 then (Done None, s3)
  else
    match lib_dbdata L (lib s) dbproc (ncol + 1) with
    | None => (Done None, s3)
    | Some bytes =>
        tdsConvertToCString dbproc
          (lib_dbcoltype L (lib s) dbproc (ncol + 1)) bytes
          (lib_dbdatlen L (lib s) dbproc (ncol + 1)) s3
    end.
Proof.
  unfold tdsIterateForeignScan_column, bind, ret, dbcoltype, dbdatlen, dbdata,
    lib_read, add_calls, column_reads.
  simpl. rewrite <- !app_assoc. simpl.
  destruct (lib_dbdatlen L (lib s) dbproc (ncol + 1) =? 0); [reflexivity|].
  destruct (lib_dbdata L (lib s) dbproc (ncol + 1)); reflexivity.
Qed.

(** The loop body always produces a cell; it only reads the row and
    converts, and the cell is a function of the world alone. *)
Lemma tdsIterateForeignScan_column_frame dbproc ncol s :
  exists value tr,
    tdsIterateForeignScan_column dbproc ncol s = (Done value, add_calls tr s)
    /\ forallb is_row_access tr = true
    /\ forall s0, lib s0 = lib s ->
        fst (tdsIterateForeignScan_column dbproc ncol s0) = Done value.
Proof.
  assert (Hval : forall s0, lib s0 = lib s ->
            fst (tdsIterateForeignScan_column dbproc ncol s0)
            = fst (tdsIterateForeignScan_column dbproc ncol s)).
  { intros s0 E. rewrite !tdsIterateForeignScan_column_run. cbv zeta.
    rewrite E.
    destruct (lib_dbdatlen L (lib s) dbproc (ncol + 1) =? 0); [reflexivity|].
    destruct (lib_dbdata L (lib s) dbproc (ncol + 1)); [|reflexivity].
    rewrite !tdsConvertToCString_run. simpl. rewrite E.
    destruct (tdsConvertToCString_switch _ _) as [[r d] t].
    destruct (lib_dbwillconvert L (lib s) _ t =? FALSE); reflexivity. }
  revert Hval. rewrite tdsIterateForeignScan_column_run. cbv zeta.
  destruct (lib_dbdatlen L (lib s) dbproc (ncol + 1) =? 0);
    [intros Hval; do 2 eexists; split; [reflexivity|split; [reflexivity|exact Hval]]|].
  destruct (lib_dbdata L (lib s) dbproc (ncol + 1));
    [|intros Hval; do 2 eexists; split; [reflexivity|split; [reflexivity|exact Hval]]].
  rewrite tdsConvertToCString_run.
  destruct (tdsConvertToCString_switch _ _) as [[r d] t]. simpl.
  destruct (lib_dbwillconvert L (lib s) _ t =? FALSE);
    rewrite add_calls_add_calls; intros Hval;
    do 2 eexists; (split; [reflexivity|split; [reflexivity|exact Hval]]).
Qed.

(** The column loop always completes; it only reads the row and converts,
    and each value is the one the loop body yields for its column in the
    world the loop started in. *)
Lemma tdsIterateForeignScan_columns_run dbproc (todo : nat) :
  forall ncol s,
  exists values tr,
    tdsIterateForeignScan_columns dbproc todo ncol s
    = (Done values, add_calls tr s)
    /\ forallb is_row_access tr = true
    /\ List.length values = todo
    /\ forall (i : nat) value,
        nth_error values i = Some value ->
        forall s0, lib s0 = lib s ->
        fst (tdsIterateForeignScan_column dbproc (ncol + Z.of_nat i) s0)
        = Done value.
Proof.
  induction todo as [|todo IH]; intros ncol s.
  - exists [], []. simpl. rewrite add_calls_nil. unfold ret.
    repeat apply conj; try reflexivity.
    intros [|i] value H; discriminate.
  - destruct (tdsIterateForeignScan_column_frame dbproc ncol s)
      as (value & tr1 & Hcol & Hcls1 & Hval).
    destruct (IH (ncol + 1) (add_calls tr1 s))
      as (values & tr2 & Hrest & Hcls2 & Hlen & Hvals).
    exists (value :: values), (tr1 ++ tr2).
    simpl. unfold bind. rewrite Hcol, Hrest. unfold ret.
    rewrite add_calls_add_calls. repeat apply conj.
    + reflexivity.
    + now rewrite forallb_app, Hcls1, Hcls2.
    + now rewrite Hlen.
    + intros [|i] v Hnth s0 E.
      * simpl in Hnth. inversion Hnth; subst v.
        rewrite Z.add_0_r. now apply Hval.
      * simpl in Hnth.
        replace (ncol + Z.of_nat (S i)) with (ncol + 1 + Z.of_nat i) by lia.
        apply (Hvals i v Hnth). exact E.
Qed.

Ltac run_scan :=
  unfold tdsIterateForeignScan_first, tdsIterateForeignScan_fetch, set_first,
    incr_row, get_festate, set_fdw_state, bind, ret, ereport, palloc, dbcmd,
    dbsqlexec, dbresults, dbnextrow, dbnumcols, lib_call, lib_read.

Ltac answers :=
  repeat (match goal with
          | |- context [if ?c then _ else _] => destruct c eqn:?
          end; simpl).

(** The first-iteration block: it clears [first] before anything else, then
    makes the three calls in order, stopping at the first that fails. *)
Lemma tdsIterateForeignScan_first_cases festate s :
  fdw_state s = Some festate ->
  let r := tdsIterateForeignScan_first festate s in
  exists k : nat,
    (1 <= k <= 3)%nat /\
    calls (snd r) = calls s ++ firstn k (compile_execute_calls festate) /\
    fdw_state (snd r)
    = Some (mkTdsFdwExecutionState (fe_login festate) (fe_dbproc festate)
              (fe_query festate) 0 (fe_row festate)) /\
    match fst r with
    | Done _ => k = 3%nat
    | Raised _ => True
    | Undefined => False
    end /\
    (lib_dbcmd L (lib s) (fe_dbproc festate) (fe_query festate) <> FAIL ->
     lib_dbsqlexec L
       (lib_effect L (Call_dbcmd (fe_dbproc festate) (fe_query festate))
          (lib s))
       (fe_dbproc festate) <> FAIL ->
     k = 3%nat).
Proof.
  intros Hfe. run_scan. rewrite Hfe. simpl.
  answers; rewrite <- ?app_assoc; simpl;
    repeat match goal with
           | E : (_ =? _) = true |- _ => apply Z.eqb_eq in E
           end;
    first [ exists 3%nat; repeat apply conj; auto; lia
          | exists 2%nat; repeat apply conj; auto; try lia; congruence
          | exists 1%nat; repeat apply conj; auto; try lia; congruence ].
Qed.

(** Fetching: one [dbnextrow], then only reads and conversions; the scan
    state keeps its session and its [first]. *)
Lemma tdsIterateForeignScan_fetch_cases festate cur slot s :
  fdw_state s = Some cur ->
  let r := tdsIterateForeignScan_fetch festate slot s in
  exists tr row',
    calls (snd r) = calls s ++ Call_dbnextrow (fe_dbproc festate) :: tr /\
    forallb is_row_access tr = true /\
    fdw_state (snd r)
    = Some (mkTdsFdwExecutionState (fe_login cur) (fe_dbproc cur)
              (fe_query cur) (fe_first cur) row') /\
    (fe_row cur < INT_MAX -> fst r <> Undefined).
Proof.
  intros Hfe. run_scan. rewrite Hfe. simpl.
  destruct (lib_dbnextrow L (lib s) (fe_dbproc festate) =? NO_MORE_ROWS);
    simpl.
  { exists [], (fe_row cur). destruct cur. repeat apply conj; auto.
    discriminate. }
  destruct (lib_dbnextrow L (lib s) (fe_dbproc festate) =? REG_ROW); simpl.
  - destruct (fe_row cur <? INT_MAX) eqn:Hrow; simpl.
    + match goal with
      | |- context [tdsIterateForeignScan_columns ?d ?n ?c ?st] =>
          destruct (tdsIterateForeignScan_columns_run d n c st)
            as (values & tr & Hrun & Hcls & _); rewrite Hrun
      end.
      simpl. eexists (_ :: tr), _. rewrite <- !app_assoc. simpl.
      repeat apply conj; [reflexivity|exact Hcls|reflexivity|discriminate].
    + apply Z.ltb_ge in Hrow. unfold undefined. simpl.
      exists [], (fe_row cur).
      repeat apply conj; [reflexivity|reflexivity|now destruct cur|lia].
  - answers; exists [], (fe_row cur); destruct cur;
      repeat apply conj; auto; discriminate.
Qed.

(** One request for the next row, whatever its outcome: [k] of the three
    compile-and-execute calls, then row access only.  [k] is 0 once [first]
    is cleared, and at least 1 (3 when the request returns) while it is
    set; afterwards [first] is cleared and the session is the same. *)
Lemma tdsIterateForeignScan_cases festate s :
  fdw_state s = Some festate ->
  let r := tdsIterateForeignScan s in
  exists (k : nat) tr row',
    calls (snd r) = calls s ++ firstn k (compile_execute_calls festate) ++ tr
    /\ forallb is_row_access tr = true
    /\ fdw_state (snd r)
       = Some (mkTdsFdwExecutionState (fe_login festate) (fe_dbproc festate)
                 (fe_query festate) 0 row')
    /\ (fe_first festate = 0 -> k = 0%nat)
    /\ (fe_first festate <> 0 -> (1 <= k <= 3)%nat)
    /\ (forall slot, fst r = Done slot -> fe_first festate <> 0 ->
        k = 3%nat /\
        exists rest, tr = Call_dbnextrow (fe_dbproc festate) :: rest)
    /\ (fe_first festate <> 0 ->
        lib_dbcmd L (lib s) (fe_dbproc festate) (fe_query festate) <> FAIL ->
        lib_dbsqlexec L
          (lib_effect L (Call_dbcmd (fe_dbproc festate) (fe_query festate))
             (lib s))
          (fe_dbproc festate) <> FAIL ->
        k = 3%nat)
    /\ (fe_row festate < INT_MAX -> fst r <> Undefined).
Proof.
  intros Hfe. unfold tdsIterateForeignScan, bind, get_festate. rewrite Hfe.
  destruct (fe_first festate =? 0) eqn:E; simpl.
  - apply Z.eqb_eq in E.
    destruct (tdsIterateForeignScan_fetch_cases festate festate None s Hfe)
      as (tr & row' & Hc & Hcls & Hst & Hdef).
    exists 0%nat, (Call_dbnextrow (fe_dbproc festate) :: tr), row'.
    rewrite E in Hst. unfold ret. simpl.
    repeat apply conj; auto; try lia; try congruence.
  - apply Z.eqb_neq in E.
    destruct (tdsIterateForeignScan_first_cases festate s Hfe)
      as (k & Hk & Hc & Hst & Hout & Hall).
    destruct (tdsIterateForeignScan_first festate s) as [[u|e|] s1];
      simpl in *; [| |contradiction].
    + destruct (tdsIterateForeignScan_fetch_cases festate _ None s1 Hst)
        as (tr & row' & Hc' & Hcls & Hst' & Hdef).
      exists k, (Call_dbnextrow (fe_dbproc festate) :: tr), row'.
      rewrite Hc', Hc, <- app_assoc. simpl in Hst'.
      repeat apply conj; auto; try lia; try congruence.
      intros slot _ _. split; [assumption|eauto].
    + exists k, [], (fe_row festate). rewrite app_nil_r.
      repeat apply conj; auto; try lia; try congruence; try discriminate.
Qed.

Lemma filter_compile_execute_own festate (k : nat) :
  filter is_compile_execute (firstn k (compile_execute_calls festate))
  = firstn k (compile_execute_calls festate).
Proof. destruct k as [|[|[|[|k]]]]; reflexivity. Qed.

Lemma filter_release_compile_execute festate (k : nat) :
  filter is_release (firstn k (compile_execute_calls festate)) = [].
Proof. destruct k as [|[|[|[|k]]]]; reflexivity. Qed.

Lemma iterate_times_succ (n : nat) s :
  iterate_times (S n) s = snd (tdsIterateForeignScan (iterate_times n s)).
Proof. reflexivity. Qed.

(** Any number of requests, whatever their outcomes: the session stays
    the one of the scan state, nothing is released, and from a state with
    [first] cleared nothing is compiled or executed. *)
Lemma iterate_times_frame (n : nat) s festate :
  fdw_state s = Some festate ->
  exists festate' tr,
    fdw_state (iterate_times n s) = Some festate'
    /\ same_session festate festate'
    /\ calls (iterate_times n s) = calls s ++ tr
    /\ filter is_release tr = []
    /\ (fe_first festate = 0 ->
        fe_first festate' = 0 /\ forallb is_row_access tr = true).
Proof.
  intros Hfe. induction n as [|n IH].
  - exists festate, []. simpl. rewrite app_nil_r.
    repeat apply conj; auto.
  - destruct IH as (fn & trn & Hst & (Hl & Hd & Hq) & Hc & Hrel & Hfirst).
    rewrite iterate_times_succ.
    destruct (tdsIterateForeignScan_cases fn (iterate_times n s) Hst)
      as (k & tr & row' & Hc' & Hcls & Hst' & Hk0 & _ & _ & _ & _).
    eexists _, (trn ++ firstn k (compile_execute_calls fn) ++ tr).
    split; [exact Hst'|]. split; [repeat split; simpl; congruence|].
    split; [rewrite Hc', Hc, <- app_assoc; reflexivity|].
    split.
    + rewrite !filter_app, Hrel, filter_release_compile_execute.
      simpl. apply (filter_other_class is_row_access); auto.
      apply row_access_is_not_release.
    + intros H0. destruct (Hfirst H0) as [Hfn Htrn].
      rewrite (Hk0 Hfn). simpl. split; [reflexivity|].
      now rewrite forallb_app, Htrn, Hcls.
Qed.

Lemma tdsEndForeignScan_run festate s :
  fdw_state s = Some festate ->
  tdsEndForeignScan s = (Done tt, snd (tdsEndForeignScan s)) /\
  calls (snd (tdsEndForeignScan s)) = calls s ++ release_calls festate.
Proof.
  intros Hfe.
  unfold tdsEndForeignScan, get_festate, bind, ret, pfree, dbclose,
    dbloginfree, dbexit, lib_call.
  rewrite Hfe. destruct (fe_query festate); simpl;
    rewrite <- !app_assoc; split; reflexivity.
Qed.

(** A request that returns a row returns the values of the column loop,
    run over as many columns as there are values, in the world it ends
    in. *)
Lemma tdsIterateForeignScan_row festate s values s' :
  fdw_state s = Some festate ->
  tdsIterateForeignScan s = (Done (Some values), s') ->
  exists s1,
    lib s1 = lib s' /\
    tdsIterateForeignScan_columns (fe_dbproc festate) (List.length values) 0 s1
    = (Done values, s').
Proof.
  intros Hfe H. unfold tdsIterateForeignScan in H.
  monad_inv H as f s1 Hget. unfold get_festate in Hget. rewrite Hfe in Hget.
  inversion Hget; subst f s1; clear Hget.
  monad_inv H as u s2 Hfirst. clear Hfirst.
  unfold tdsIterateForeignScan_fetch in H.
  monad_inv H as rc s3 Hnext.
  destruct (rc =? NO_MORE_ROWS); simpl in H;
    [unfold bind, ereport, ret in H; discriminate|].
  destruct (rc =? REG_ROW);
    [|destruct (rc =? BUF_FULL); [|destruct (rc =? FAIL)];
      unfold bind, ereport in H; discriminate].
  monad_inv H as u1 s4 Hrow.
  monad_inv H as ncols s5 Hcols.
  monad_inv H as ok s6 Halloc. inversion Halloc; subst ok s6; clear Halloc.
  monad_inv H as u2 s7 Hok. inversion Hok; subst u2 s7; clear Hok.
  monad_inv H as vs s8 Hloop. inversion H; subst vs s8; clear H.
  destruct (tdsIterateForeignScan_columns_run (fe_dbproc festate)
              (Z.to_nat ncols) 0 s5)
    as (values' & tr & Hrun & _ & Hlen & _).
  rewrite Hrun in Hloop. inversion Hloop; subst values' s'; clear Hloop.
  exists s5. rewrite Hlen. split; [reflexivity|exact Hrun].
Qed.

(** C6.  A column whose reported data length is 0, or whose data pointer
    is [NULL], gets a [NULL] cell: the loop body returns [NULL] after its
    three reads, none of which is a conversion call, and it cannot fail;
    and in the tuple of any request that returns a row, the value at the
    column's position is [NULL]. *)
Theorem zero_length_or_null_data_gives_NULL dbproc ncol s :
  lib_dbdatlen L (lib s) dbproc (ncol + 1) = 0 \/
  lib_dbdata L (lib s) dbproc (ncol + 1) = None ->
  tdsIterateForeignScan_column dbproc ncol s
  = (Done None, add_calls (column_reads dbproc ncol) s) /\
  filter is_conversion (column_reads dbproc ncol) = [] /\
  (forall s0 festate values s',
      fdw_state s0 = Some festate -> fe_dbproc festate = dbproc ->
      tdsIterateForeignScan s0 = (Done (Some values), s') ->
      lib s' = lib s ->
      0 <= ncol < Z.of_nat (List.length values) ->
      nth_error values (Z.to_nat ncol) = Some None).
Proof.
  intros Hnull.
  assert (Hcol : forall s0, lib s0 = lib s ->
            tdsIterateForeignScan_column dbproc ncol s0
            = (Done None, add_calls (column_reads dbproc ncol) s0)).
  { intros s0 E. rewrite tdsIterateForeignScan_column_run. cbv zeta.
    rewrite E. destruct Hnull as [H|H]; rewrite H.
    - reflexivity.
    - now destruct (lib_dbdatlen L (lib s) dbproc (ncol + 1) =? 0). }
  split; [now apply Hcol|]. split; [reflexivity|].
  intros s0 festate values s' Hfe Hd Hrow Hlib Hrange.
  destruct (tdsIterateForeignScan_row festate s0 values s' Hfe Hrow)
    as (s1 & Hlib1 & Hloop).
  rewrite Hd in Hloop.
  destruct (tdsIterateForeignScan_columns_run dbproc (List.length values) 0 s1)
    as (values' & tr & Hrun & _ & _ & Hvals).
  rewrite Hrun in Hloop. inversion Hloop; subst values'; clear Hloop.
  destruct (nth_error values (Z.to_nat ncol)) as [v|] eqn:Hnth.
  - specialize (Hvals _ _ Hnth s1 eq_refl).
    rewrite Z2Nat.id, Z.add_0_l in Hvals by lia.
    rewrite Hcol in Hvals by congruence.
    simpl in Hvals. now inversion Hvals.
  - apply nth_error_None in Hnth. lia.
Qed.

(** C2.  A scan that has begun has made no compile, execute or result-set
    call and has [first] set.  The first request for a row makes the three
    calls in order: [dbcmd] always, all three unless [dbcmd] or [dbsqlexec]
    fails, and all three followed by [dbnextrow] when the request returns;
    it clears [first] before the first of them, and [first] stays cleared.
    Every later request, whatever happened before, makes row access calls
    only, so that over any number of requests the compile-and-execute calls
    are those of the first request. *)
Theorem query_issued_once_on_first_iteration cat s0 s :
  tdsBeginForeignScan cat s0 = (Done tt, s) ->
  exists festate,
    fdw_state s = Some festate /\ fe_first festate = 1 /\
    filter is_compile_execute (calls s) = filter is_compile_execute (calls s0)
    /\
    (exists k : nat,
        (1 <= k <= 3)%nat /\
        filter is_compile_execute (calls (iterate_times 1 s))
        = filter is_compile_execute (calls s)
          ++ firstn k (compile_execute_calls festate) /\
        (lib_dbcmd L (lib s) (fe_dbproc festate) (fe_query festate) <> FAIL ->
         lib_dbsqlexec L
           (lib_effect L
              (Call_dbcmd (fe_dbproc festate) (fe_query festate)) (lib s))
           (fe_dbproc festate) <> FAIL ->
         k = 3%nat) /\
        forall slot,
          fst (tdsIterateForeignScan s) = Done slot ->
          exists rest,
            calls (iterate_times 1 s)
            = calls s ++ compile_execute_calls festate
              ++ Call_dbnextrow (fe_dbproc festate) :: rest /\
            forallb is_row_access rest = true)
    /\
    (forall n : nat,
        (1 <= n)%nat ->
        exists tr,
          calls (iterate_times (S n) s) = calls (iterate_times n s) ++ tr /\
          forallb is_row_access tr = true)
    /\
    (forall n : nat,
        (1 <= n)%nat ->
        filter is_compile_execute (calls (iterate_times n s))
        = filter is_compile_execute (calls (iterate_times 1 s)))
    /\
    (forall n : nat,
        (1 <= n)%nat ->
        exists festate',
          fdw_state (iterate_times n s) = Some festate' /\
          fe_first festate' = 0).
Proof.
  intros Hbegin. apply tdsBeginForeignScan_done in Hbegin.
  destruct Hbegin as (os & login & os' & dbproc & s1 & s2 & tr0
                      & _ & _ & Hfe & Hc0 & Hcls0).
  eexists. split; [exact Hfe|]. split; [reflexivity|].
  set (festate := mkTdsFdwExecutionState login dbproc (query os') 1 0) in *.
  destruct (tdsIterateForeignScan_cases festate s Hfe)
    as (k & tr & row' & Hc & Hcls & Hst & _ & Hk & Hdone & Hall & _).
  assert (Hcleared : forall n : nat,
             (1 <= n)%nat ->
             exists festate',
               fdw_state (iterate_times n s) = Some festate' /\
               fe_first festate' = 0).
  { intros n Hn. destruct n as [|n]; [lia|].
    destruct (iterate_times_frame n (iterate_times 1 s) _ Hst)
      as (fn & trn & Hstn & _ & _ & _ & Hfirst).
    destruct (Hfirst eq_refl) as [Hfn _].
    assert (E : forall m, iterate_times m (iterate_times 1 s)
                          = iterate_times (S m) s).
    { intros m. induction m as [|m IHm]; [reflexivity|].
      rewrite iterate_times_succ, IHm. reflexivity. }
    rewrite E in Hstn. eauto. }
  assert (Hlater : forall n : nat,
             (1 <= n)%nat ->
             exists tr,
               calls (iterate_times (S n) s) = calls (iterate_times n s) ++ tr
               /\ forallb is_row_access tr = true).
  { intros n Hn. destruct (Hcleared n Hn) as (fn & Hstn & Hfn).
    destruct (tdsIterateForeignScan_cases fn _ Hstn)
      as (kn & tr' & rown & Hc' & Hcls' & _ & Hk0 & _).
    rewrite (Hk0 Hfn) in Hc'. simpl in Hc'.
    exists tr'. rewrite iterate_times_succ. auto. }
  repeat apply conj.
  - rewrite Hc0, filter_app.
    rewrite (filter_other_class is_session_setup is_compile_execute tr0
               setup_is_not_compile_execute Hcls0).
    now rewrite app_nil_r.
  - exists k. split; [apply Hk; simpl; lia|]. split; [|split].
    + change (iterate_times 1 s) with (snd (tdsIterateForeignScan s)).
      rewrite Hc, !filter_app, filter_compile_execute_own.
      rewrite (filter_other_class is_row_access is_compile_execute tr
                 row_access_is_not_compile_execute Hcls).
      now rewrite app_nil_r.
    + apply Hall. simpl. lia.
    + intros slot Hslot.
      destruct (Hdone slot Hslot) as (-> & rest & ->); [simpl; lia|].
      exists rest. split; [exact Hc|].
      simpl in Hcls. exact Hcls.
  - exact Hlater.
  - intros n Hn. induction n as [|n IHn]; [lia|].
    destruct n as [|n]; [reflexivity|].
    destruct (Hlater (S n)) as (tr' & Hc' & Hcls'); [lia|].
    rewrite Hc', filter_app.
    rewrite (filter_other_class is_row_access is_compile_execute tr'
               row_access_is_not_compile_execute Hcls').
    rewrite app_nil_r. apply IHn. lia.
  - exact Hcleared.
Qed.

(** C7.  However many rows were asked for after the scan began, and
    whether those requests returned or raised errors, ending the scan
    returns, and it makes exactly three calls: [dbclose] on the connection
    of the scan, [dbloginfree] on its login record and [dbexit], in this
    order.  No release call was made before, so each of them occurs once
    in the calls of the scan. *)
Theorem close_releases_in_order_once cat s0 s (n : nat) :
  tdsBeginForeignScan cat s0 = (Done tt, s) ->
  exists festate s',
    fdw_state s = Some festate /\
    tdsEndForeignScan (iterate_times n s) = (Done tt, s') /\
    calls s' = calls (iterate_times n s) ++ release_calls festate /\
    filter is_release (calls s')
    = filter is_release (calls s0) ++ release_calls festate.
Proof.
  intros Hbegin. apply tdsBeginForeignScan_done in Hbegin.
  destruct Hbegin as (os & login & os' & dbproc & s1 & s2 & tr0
                      & _ & _ & Hfe & Hc0 & Hcls0).
  destruct (iterate_times_frame n s _ Hfe)
    as (fn & trn & Hstn & (Hl & Hd & Hq) & Hcn & Hreln & _).
  destruct (tdsEndForeignScan_run fn (iterate_times n s) Hstn) as [Hend Hce].
  eexists _, _. split; [exact Hfe|]. split; [exact Hend|].
  assert (Hsame : release_calls fn
                  = release_calls
                      (mkTdsFdwExecutionState login dbproc (query os') 1 0)).
  { unfold release_calls. now rewrite <- Hl, <- Hd. }
  rewrite Hce, Hsame. split; [reflexivity|].
  rewrite Hcn, Hc0, !filter_app, Hreln.
  rewrite (filter_other_class is_session_setup is_release tr0
             setup_is_not_release Hcls0).
  now rewrite !app_nil_r.
Qed.

End Scan.

(** The theorem at the second column of the first row of the scenario,
    whose data length is 0. *)
Lemma zero_length_or_null_data_gives_NULL_witness :
  let s := iterate_times 1 employees_begun in
  let dbproc : DBPROCESS_ptr := Some 2%N in
  (lib_dbdatlen Script.library (lib s) dbproc (1 + 1) = 0 \/
   lib_dbdata Script.library (lib s) dbproc (1 + 1) = None) /\
  tdsIterateForeignScan_column dbproc 1 s
  = (Done None, add_calls (column_reads dbproc 1) s) /\
  filter is_conversion (column_reads dbproc 1) = [] /\
  (forall s0 festate values s',
      fdw_state s0 = Some festate -> fe_dbproc festate = dbproc ->
      tdsIterateForeignScan s0 = (Done (Some values), s') ->
      lib s' = lib s ->
      0 <= 1 < Z.of_nat (List.length values) ->
      nth_error values (Z.to_nat 1) = Some None).
Proof.
  intros s dbproc.
  assert (H : lib_dbdatlen Script.library (lib s) dbproc (1 + 1) = 0 \/
              lib_dbdata Script.library (lib s) dbproc (1 + 1) = None)
    by (left; vm_compute; reflexivity).
  split; [exact H|].
  exact (zero_length_or_null_data_gives_NULL (L := Script.library) dbproc 1 s H).
Defined.

(** The first row of the scenario: the character column is converted, the
    absent integer is [NULL]. *)
Example employees_first_row :
  tdsIterateForeignScan employees_begun
  = (Done (Some [Some (text "ab"); None]), iterate_times 1 employees_begun).
Proof. vm_compute. reflexivity. Qed.

(** The theorem at the scan of the scenario. *)
Lemma query_issued_once_on_first_iteration_witness :
  let s0 := fresh (Script.healthy two_rows) in
  let s := employees_begun in
  tdsBeginForeignScan employees_cat s0 = (Done tt, s) /\
  exists festate,
    fdw_state s = Some festate /\ fe_first festate = 1 /\
    filter is_compile_execute (calls s) = filter is_compile_execute (calls s0)
    /\
    (exists k : nat,
        (1 <= k <= 3)%nat /\
        filter is_compile_execute (calls (iterate_times 1 s))
        = filter is_compile_execute (calls s)
          ++ firstn k (compile_execute_calls festate) /\
        (lib_dbcmd Script.library (lib s) (fe_dbproc festate) (fe_query festate) <> FAIL ->
         lib_dbsqlexec Script.library
           (lib_effect Script.library
              (Call_dbcmd (fe_dbproc festate) (fe_query festate)) (lib s))
           (fe_dbproc festate) <> FAIL ->
         k = 3%nat) /\
        forall slot,
          fst (tdsIterateForeignScan s) = Done slot ->
          exists rest,
            calls (iterate_times 1 s)
            = calls s ++ compile_execute_calls festate
              ++ Call_dbnextrow (fe_dbproc festate) :: rest /\
            forallb is_row_access rest = true)
    /\
    (forall n : nat,
        (1 <= n)%nat ->
        exists tr,
          calls (iterate_times (S n) s) = calls (iterate_times n s) ++ tr /\
          forallb is_row_access tr = true)
    /\
    (forall n : nat,
        (1 <= n)%nat ->
        filter is_compile_execute (calls (iterate_times n s))
        = filter is_compile_execute (calls (iterate_times 1 s)))
    /\
    (forall n : nat,
        (1 <= n)%nat ->
        exists festate',
          fdw_state (iterate_times n s) = Some festate' /\
          fe_first festate' = 0).
Proof.
  intros s0 s. split; [vm_compute; reflexivity|].
  apply (query_issued_once_on_first_iteration (L := Script.library)
           employees_cat s0 s).
  vm_compute. reflexivity.
Defined.

(** The scan of the scenario, three requests long: the query is compiled
    and executed in the first request, the others only fetch. *)
Example employees_scan_calls :
  calls (iterate_times 3 employees_begun)
  = calls employees_begun
    ++ [Call_dbcmd (Some 2%N) (Some "SELECT * FROM employees");
        Call_dbsqlexec (Some 2%N); Call_dbresults (Some 2%N);
        Call_dbnextrow (Some 2%N); Call_dbnumcols (Some 2%N);
        Call_dbcoltype (Some 2%N) 1; Call_dbdatlen (Some 2%N) 1;
        Call_dbdata (Some 2%N) 1; Call_dbwillconvert SYBCHAR SYBCHAR;
        Call_dbconvert (Some 2%N) SYBCHAR (text "ab") 2 SYBCHAR (-1);
        Call_dbcoltype (Some 2%N) 2; Call_dbdatlen (Some 2%N) 2;
        Call_dbdata (Some 2%N) 2;
        Call_dbnextrow (Some 2%N); Call_dbnumcols (Some 2%N);
        Call_dbcoltype (Some 2%N) 1; Call_dbdatlen (Some 2%N) 1;
        Call_dbdata (Some 2%N) 1; Call_dbwillconvert SYBCHAR SYBCHAR;
        Call_dbconvert (Some 2%N) SYBCHAR (text "x") 1 SYBCHAR (-1);
        Call_dbcoltype (Some 2%N) 2; Call_dbdatlen (Some 2%N) 2;
        Call_dbdata (Some 2%N) 2; Call_dbwillconvert 56 SYBCHAR;
        Call_dbconvert (Some 2%N) 56 (text "1234") 4 SYBCHAR (-1);
        Call_dbnextrow (Some 2%N)].
Proof. vm_compute. reflexivity. Qed.

(** The theorem at the scan of the scenario, closed after three requests. *)
Lemma close_releases_in_order_once_witness :
  let s0 := fresh (Script.healthy two_rows) in
  let s := employees_begun in
  tdsBeginForeignScan employees_cat s0 = (Done tt, s) /\
  exists festate s',
    fdw_state s = Some festate /\
    tdsEndForeignScan (iterate_times 3 s) = (Done tt, s') /\
    calls s' = calls (iterate_times 3 s) ++ release_calls festate /\
    filter is_release (calls s')
    = filter is_release (calls s0) ++ release_calls festate.
Proof.
  intros s0 s. split; [vm_compute; reflexivity|].
  apply (close_releases_in_order_once (L := Script.library)
           employees_cat s0 s 3).
  vm_compute. reflexivity.
Defined.

(** A scan whose first request raises an error ([dbresults] fails), closed
    afterwards: the three releases are made, once each. *)
Example close_after_fatal_error :
  let s := snd (tdsBeginForeignScan employees_cat (fresh failing_results)) in
  fst (tdsIterateForeignScan s)
  = Raised (report ERRCODE_FDW_UNABLE_TO_CREATE_EXECUTION
              "Failed to get results from query SELECT * FROM employees") /\
  fst (tdsEndForeignScan (iterate_times 1 s)) = Done tt /\
  filter is_release (calls (snd (tdsEndForeignScan (iterate_times 1 s))))
  = [Call_dbclose (Some 2%N); Call_dbloginfree (Some 1%N); Call_dbexit].
Proof. vm_compute. repeat split. Qed.

(** ** The planner adapter: properties *)

Section Planner.

Context {L : DBLibrary}.
Implicit Types (s : @state L) (cat : ForeignCatalog) (os : TdsFdwOptionSet)
  (login : LOGINREC_ptr) (dbproc : DBPROCESS_ptr).

Ltac run_count :=
  unfold tdsGetRowCount, bind, ret, ereport, dbcmd, dbsqlexec, dbresults,
    dbnextrow, DBCOUNT, lib_call, lib_read.

Ltac answers :=
  repeat (match goal with
          | |- context [if ?c then _ else _] => destruct c eqn:?
          end; simpl).

(** [tdsGetRowCount], whatever its outcome: it releases nothing and
    fetches at most one row.  When it returns, either the library reported
    no result set and the count is 0, or it reported one, a single
    [dbnextrow] was made and the count is what [DBCOUNT] says. *)
Lemma tdsGetRowCount_cases os login dbproc s :
  let r := tdsGetRowCount os login dbproc s in
  let w2 :=
    lib_effect L (Call_dbsqlexec dbproc)
      (lib_effect L (Call_dbcmd dbproc (query os)) (lib s)) in
  exists tr,
    calls (snd r) = calls s ++ tr /\
    filter is_release tr = [] /\
    fdw_state (snd r) = fdw_state s /\
    fst r <> Undefined /\
    forall rows,
      fst r = Done rows ->
      (lib_dbresults L w2 dbproc = NO_MORE_RESULTS /\ rows = 0 /\
       tr = [Call_dbcmd dbproc (query os); Call_dbsqlexec dbproc;
             Call_dbresults dbproc]) \/
      (lib_dbresults L w2 dbproc = SUCCEED /\
       rows = lib_DBCOUNT L (lib (snd r)) dbproc /\
       tr = [Call_dbcmd dbproc (query os); Call_dbsqlexec dbproc;
             Call_dbresults dbproc; Call_dbnextrow dbproc;
             Call_DBCOUNT dbproc]).
Proof.
  run_count. simpl.
  answers; rewrite <- ?app_assoc; simpl; eexists;
    (split; [reflexivity|]); (split; [reflexivity|]);
    (split; [reflexivity|]); (split; [discriminate|]);
    intros rows H; inversion H; subst;
    repeat match goal with
           | E : (_ =? _) = true |- _ => apply Z.eqb_eq in E
           end;
    auto.
Qed.

(** [tdsGetForeignRelSize] releases the session exactly when it
    returns: the three release calls are its last calls then, and no
    release call is made at all when an error is raised. *)
Lemma tdsGetForeignRelSize_cases cat s :
  let r := tdsGetForeignRelSize cat s in
  match fst r with
  | Done _ =>
      exists login dbproc tr,
        calls (snd r)
        = calls s ++ tr
          ++ [Call_dbclose dbproc; Call_dbloginfree login; Call_dbexit] /\
        filter is_release tr = []
  | Raised _ | Undefined =>
      exists tr, calls (snd r) = calls s ++ tr /\ filter is_release tr = []
  end.
Proof.
  unfold tdsGetForeignRelSize, bind. rewrite tdsGetOptions_run.
  destruct (is_null (precedence "table" cat)
            && is_null (precedence "query" cat)).
  { exists []. now rewrite app_nil_r. }
  unfold dbinit, dberrhandle, dbmsghandle, dblogin, lib_call, ereport, ret.
  simpl.
  destruct (lib_dbinit L (lib s) =? FAIL); simpl.
  { exists [Call_dbinit]. auto. }
  match goal with
  | |- context [is_null ?l] => destruct (is_null l); simpl
  end.
  { eexists. rewrite <- !app_assoc. simpl. split; reflexivity. }
  match goal with
  | |- context [tdsSetupConnection ?o ?l ?st] =>
      pose proof (tdsSetupConnection_frame o l st) as Hframe;
      pose proof (tdsSetupConnection_done o l st) as Hdone;
      destruct (tdsSetupConnection o l st) as [[[[rc os'] dbproc]|e|] s1]
  end; simpl in Hframe;
    destruct Hframe as ((tr1 & Hc1 & Hcls1) & _ & Hfe1 & _);
    rewrite <- !app_assoc in Hc1; simpl in Hc1;
    pose proof (filter_other_class is_session_setup is_release tr1
                  setup_is_not_release Hcls1) as Hrel1.
  - destruct (Hdone _ _ _ _ eq_refl) as (-> & _ & _). simpl.
    match goal with
    | |- context [tdsGetRowCount ?o ?l ?d ?st] =>
        pose proof (tdsGetRowCount_cases o l d st) as Hcount;
        destruct (tdsGetRowCount o l d st) as [[rows|e|] s2]
    end; simpl in Hcount;
      destruct Hcount as (tr2 & Hc2 & Hrel2 & _ & Hdef & _).
    + unfold set_baserel, dbclose, dbloginfree, dbexit, lib_call. simpl.
      eexists _, _,
        ([Call_dbinit; Call_dberrhandle; Call_dbmsghandle; Call_dblogin]
         ++ tr1 ++ tr2).
      rewrite Hc2, Hc1, <- !app_assoc. simpl. split; [reflexivity|].
      now rewrite filter_app, Hrel1, Hrel2.
    + simpl.
      exists ([Call_dbinit; Call_dberrhandle; Call_dbmsghandle; Call_dblogin]
              ++ tr1 ++ tr2).
      rewrite Hc2, Hc1, <- !app_assoc. simpl. split; [reflexivity|].
      now rewrite filter_app, Hrel1, Hrel2.
    + contradiction.
  - simpl.
    exists ([Call_dbinit; Call_dberrhandle; Call_dbmsghandle; Call_dblogin]
            ++ tr1).
    rewrite Hc1. simpl. auto.
  - simpl.
    exists ([Call_dbinit; Call_dberrhandle; Call_dbmsghandle; Call_dblogin]
            ++ tr1).
    rewrite Hc1. simpl. auto.
Qed.

(** When [tdsGetForeignRelSize] returns, the row estimate and the tuple
    count of the relation are the count [tdsGetRowCount] returned for the
    plan the connection set-up completed. *)
Lemma tdsGetForeignRelSize_done cat s s' :
  tdsGetForeignRelSize cat s = (Done tt, s') ->
  exists os login os' dbproc s1 s2 s3 rows,
    tdsGetOptions cat s = (Done os, s) /\
    tdsSetupConnection os login s1 = (Done (0, os', dbproc), s2) /\
    tdsGetRowCount os' login dbproc s2 = (Done rows, s3) /\
    baserel_rows s' = rows /\ baserel_tuples s' = rows /\
    calls s'
    = calls s3 ++ [Call_dbclose dbproc; Call_dbloginfree login; Call_dbexit].
Proof.
  intros H. unfold tdsGetForeignRelSize in H.
  monad_inv H as os s1 Hopt.
  destruct (tdsGetOptions_done _ _ _ _ Hopt) as (-> & _ & _).
  monad_inv H as rc s2 Hinit. inversion Hinit; subst rc s2; clear Hinit.
  destruct (lib_dbinit L (lib s) =? FAIL);
    [unfold bind, ereport in H; discriminate|].
  monad_inv H as u s4 Herr. inversion Herr; subst u s4; clear Herr.
  monad_inv H as u s5 Hmsg. inversion Hmsg; subst u s5; clear Hmsg.
  monad_inv H as login s6 Hlogin. inversion Hlogin; subst s6; clear Hlogin.
  destruct (is_null login); [unfold bind, ereport in H; discriminate|].
  monad_inv H as r s8 Hsetup. destruct r as [[rc os'] dbproc].
  destruct (tdsSetupConnection_done _ _ _ _ _ _ _ Hsetup) as (-> & _ & _).
  simpl in H.
  monad_inv H as rows s9 Hcount.
  unfold bind, set_baserel, dbclose, dbloginfree, dbexit, lib_call, ret in H.
  simpl in H. inversion H; subst s'; clear H. simpl.
  exists os, login, os', dbproc. do 3 eexists. exists rows.
  split; [exact Hopt|]. split; [exact Hsetup|]. split; [exact Hcount|].
  rewrite <- !app_assoc. repeat split.
Qed.

End Planner.

(** ** A session the library accepts *)

Section Acceptance.

Context {L : DBLibrary}.
Implicit Types (s : @state L) (cat : ForeignCatalog) (os : TdsFdwOptionSet)
  (login : LOGINREC_ptr) (dbproc : DBPROCESS_ptr).

Ltac unfold_setup :=
  unfold tdsSetupConnection, tdsSetupConnection_query, bind, ret, ereport,
    palloc, pfree, undefined, sprintf, DBSETLUSER, DBSETLPWD, DBSETLCHARSET,
    DBSETLNATLANG, dbopen, dbuse, lib_call.

Lemma host_string_fits os host :
  port os = 0 \/ strlen (string_of_int (port os)) <= 8 ->
  (strlen (host_string os host) + 1 <=? (strlen host + 10) * 1) = true.
Proof.
  intros Hfit. unfold host_string. apply Z.leb_le.
  destruct (port os =? 0) eqn:E.
  - lia.
  - apply Z.eqb_neq in E. rewrite !strlen_append.
    change (strlen ":") with 1. lia.
Qed.

Ltac setup_cases os Hhost Hroom :=
  unfold host_string in *; unfold login_settings, after_calls in *;
  unfold_setup; rewrite Hhost;
  destruct (port os =? 0); cbv beta iota zeta delta [negb];
  rewrite Hroom;
  destruct (query os), (table os), (character_set os), (language os);
  cbv beta iota; rewrite ?snprintf_exact_query; simpl in *.

(** A [NULL] connection stops the set-up at [dbopen]. *)
Lemma tdsSetupConnection_refused os login s host :
  servername os = Some host ->
  port os = 0 \/ strlen (string_of_int (port os)) <= 8 ->
  let conn := host_string os host in
  let r := tdsSetupConnection os login s in
  is_null (session_connection os host login (lib s)) = true ->
  fst r
  = Raised
      (report ERRCODE_FDW_UNABLE_TO_ESTABLISH_CONNECTION
         ("Failed to connect using connection string " +++ conn
          +++ " with user " +++ show (username os))) /\
  calls (snd r)
  = calls s ++ login_settings os login ++ [Call_dbopen login conn].
Proof.
  intros Hhost Hfit. cbv zeta. unfold session_connection.
  pose proof (host_string_fits os host Hfit) as Hroom.
  intros N. setup_cases os Hhost Hroom; rewrite N; simpl;
    rewrite <- ?app_assoc; split; reflexivity.
Qed.

(** A database that cannot be selected stops it at [dbuse]. *)
Lemma tdsSetupConnection_no_database os login s host (db : string) :
  servername os = Some host ->
  port os = 0 \/ strlen (string_of_int (port os)) <= 8 ->
  let conn := host_string os host in
  let dbproc := session_connection os host login (lib s) in
  let r := tdsSetupConnection os login s in
  is_null dbproc = false ->
  database os = Some db ->
  lib_dbuse L
    (lib_effect L (Call_dbopen login conn)
       (after_calls (login_settings os login) (lib s)))
    dbproc db
  = FAIL ->
  fst r
  = Raised
      (report ERRCODE_FDW_UNABLE_TO_ESTABLISH_CONNECTION
         ("Failed to select database " +++ db)) /\
  calls (snd r)
  = calls s ++ login_settings os login
    ++ [Call_dbopen login conn; Call_dbuse dbproc db].
Proof.
  intros Hhost Hfit. cbv zeta. unfold session_connection.
  pose proof (host_string_fits os host Hfit) as Hroom.
  intros N Hdb U. setup_cases os Hhost Hroom; rewrite N, Hdb; simpl;
    rewrite U; simpl; rewrite <- ?app_assoc; split; reflexivity.
Qed.

(** A set-up the library accepts returns, and for a plan with a table and
    no query it returns with the query built. *)
Lemma tdsSetupConnection_returns os login s host (t : string) :
  servername os = Some host ->
  port os = 0 \/ strlen (string_of_int (port os)) <= 8 ->
  connection_opens os host login (lib s) ->
  query os = None -> table os = Some t ->
  fst (tdsSetupConnection os login s)
  = Done (0, set_query (Some (query_prefix +++ t)) os,
          session_connection os host login (lib s)).
Proof.
  intros Hhost Hfit. unfold connection_opens, session_connection. cbv zeta.
  pose proof (host_string_fits os host Hfit) as Hroom.
  intros (N & U) Hq Ht.
  assert (U' : forall db, database os = Some db ->
                 (lib_dbuse L
                    (lib_effect L (Call_dbopen login (host_string os host))
                       (after_calls (login_settings os login) (lib s)))
                    (lib_dbopen L
                       (after_calls (login_settings os login) (lib s))
                       login (host_string os host)) db =? FAIL) = false)
    by (intros db Hdb; apply Z.eqb_neq; auto).
  clear U. destruct (database os) as [db|] eqn:Hdb;
    [specialize (U' db eq_refl)|clear U'];
    setup_cases os Hhost Hroom; try discriminate;
    rewrite N; simpl; rewrite Hdb; simpl; rewrite ?U'; simpl;
    inversion Ht; subst; reflexivity.
Qed.

(** The row count starts by sending the query of the plan. *)
Lemma tdsGetRowCount_sends os login dbproc s :
  exists rest,
    calls (snd (tdsGetRowCount os login dbproc s))
    = calls s ++ Call_dbcmd dbproc (query os) :: rest.
Proof.
  unfold tdsGetRowCount, bind, ret, ereport, dbcmd, dbsqlexec, dbresults,
    dbnextrow, DBCOUNT, lib_call, lib_read.
  simpl.
  repeat (match goal with
          | |- context [if ?c then _ else _] => destruct c
          end; simpl);
    rewrite <- ?app_assoc; simpl; eexists; reflexivity.
Qed.

(** A scan the library accepts begins, with the query built from the
    table. *)
Lemma tdsBeginForeignScan_returns cat s host (t : string) :
  let os := resolved_by_precedence cat in
  precedence "table" cat = Some t ->
  precedence "query" cat = None ->
  servername os = Some host ->
  port os = 0 \/ strlen (string_of_int (port os)) <= 8 ->
  session_opens os host (lib s) ->
  exists s',
    tdsBeginForeignScan cat s = (Done tt, s') /\
    fdw_state s'
    = Some (mkTdsFdwExecutionState (session_login (lib s))
              (session_connection os host (session_login (lib s))
                 (after_calls (library_start (session_login (lib s)))
                    (lib s)))
              (Some (query_prefix +++ t)) 1 0).
Proof.
  cbv zeta. intros Ht Hq Hhost Hfit (Hinit & Hlogin & Hopen).
  unfold tdsBeginForeignScan, bind. rewrite tdsGetOptions_run, Ht.
  cbn [is_null andb].
  unfold dbinit, dberrhandle, dbmsghandle, dblogin, lib_call, ereport, ret.
  simpl.
  apply Z.eqb_neq in Hinit. rewrite Hinit. simpl.
  unfold session_login, after_calls in Hlogin. simpl in Hlogin.
  rewrite Hlogin. simpl.
  match goal with
  | |- context [tdsSetupConnection ?o ?l ?st] =>
      pose proof (tdsSetupConnection_returns o l st host t Hhost Hfit)
        as Hrun;
      destruct (tdsSetupConnection o l st) as [[[[rc os'] dbproc]|e|] s1]
  end;
    simpl in Hrun;
    (specialize (Hrun Hopen);
     unfold resolved_by_precedence, plan_of in Hrun; simpl in Hrun;
     specialize (Hrun Hq Ht));
    [|discriminate Hrun|discriminate Hrun].
  inversion Hrun; subst. simpl.
  unfold palloc, set_fdw_state. simpl.
  eexists. split; reflexivity.
Qed.

(** A row estimate the library accepts the session of sends the query
    built from the table, whatever happens to it then. *)
Lemma tdsGetForeignRelSize_sends cat s host (t : string) :
  let os := resolved_by_precedence cat in
  precedence "table" cat = Some t ->
  precedence "query" cat = None ->
  servername os = Some host ->
  port os = 0 \/ strlen (string_of_int (port os)) <= 8 ->
  session_opens os host (lib s) ->
  exists setup rest,
    calls (snd (tdsGetForeignRelSize cat s))
    = calls s ++ setup
      ++ Call_dbcmd
           (session_connection os host (session_login (lib s))
              (after_calls (library_start (session_login (lib s))) (lib s)))
           (Some (query_prefix +++ t))
         :: rest /\
    forallb is_session_setup setup = true.
Proof.
  cbv zeta. intros Ht Hq Hhost Hfit (Hinit & Hlogin & Hopen).
  unfold tdsGetForeignRelSize, bind. rewrite tdsGetOptions_run, Ht.
  cbn [is_null andb].
  unfold dbinit, dberrhandle, dbmsghandle, dblogin, lib_call, ereport, ret.
  simpl.
  apply Z.eqb_neq in Hinit. rewrite Hinit. simpl.
  unfold session_login, after_calls in Hlogin. simpl in Hlogin.
  rewrite Hlogin. simpl.
  match goal with
  | |- context [tdsSetupConnection ?o ?l ?st] =>
      pose proof (tdsSetupConnection_returns o l st host t Hhost Hfit)
        as Hrun;
      pose proof (tdsSetupConnection_frame o l st) as Hframe;
      destruct (tdsSetupConnection o l st) as [[[[rc os'] dbproc]|e|] s1]
  end;
    simpl in Hrun, Hframe;
    (specialize (Hrun Hopen);
     unfold resolved_by_precedence, plan_of in Hrun; simpl in Hrun;
     specialize (Hrun Hq Ht));
    [|discriminate Hrun|discriminate Hrun].
  destruct Hframe as ((tr & Htr & Hcls) & _).
  inversion Hrun; subst. simpl.
  match goal with
  | |- context [tdsGetRowCount ?o ?l ?d ?st] =>
      destruct (tdsGetRowCount_sends o l d st) as (rest & Hsend);
      destruct (tdsGetRowCount o l d st) as [[rows|e|] s2]
  end; simpl in Hsend; simpl;
    unfold set_baserel, dbclose, dbloginfree, dbexit, lib_call; simpl;
    rewrite Hsend, Htr; simpl;
    eexists ([Call_dbinit; Call_dberrhandle; Call_dbmsghandle; Call_dblogin]
             ++ tr), _;
    (split; [rewrite <- !app_assoc; simpl; reflexivity|exact Hcls]).
Qed.

End Acceptance.

(** ** The resolved query *)

Section ResolvedQuery.

Context {L : DBLibrary}.
Implicit Types (s : @state L) (cat : ForeignCatalog).

(** C3.  When the configuration has a table name and no query, resolution
    succeeds with the query member empty, and the query the connection
    set-up leaves in the plan is exactly ["SELECT * FROM "] followed by the
    table name.  It is the query the scan state takes, and the one the
    row-count estimate sends with [dbcmd].  The set-up does return with
    it whenever the library opens the connection and selects the database
    of the plan; then the scan begins with it, and the row-count estimate
    sends it. *)
Theorem table_resolves_to_select_star cat s (t : string) :
  last_value "table" (merged_options cat) = Some t ->
  last_value "query" (merged_options cat) = None ->
  exists os,
    tdsGetOptions cat s = (Done os, s) /\
    table os = Some t /\ query os = None /\
    (forall login s1 rc os' dbproc s2,
        tdsSetupConnection os login s1 = (Done (rc, os', dbproc), s2) ->
        query os' = Some ("SELECT * FROM " +++ t)) /\
    (forall s',
        tdsBeginForeignScan cat s = (Done tt, s') ->
        exists festate,
          fdw_state s' = Some festate /\
          fe_query festate = Some ("SELECT * FROM " +++ t)) /\
    (forall s',
        tdsGetForeignRelSize cat s = (Done tt, s') ->
        exists dbproc,
          In (Call_dbcmd dbproc (Some ("SELECT * FROM " +++ t))) (calls s'))
    /\
    exists host,
      servername os = Some host /\
      (forall login s1,
          port os = 0 \/ strlen (string_of_int (port os)) <= 8 ->
          connection_opens os host login (lib s1) ->
          fst (tdsSetupConnection os login s1)
          = Done (0, set_query (Some ("SELECT * FROM " +++ t)) os,
                  session_connection os host login (lib s1))) /\
      (port os = 0 \/ strlen (string_of_int (port os)) <= 8 ->
       session_opens os host (lib s) ->
       (exists s' festate,
           tdsBeginForeignScan cat s = (Done tt, s') /\
           fdw_state s' = Some festate /\
           fe_query festate = Some ("SELECT * FROM " +++ t)) /\
       (exists dbproc setup rest,
           calls (snd (tdsGetForeignRelSize cat s))
           = calls s ++ setup
             ++ Call_dbcmd dbproc (Some ("SELECT * FROM " +++ t)) :: rest /\
           forallb is_session_setup setup = true)).
Proof.
  rewrite !last_value_merged. intros Ht Hq.
  assert (Hsetup :
            forall login s1 rc os' dbproc s2,
              tdsSetupConnection (resolved_by_precedence cat) login s1
              = (Done (rc, os', dbproc), s2) ->
              query os' = Some ("SELECT * FROM " +++ t)).
  { intros login s1 rc os' dbproc s2 H.
    apply tdsSetupConnection_done in H. destruct H as (_ & _ & ->).
    unfold resolved_by_precedence, plan_of. simpl. rewrite Hq, Ht.
    reflexivity. }
  exists (resolved_by_precedence cat). repeat apply conj.
  - rewrite tdsGetOptions_run, Ht. reflexivity.
  - exact Ht.
  - exact Hq.
  - exact Hsetup.
  - intros s' H. apply tdsBeginForeignScan_done in H.
    destruct H as (os & login & os' & dbproc & s1 & s2 & tr
                   & Hopt & Hrun & Hfe & _).
    apply tdsGetOptions_done in Hopt. destruct Hopt as (_ & -> & _).
    eexists. split; [exact Hfe|]. simpl. eapply Hsetup. exact Hrun.
  - intros s' H. apply tdsGetForeignRelSize_done in H.
    destruct H as (os & login & os' & dbproc & s1 & s2 & s3 & rows
                   & Hopt & Hrun & Hcount & _ & _ & Hcalls).
    apply tdsGetOptions_done in Hopt. destruct Hopt as (_ & -> & _).
    rewrite <- (Hsetup _ _ _ _ _ _ Hrun).
    pose proof (tdsGetRowCount_cases os' login dbproc s2) as Hcases.
    rewrite Hcount in Hcases. simpl in Hcases.
    destruct Hcases as (tr & Htr & _ & _ & _ & Hrows).
    exists dbproc. rewrite Hcalls, Htr.
    apply in_or_app. left. apply in_or_app. right.
    destruct (Hrows rows eq_refl) as [(_ & _ & ->)|(_ & _ & ->)];
      now left.
  - eexists. split; [reflexivity|]. split.
    + intros login s1 Hfit Hopen.
      apply (tdsSetupConnection_returns (resolved_by_precedence cat) login s1
               _ t eq_refl Hfit Hopen); [exact Hq|exact Ht].
    + intros Hfit Hopen. split.
      * destruct (tdsBeginForeignScan_returns cat s _ t Ht Hq eq_refl Hfit
                    Hopen) as (s' & Hbegin & Hfe).
        eexists s', _. split; [exact Hbegin|]. split; [exact Hfe|].
        reflexivity.
      * destruct (tdsGetForeignRelSize_sends cat s _ t Ht Hq eq_refl Hfit
                    Hopen) as (setup & rest & Hcalls & Hcls).
        eexists _, setup, rest. split; [exact Hcalls|exact Hcls].
Qed.

End ResolvedQuery.

(** The theorem at the scenario [table=employees], run against a healthy
    server: the library opens the session, the scan begins with the query
    built from the table, and the row-count estimate returns. *)
Lemma table_resolves_to_select_star_witness :
  let s := fresh (Script.healthy two_rows) in
  last_value "table" (merged_options employees_cat) = Some "employees" /\
  last_value "query" (merged_options employees_cat) = None /\
  (port employees_plan = 0 \/
   strlen (string_of_int (port employees_plan)) <= 8) /\
  session_opens employees_plan "dbhost" (lib s) /\
  tdsBeginForeignScan employees_cat s = (Done tt, employees_begun) /\
  fdw_state employees_begun = Some employees_festate /\
  fe_query employees_festate = Some "SELECT * FROM employees" /\
  fst (tdsGetForeignRelSize employees_cat s) = Done tt /\
  exists os,
    tdsGetOptions employees_cat s = (Done os, s) /\
    table os = Some "employees" /\ query os = None /\
    (forall login (s1 : @state Script.library) rc os' dbproc s2,
        tdsSetupConnection os login s1 = (Done (rc, os', dbproc), s2) ->
        query os' = Some "SELECT * FROM employees") /\
    (forall s',
        tdsBeginForeignScan employees_cat s = (Done tt, s') ->
        exists festate,
          fdw_state s' = Some festate /\
          fe_query festate = Some "SELECT * FROM employees") /\
    (forall s',
        tdsGetForeignRelSize employees_cat s = (Done tt, s') ->
        exists dbproc,
          In (Call_dbcmd dbproc (Some "SELECT * FROM employees")) (calls s'))
    /\
    exists host,
      servername os = Some host /\
      (forall login (s1 : @state Script.library),
          port os = 0 \/ strlen (string_of_int (port os)) <= 8 ->
          connection_opens os host login (lib s1) ->
          fst (tdsSetupConnection os login s1)
          = Done (0, set_query (Some "SELECT * FROM employees") os,
                  session_connection os host login (lib s1))) /\
      (port os = 0 \/ strlen (string_of_int (port os)) <= 8 ->
       session_opens os host (lib s) ->
       (exists s' festate,
           tdsBeginForeignScan employees_cat s = (Done tt, s') /\
           fdw_state s' = Some festate /\
           fe_query festate = Some "SELECT * FROM employees") /\
       (exists dbproc setup rest,
           calls (snd (tdsGetForeignRelSize employees_cat s))
           = calls s ++ setup
             ++ Call_dbcmd dbproc (Some "SELECT * FROM employees") :: rest /\
           forallb is_session_setup setup = true)).
Proof.
  intros s. split; [reflexivity|]. split; [reflexivity|].
  split; [right; vm_compute; discriminate|].
  split.
  { unfold session_opens, connection_opens. vm_compute.
    repeat split; try discriminate; intros db H; discriminate H. }
  split; [vm_compute; reflexivity|].
  split; [vm_compute; reflexivity|].
  split; [reflexivity|].
  split; [vm_compute; reflexivity|].
  apply (table_resolves_to_select_star (L := Script.library) employees_cat s
           "employees");
    reflexivity.
Defined.

(** The scenario [table=employees] run against a healthy server: the scan
    begins, and its query is the synthesized one. *)
Example employees_scan_begins :
  let r := tdsBeginForeignScan employees_cat (fresh (Script.healthy two_rows)) in
  fst r = Done tt /\
  fdw_state (snd r)
  = Some (mkTdsFdwExecutionState (Some 1%N) (Some 2%N)
            (Some "SELECT * FROM employees") 1 0) /\
  calls (snd r)
  = [Call_dbinit; Call_dberrhandle; Call_dbmsghandle; Call_dblogin;
     Call_DBSETLUSER (Some 1%N) (Some "reader");
     Call_DBSETLPWD (Some 1%N) (Some "secret");
     Call_dbopen (Some 1%N) "dbhost:1433"].
Proof. repeat split. Qed.

(** The scenario of a result set of three rows: the estimate is 3, one row
    was fetched, and the session is closed at the end. *)
Example estimate_size_of_three_rows :
  let r := tdsGetForeignRelSize employees_cat (fresh (Script.healthy three_rows)) in
  fst r = Done tt /\
  baserel_rows (snd r) = 3 /\ baserel_tuples (snd r) = 3 /\
  calls (snd r)
  = [Call_dbinit; Call_dberrhandle; Call_dbmsghandle; Call_dblogin;
     Call_DBSETLUSER (Some 1%N) (Some "reader");
     Call_DBSETLPWD (Some 1%N) (Some "secret");
     Call_dbopen (Some 1%N) "dbhost:1433";
     Call_dbcmd (Some 2%N) (Some "SELECT * FROM employees");
     Call_dbsqlexec (Some 2%N); Call_dbresults (Some 2%N);
     Call_dbnextrow (Some 2%N); Call_DBCOUNT (Some 2%N);
     Call_dbclose (Some 2%N); Call_dbloginfree (Some 1%N); Call_dbexit].
Proof. vm_compute. repeat split. Qed.

(** C4 fails on the error paths.  With a server that refuses the query,
    [tdsGetForeignRelSize] raises the error of [tdsGetRowCount] and its
    last call is the [dbcmd] that failed: the [goto cleanup] written after
    [ereport(ERROR, ...)] is never reached, so the connection, the login
    record and the library are not released. *)
Theorem estimate_size_error_leaves_session_open :
  let r := tdsGetForeignRelSize employees_cat (fresh refusing_query) in
  fst r
  = Raised (report ERRCODE_FDW_UNABLE_TO_CREATE_EXECUTION
              "Failed to set current query to SELECT * FROM employees") /\
  calls (snd r)
  = [Call_dbinit; Call_dberrhandle; Call_dbmsghandle; Call_dblogin;
     Call_DBSETLUSER (Some 1%N) (Some "reader");
     Call_DBSETLPWD (Some 1%N) (Some "secret");
     Call_dbopen (Some 1%N) "dbhost:1433";
     Call_dbcmd (Some 2%N) (Some "SELECT * FROM employees")] /\
  filter is_release (calls (snd r)) = [].
Proof. vm_compute. repeat split. Qed.

(** ** Column conversion: properties *)

Section Conversion.

Context {L : DBLibrary}.
Implicit Types (s : @state L) (dbproc : DBPROCESS_ptr).

(** A type the library cannot convert gives a [NULL] cell, without an
    error. *)
Lemma tdsConvertToCString_not_convertible dbproc srctype src srclen s :
  (let '(_, _, desttype) := tdsConvertToCString_switch srctype srclen in
   lib_dbwillconvert L (lib s) srctype desttype = FALSE) ->
  exists tr,
    tdsConvertToCString dbproc srctype src srclen s
    = (Done None, add_calls tr s).
Proof.
  rewrite tdsConvertToCString_run.
  destruct (tdsConvertToCString_switch srctype srclen) as [[r d] t].
  intros ->. simpl. eauto.
Qed.

(** Once the library says it can convert, the cell is the destination
    buffer, whatever [dbconvert] returns: its result is looked at and
    dropped. *)
Lemma tdsConvertToCString_ignores_dbconvert dbproc srctype src srclen s :
  (let '(_, _, desttype) := tdsConvertToCString_switch srctype srclen in
   lib_dbwillconvert L (lib s) srctype desttype <> FALSE) ->
  exists dest tr,
    tdsConvertToCString dbproc srctype src srclen s
    = (Done (Some dest), add_calls tr s).
Proof.
  rewrite tdsConvertToCString_run.
  destruct (tdsConvertToCString_switch srctype srclen) as [[r d] t].
  intros H. apply Z.eqb_neq in H. rewrite H. eauto.
Qed.

End Conversion.

(** C5 fails when [dbconvert] reports a failure.  For a four-byte integer
    the library agrees to convert, with [dbconvert] returning [FAIL], the
    cell is not [NULL]: it is the destination buffer with the bytes it
    held, and the tuple is built from it. *)
Theorem failed_conversion_leaves_buffer_in_cell :
  let dbproc : DBPROCESS_ptr := Some 2%N in
  let s := snd (tdsBeginForeignScan employees_cat (fresh failing_conversion)) in
  lib_dbconvert Script.library (lib s) dbproc 56 (text "1234") 4 SYBCHAR (-1)
  = (FAIL, text "??") /\
  fst (tdsConvertToCString dbproc 56 (text "1234") 4 s)
  = Done (Some (text "??")) /\
  fst (tdsIterateForeignScan s) = Done (Some [Some (text "??")]).
Proof. vm_compute. repeat split. Qed.

(** ** Re-scan and the callbacks *)

Section Callbacks.

Context {L : DBLibrary}.
Implicit Types (s : @state L) (dbproc : DBPROCESS_ptr).

(** The re-scan entry point does nothing. *)
Lemma tdsReScanForeignScan_run s : tdsReScanForeignScan s = (Done tt, s).
Proof. reflexivity. Qed.

(** The error callback always raises, so its [return INT_CANCEL] is never
    reached. *)
Lemma tds_err_handler_raises dbproc severity dberr oserr dberrstr oserrstr s :
  exists e,
    tds_err_handler dbproc severity dberr oserr dberrstr oserrstr s
    = (Raised e, s) /\
    errcode e = Some ERRCODE_FDW_UNABLE_TO_CREATE_EXECUTION.
Proof. eexists. split; reflexivity. Qed.

(** The message callback delivers one notice and returns 0. *)
Lemma tds_msg_handler_returns dbproc msgno msgstate severity msgtext svr_name
    proc_name line s :
  exists notice,
    tds_msg_handler dbproc msgno msgstate severity msgtext svr_name proc_name
      line s
    = (Done 0,
       mkState (lib s) (calls s) (notices s ++ [notice]) (fdw_state s)
         (baserel_rows s) (baserel_tuples s)).
Proof. eexists. reflexivity. Qed.

End Callbacks.

(** * Further properties of the wrapper *)

(** ** Validation and resolution *)

Section MoreOptions.

Context {L : DBLibrary}.
Implicit Types (s : @state L) (cat : ForeignCatalog) (def : DefElem)
  (os : TdsFdwOptionSet).

Ltac name_cases def :=
  repeat match goal with
  | |- context [String.eqb (defname def) ?n] =>
      let E := fresh "E" in
      destruct (String.eqb (defname def) n) eqn:E;
      [apply String.eqb_eq in E; rewrite E in *; simpl in * | ]
  end.

Lemma supplies_false_last_value name (l : list DefElem) :
  supplies name l = false -> last_value name l = None.
Proof.
  rewrite supplies_last_value. now destruct (last_value name l).
Qed.

(** X1.  A configuration with neither a table nor a query is refused by
    resolution with a configuration error, and so is every entry point
    that resolves first: the scan, the row estimate and the cost
    estimate stop there, having called nothing. *)
Theorem resolution_requires_table_or_query cat s :
  supplies "table" (merged_options cat) = false ->
  supplies "query" (merged_options cat) = false ->
  is_ConfigurationError missing_table_and_query = true /\
  tdsGetOptions cat s = (Raised missing_table_and_query, s) /\
  tdsBeginForeignScan cat s = (Raised missing_table_and_query, s) /\
  tdsGetForeignRelSize cat s = (Raised missing_table_and_query, s) /\
  tdsEstimateCosts cat s = (Raised missing_table_and_query, s) /\
  tdsGetForeignPaths cat s = (Raised missing_table_and_query, s) /\
  tdsPlanForeignScan cat s = (Raised missing_table_and_query, s).
Proof.
  intros Ht Hq.
  apply supplies_false_last_value in Ht, Hq.
  rewrite last_value_merged in Ht, Hq.
  assert (H : tdsGetOptions cat s = (Raised missing_table_and_query, s))
    by (rewrite tdsGetOptions_run, Ht, Hq; reflexivity).
  split; [reflexivity|]. split; [exact H|].
  unfold tdsBeginForeignScan, tdsGetForeignRelSize, tdsGetForeignPaths,
    tdsEstimateCosts, tdsPlanForeignScan, bind.
  rewrite !H. repeat split.
Qed.

(** X2.  Without a [servername] option at any level the plan names the
    loopback address, so the startup cost is 0 and the total cost is the
    row estimate. *)
Theorem servername_defaults_to_loopback cat s os s' :
  supplies "servername" (merged_options cat) = false ->
  tdsGetOptions cat s = (Done os, s') ->
  servername os = Some "127.0.0.1" /\
  tdsEstimateCosts cat s = (Done (0, baserel_rows s + 0), s).
Proof.
  intros Hn H. apply supplies_false_last_value in Hn.
  rewrite last_value_merged in Hn.
  unfold tdsEstimateCosts, bind. rewrite H.
  apply tdsGetOptions_done in H. destruct H as (-> & -> & _).
  unfold resolved_by_precedence, plan_of. rewrite Hn.
  split; [reflexivity|]. rewrite Z.add_0_r. reflexivity.
Qed.

(** The option table, read as a relation between names and contexts. *)
Lemma tdsIsValidOption_cases name (c : Oid) :
  tdsIsValidOption name c = true ->
  (c = ForeignServerRelationId /\
   In name ["servername"; "language"; "character_set"; "port"]) \/
  (c = UserMappingRelationId /\ In name ["username"; "password"]) \/
  (c = ForeignTableRelationId /\ In name ["database"; "query"; "table"]).
Proof.
  unfold tdsIsValidOption, valid_options.
  cbn [tdsIsValidOption_from optname optcontext].
  repeat match goal with
         | |- context [String.eqb ?a name] =>
             let E := fresh "E" in
             destruct (String.eqb a name) eqn:E;
             [apply String.eqb_eq in E; subst name;
              rewrite andb_true_r;
              match goal with
              | |- context [c =? ?k] =>
                  let K := fresh "K" in
                  destruct (c =? k) eqn:K;
                  [apply Z.eqb_eq in K; intros _; simpl; tauto|]
              end
             |rewrite andb_false_r]
         end.
  all: intros Hf; cbn in Hf;
    repeat (rewrite andb_false_r in Hf; cbn in Hf); discriminate Hf.
Qed.

Lemma tdsIsValidOption_one_context (name : string) (c1 c2 : Oid) :
  tdsIsValidOption name c1 = true ->
  tdsIsValidOption name c2 = true ->
  c1 = c2.
Proof.
  intros H1 H2.
  apply tdsIsValidOption_cases in H1, H2. simpl in H1, H2.
  repeat match goal with
         | H : _ \/ _ |- _ => destruct H
         | H : _ /\ _ |- _ => destruct H
         end;
    subst; try reflexivity; try contradiction; discriminate.
Qed.

(** X3.  Every option name belongs to one context, and there are three
    contexts: a name the table accepts is refused for a server and for a
    user mapping, and so on, and no name is accepted anywhere else. *)
Theorem option_contexts_are_disjoint (name : string) (c1 c2 : Oid) :
  tdsIsValidOption name c1 = true ->
  tdsIsValidOption name c2 = true ->
  c1 = c2 /\
  In c1 [ForeignServerRelationId; UserMappingRelationId;
         ForeignTableRelationId].
Proof.
  intros H1 H2. split; [exact (tdsIsValidOption_one_context _ _ _ H1 H2)|].
  apply tdsIsValidOption_cases in H1.
  destruct H1 as [[-> _]|[[-> _]|[-> _]]]; simpl; auto.
Qed.

Lemma supplies_In name (l : list DefElem) :
  supplies name l = true <-> In name (map defname l).
Proof.
  unfold supplies. rewrite existsb_exists, in_map_iff. split.
  - intros (d & Hd & E). apply String.eqb_eq in E. eauto.
  - intros (d & E & Hd). exists d. split; [exact Hd|].
    now apply String.eqb_eq.
Qed.

Ltac recorded_cases n :=
  unfold recorded;
  repeat match goal with
         | |- context [String.eqb n ?k] => destruct (String.eqb n k)
         end.

(** One pass of the validator loop that goes through: the name is valid
    in the context, a text option was not recorded yet and is recorded
    now, and nothing recorded is forgotten. *)
Lemma tds_fdw_validator_step_done catalog os def s os' s' :
  tds_fdw_validator_step catalog os def s = (Done os', s') ->
  s' = s /\
  tdsIsValidOption (defname def) catalog = true /\
  (text_option def = true ->
   recorded os (defname def) = false /\ recorded os' (defname def) = true)
  /\ (forall n, recorded os n = true -> recorded os' n = true).
Proof.
  unfold tds_fdw_validator_step, bind, ret, ereport, text_option.
  destruct (tdsIsValidOption (defname def) catalog) eqn:V; simpl;
    [|discriminate].
  destruct os as [sn lg cs pt un pw db qu tb].
  name_cases def;
    repeat match goal with
    | |- context [if negb (is_null ?p) then _ else _] => destruct p; simpl
    | |- context [if negb (?p =? 0) then _ else _] => destruct (p =? 0); simpl
    end;
    intros H; inversion H; subst; clear H;
    repeat apply conj; auto; try discriminate;
    try (intros n; recorded_cases n; simpl; auto; fail).
  (* no name of the chain: the option table does not know the name *)
  all: intros _; exfalso; apply tdsIsValidOption_cases in V; simpl in V;
    repeat match goal with
           | H : _ \/ _ |- _ => destruct H
           | H : _ /\ _ |- _ => destruct H
           end;
    try contradiction;
    match goal with
    | H : _ = defname ?d |- _ => rewrite <- H in *; simpl in *; discriminate
    end.
Qed.

Lemma tds_fdw_validator_loop_done catalog s (l : list DefElem) :
  forall os os' s',
    tds_fdw_validator_loop catalog os l s = (Done os', s') ->
    s' = s /\
    Forall (fun def => tdsIsValidOption (defname def) catalog = true) l /\
    NoDup (map defname (filter text_option l)) /\
    (forall def, In def l -> text_option def = true ->
                 recorded os (defname def) = false) /\
    (forall n, recorded os n = true -> recorded os' n = true).
Proof.
  induction l as [|d l IH]; intros os os' s' H.
  - inversion H; subst. repeat apply conj; auto; try constructor.
    intros def [].
  - simpl in H. apply bind_done in H. destruct H as (os1 & s1 & Hstep & H).
    apply tds_fdw_validator_step_done in Hstep.
    destruct Hstep as (-> & Hvalid & Htext & Hmono).
    apply IH in H. destruct H as (-> & Hall & Hnodup & Hfresh & Hmono').
    repeat apply conj; auto.
    + simpl. destruct (text_option d) eqn:T; [|exact Hnodup].
      simpl. constructor; [|exact Hnodup].
      intros Hin. apply in_map_iff in Hin.
      destruct Hin as (d' & E & Hd'). apply filter_In in Hd'.
      destruct Hd' as [Hd' T'].
      specialize (Hfresh d' Hd' T'). rewrite E in Hfresh.
      destruct (Htext eq_refl) as [_ Hrec]. congruence.
    + intros def [<-|Hin] T.
      * now destruct (Htext T).
      * specialize (Hfresh def Hin T).
        destruct (recorded os (defname def)) eqn:R; [|reflexivity].
        apply Hmono in R. congruence.
Qed.

Lemma tds_fdw_validator_done (options_list : list DefElem) (catalog : Oid)
    s s' :
  tds_fdw_validator options_list catalog s = (Done tt, s') ->
  s' = s /\
  Forall (fun def => tdsIsValidOption (defname def) catalog = true)
    options_list /\
  NoDup (map defname (filter text_option options_list)).
Proof.
  intros H. unfold tds_fdw_validator in H.
  apply bind_done in H. destruct H as (os & s1 & Hloop & H).
  inversion H; subst s1; clear H.
  pose proof (tds_fdw_validator_loop_done _ _ _ _ _ _ Hloop)
    as (-> & Hall & Hnodup & _ & _).
  repeat apply conj; auto.
Qed.

(** X4.  A list the validator accepts is well formed: every name is valid in
    the context, no option other than the port occurs twice, and [query]
    and [table] do not occur together.  The state is left as it was. *)
Theorem validator_accepts_only_well_formed (options_list : list DefElem)
    (catalog : Oid) s s' :
  tds_fdw_validator options_list catalog s = (Done tt, s') ->
  s' = s /\
  Forall (fun def => tdsIsValidOption (defname def) catalog = true)
    options_list /\
  NoDup (map defname (filter text_option options_list)) /\
  supplies "query" options_list && supplies "table" options_list = false.
Proof.
  intros H.
  destruct (tds_fdw_validator_done _ _ _ _ H) as (-> & Hall & Hnodup).
  repeat apply conj; auto.
  destruct (supplies "query" options_list) eqn:Hq; [|reflexivity].
  destruct (supplies "table" options_list) eqn:Ht; [|reflexivity].
  destruct (tds_fdw_validator_loop_conflict catalog s options_list
              tdsOptionSetInit Hq Ht) as (e & He & _).
  unfold tds_fdw_validator, bind in H. rewrite He in H. discriminate H.
Qed.

(** One pass of the validator loop on an option that is valid, new and
    not in conflict goes through, and only that option is recorded. *)
Lemma tds_fdw_validator_step_accepts catalog os def s :
  tdsIsValidOption (defname def) catalog = true ->
  recorded os (defname def) = false ->
  (defname def = "port" -> port os = 0) ->
  (defname def = "query" -> recorded os "table" = false) ->
  (defname def = "table" -> recorded os "query" = false) ->
  exists os',
    tds_fdw_validator_step catalog os def s = (Done os', s) /\
    (forall n, n <> defname def -> recorded os' n = recorded os n) /\
    (defname def <> "port" -> port os' = port os).
Proof.
  intros V R Hport Hquery Htable.
  unfold tds_fdw_validator_step, bind, ret, ereport. rewrite V. simpl.
  destruct os as [sn lg cs pt un pw db qu tb].
  unfold recorded in R, Hquery, Htable. simpl in *.
  name_cases def;
    try (rewrite (Hport eq_refl); simpl);
    try (specialize (Hquery eq_refl)); try (specialize (Htable eq_refl));
    repeat match goal with
    | H : negb (is_null ?p) = false |- _ => destruct p; [discriminate|clear H]
    end; simpl;
    eexists; (split; [reflexivity|]); split;
    try (intros n Hn; recorded_cases n; simpl; auto;
         repeat match goal with
                | E : String.eqb n _ = true |- _ => apply String.eqb_eq in E
                end; congruence);
    auto; try congruence.
  all: intros n Hn; unfold recorded; simpl;
    repeat match goal with
           | |- context [String.eqb n ?k] =>
               let E := fresh "E" in
               destruct (String.eqb n k) eqn:E;
               [apply String.eqb_eq in E; congruence|]
           end; reflexivity.
Qed.

Lemma tds_fdw_validator_loop_accepts catalog s (l : list DefElem) :
  forall os,
    Forall (fun def => tdsIsValidOption (defname def) catalog = true) l ->
    NoDup (map defname l) ->
    (forall def, In def l -> recorded os (defname def) = false) ->
    (supplies "port" l = true -> port os = 0) ->
    (supplies "query" l = true ->
     recorded os "table" = false /\ supplies "table" l = false) ->
    (supplies "table" l = true -> recorded os "query" = false) ->
    exists os', tds_fdw_validator_loop catalog os l s = (Done os', s).
Proof.
  induction l as [|d l IH]; intros os Hall Hnodup Hfresh Hport Hquery Htable.
  - eexists. reflexivity.
  - inversion Hall as [|? ? Hd Hall']; subst.
    simpl in Hnodup. inversion Hnodup as [|? ? Hnotin Hnodup']; subst.
    rewrite !supplies_cons in *.
    assert (Hname : forall n, defname d = n ->
                              String.eqb (defname d) n = true)
      by (intros n <-; apply String.eqb_refl).
    destruct (tds_fdw_validator_step_accepts catalog os d s) as
      (os1 & Hstep & Hsame & Hport1); auto.
    + apply Hfresh. now left.
    + intros E. apply Hport. now rewrite (Hname _ E).
    + intros E. apply Hquery. now rewrite (Hname _ E).
    + intros E. apply Htable. now rewrite (Hname _ E).
    + assert (Hother : forall n, supplies n l = true -> n <> defname d).
      { intros n Hn E. apply supplies_In in Hn. congruence. }
      destruct (IH os1) as (os' & Hloop); auto.
      * intros def Hin. rewrite Hsame.
        -- apply Hfresh. now right.
        -- intros E. apply Hnotin. rewrite <- E. now apply in_map.
      * intros Hp. rewrite Hport1.
        -- apply Hport. rewrite Hp. apply orb_true_r.
        -- intros E. now apply (Hother _ Hp).
      * intros Hq. destruct Hquery as [Hrec Hno];
          [rewrite Hq; apply orb_true_r|].
        apply orb_false_iff in Hno. destruct Hno as [Hd' Hno].
        split; [|exact Hno]. rewrite Hsame; [exact Hrec|].
        intros E. rewrite <- E, String.eqb_refl in Hd'. discriminate.
      * intros Ht. rewrite Hsame.
        -- apply Htable. rewrite Ht. apply orb_true_r.
        -- intros E.
           destruct Hquery as [_ Hno];
             [rewrite <- E, String.eqb_refl; reflexivity|].
           rewrite Ht, orb_true_r in Hno. discriminate.
      * exists os'. simpl. unfold bind. rewrite Hstep. exact Hloop.
Qed.

(** X5.  The validator accepts every well-formed list: names valid in the
    context, no name twice, and not both [query] and [table]. *)
Theorem validator_accepts_well_formed (options_list : list DefElem)
    (catalog : Oid) s :
  Forall (fun def => tdsIsValidOption (defname def) catalog = true)
    options_list ->
  NoDup (map defname options_list) ->
  supplies "query" options_list && supplies "table" options_list = false ->
  tds_fdw_validator options_list catalog s = (Done tt, s).
Proof.
  intros Hall Hnodup Hboth.
  destruct (tds_fdw_validator_loop_accepts catalog s options_list
              tdsOptionSetInit Hall Hnodup) as (os' & Hloop).
  - intros def _. unfold recorded.
    repeat match goal with
           | |- context [String.eqb ?a ?b] => destruct (String.eqb a b)
           end; reflexivity.
  - reflexivity.
  - intros Hq. rewrite Hq in Hboth. simpl in Hboth. auto.
  - reflexivity.
  - unfold tds_fdw_validator, bind. now rewrite Hloop.
Qed.

Lemma last_value_of_unique name v (l : list DefElem) :
  NoDup (map defname (filter text_option l)) ->
  name <> "port" ->
  In (mkDefElem name v) l ->
  last_value name l = Some v.
Proof.
  intros Hnodup Hname. induction l as [|d l IH]; intros Hin; [destruct Hin|].
  simpl in *.
  destruct (text_option d) eqn:T.
  - simpl in Hnodup. inversion Hnodup as [|? ? Hnotin Hnodup']; subst.
    destruct Hin as [->|Hin].
    + simpl. rewrite String.eqb_refl.
      destruct (last_value name l) eqn:Hl; [|reflexivity].
      exfalso. apply Hnotin.
      assert (Hs : supplies name l = true)
        by (rewrite supplies_last_value, Hl; reflexivity).
      apply supplies_In in Hs. apply in_map_iff in Hs.
      destruct Hs as (d' & E & Hd'). apply in_map_iff.
      exists d'. split; [exact E|]. apply filter_In. split; [exact Hd'|].
      unfold text_option. rewrite E.
      destruct (String.eqb name "port") eqn:P; [|reflexivity].
      apply String.eqb_eq in P. contradiction.
    + now rewrite (IH Hnodup' Hin).
  - destruct Hin as [->|Hin].
    + unfold text_option in T. simpl in T.
      apply negb_false_iff, String.eqb_eq in T. contradiction.
    + now rewrite (IH Hnodup Hin).
Qed.

(** X6.  In a catalog entry whose three lists passed the validator no option
    is shadowed: every option other than the port that is written at some
    level is the value the plan resolves to, and it is written at one
    level only. *)
Theorem validated_options_are_not_shadowed cat s (name v : string) :
  validated cat s ->
  name <> "port" ->
  In (mkDefElem name v) (merged_options cat) ->
  precedence name cat = Some v /\
  (supplies name (f_table_options cat) = true ->
   supplies name (f_server_options cat) = false /\
   supplies name (f_mapping_options cat) = false) /\
  (supplies name (f_server_options cat) = true ->
   supplies name (f_mapping_options cat) = false).
Proof.
  intros (Ht & Hs & Hm) Hname Hin.
  apply tds_fdw_validator_done in Ht, Hs, Hm.
  destruct Ht as (_ & Vt & Nt), Hs as (_ & Vs & Ns), Hm as (_ & Vm & Nm).
  assert (Hctx : forall (l : list DefElem) c n,
             Forall (fun def => tdsIsValidOption (defname def) c = true) l ->
             supplies n l = true -> tdsIsValidOption n c = true).
  { intros l c n Hall Hn. apply supplies_In, in_map_iff in Hn.
    destruct Hn as (d & <- & Hd). rewrite Forall_forall in Hall. auto. }
  assert (Hexcl : forall (l1 l2 : list DefElem) c1 c2 n,
             c1 <> c2 ->
             Forall (fun def => tdsIsValidOption (defname def) c1 = true) l1 ->
             Forall (fun def => tdsIsValidOption (defname def) c2 = true) l2 ->
             supplies n l1 = true -> supplies n l2 = false).
  { intros l1 l2 c1 c2 n Hc H1 H2 Hn.
    destruct (supplies n l2) eqn:Hn2; [|reflexivity].
    exfalso. apply Hc.
    apply (tdsIsValidOption_one_context n); eauto. }
  assert (Hts : supplies name (f_table_options cat) = true ->
                supplies name (f_server_options cat) = false /\
                supplies name (f_mapping_options cat) = false).
  { intros H. split.
    - apply (Hexcl (f_table_options cat) (f_server_options cat)
               ForeignTableRelationId ForeignServerRelationId name);
        [intros E; vm_compute in E; discriminate E|assumption..].
    - apply (Hexcl (f_table_options cat) (f_mapping_options cat)
               ForeignTableRelationId UserMappingRelationId name);
        [intros E; vm_compute in E; discriminate E|assumption..]. }
  assert (Hsm : supplies name (f_server_options cat) = true ->
                supplies name (f_mapping_options cat) = false).
  { intros H.
    apply (Hexcl (f_server_options cat) (f_mapping_options cat)
             ForeignServerRelationId UserMappingRelationId name);
      [intros E; vm_compute in E; discriminate E|assumption..]. }
  split; [|split; assumption].
  assert (Hsup : forall l : list DefElem,
             In (mkDefElem name v) l -> supplies name l = true).
  { intros l H. apply supplies_In.
    change name with (defname (mkDefElem name v)). now apply in_map. }
  unfold merged_options in Hin. simpl in Hin.
  unfold precedence.
  apply in_app_or in Hin. destruct Hin as [Hin|Hin].
  - destruct (Hts (Hsup _ Hin)) as [Hns Hnm].
    apply supplies_false_last_value in Hns, Hnm. rewrite Hns, Hnm.
    now apply last_value_of_unique.
  - apply in_app_or in Hin. destruct Hin as [Hin|Hin].
    + pose proof (Hsm (Hsup _ Hin)) as Hnm.
      apply supplies_false_last_value in Hnm. rewrite Hnm.
      now rewrite (last_value_of_unique name v _ Ns Hname Hin).
    + now rewrite (last_value_of_unique name v _ Nm Hname Hin).
Qed.

(** Outside the three contexts of the option table nothing is valid and
    the hint has nothing to list. *)
Lemma valid_names_buf_elsewhere (catalog : Oid) :
  ~ In catalog [ForeignServerRelationId; UserMappingRelationId;
                ForeignTableRelationId] ->
  valid_names_buf catalog = EmptyString /\
  forall name, tdsIsValidOption name catalog = false.
Proof.
  intros Hout. split.
  - assert (H1 : (catalog =? ForeignServerRelationId) = false)
      by (apply Z.eqb_neq; intros E; apply Hout; simpl; auto).
    assert (H2 : (catalog =? UserMappingRelationId) = false)
      by (apply Z.eqb_neq; intros E; apply Hout; simpl; auto).
    assert (H3 : (catalog =? ForeignTableRelationId) = false)
      by (apply Z.eqb_neq; intros E; apply Hout; simpl; auto).
    unfold valid_names_buf, valid_options.
    cbn [fold_left optcontext]. now rewrite H1, H2, H3.
  - intros name. destruct (tdsIsValidOption name catalog) eqn:V;
      [|reflexivity].
    exfalso. apply Hout. apply tdsIsValidOption_cases in V.
    destruct V as [[-> _]|[[-> _]|[-> _]]]; simpl; auto.
Qed.

(** X7.  In a context other than a server, a user mapping or a foreign table
    (the wrapper itself, for one) the validator accepts the empty list
    only: the first option of any other list is refused as an invalid
    name, with a hint that lists no valid option. *)
Theorem validator_rejects_outside_its_contexts (catalog : Oid) def
    (rest : list DefElem) s :
  ~ In catalog [ForeignServerRelationId; UserMappingRelationId;
                ForeignTableRelationId] ->
  tds_fdw_validator [] catalog s = (Done tt, s) /\
  tds_fdw_validator (def :: rest) catalog s
  = (Raised
       (mkErrorData (Some ERRCODE_FDW_INVALID_OPTION_NAME)
          ("Invalid option " +++ double_quote +++ defname def
           +++ double_quote)
          (Some "Valid options in this context are: <none>")),
     s).
Proof.
  intros Hout.
  destruct (valid_names_buf_elsewhere catalog Hout) as [Hbuf Hinvalid].
  split; [reflexivity|].
  unfold tds_fdw_validator. cbn [tds_fdw_validator_loop].
  unfold bind, tds_fdw_validator_step, bind.
  rewrite Hinvalid, Hbuf. reflexivity.
Qed.

(** X8.  The port is remembered as a number, and a second port is redundant
    when the number remembered is not 0: after a first port that reads as
    0 a second one is accepted, after any other it is refused, with the
    second value in the message. *)
Theorem port_is_redundant_when_nonzero (v1 v2 : string) s :
  tds_fdw_validator [mkDefElem "port" v1; mkDefElem "port" v2]
    ForeignServerRelationId s
  = if atoi v1 =? 0 then (Done tt, s)
    else (Raised (redundant_option "port" v2), s).
Proof.
  unfold tds_fdw_validator, tds_fdw_validator_loop, tds_fdw_validator_step,
    bind, ret, ereport.
  simpl. destruct (atoi v1 =? 0); reflexivity.
Qed.

End MoreOptions.

(** ** Connection set-up *)

Section MoreSession.

Context {L : DBLibrary}.
Implicit Types (s : @state L) (cat : ForeignCatalog) (os : TdsFdwOptionSet)
  (login : LOGINREC_ptr) (dbproc : DBPROCESS_ptr).

Ltac unfold_setup :=
  unfold tdsSetupConnection, tdsSetupConnection_query, bind, ret, ereport,
    palloc, pfree, undefined, sprintf, DBSETLUSER, DBSETLPWD, DBSETLCHARSET,
    DBSETLNATLANG, dbopen, dbuse, lib_call.

Ltac branches :=
  repeat (match goal with
          | |- context [if ?c then _ else _] => destruct c eqn:?
          | |- context [match ?x with Some _ => _ | None => _ end] =>
              destruct x eqn:?
          | |- context [let '(_, _) := ?x in _] => destruct x eqn:?
          end; simpl).

Lemma tdsSetupConnection_calls os login s rc os' dbproc s' :
  tdsSetupConnection os login s = (Done (rc, os', dbproc), s') ->
  exists host,
    servername os = Some host /\
    calls s'
    = calls s ++ login_settings os login
      ++ [Call_dbopen login (host_string os host)]
      ++ database_selection os dbproc.
Proof.
  unfold_setup. unfold login_settings, database_selection, host_string.
  destruct (servername os) as [host|];
    [|destruct (character_set os), (language os); discriminate].
  destruct (query os) as [q|], (table os) as [t|], (port os =? 0);
    cbv beta iota; rewrite ?snprintf_exact_query; simpl;
    branches; intros H; inversion H; subst; clear H;
    exists host; (split; [reflexivity|]); simpl;
    rewrite <- ?app_assoc; reflexivity.
Qed.

(** X9.  A connection set-up that returns has a connection that is not [NULL]
    and has made, in this order: the login settings of the plan, one
    [dbopen] with the host string of the plan, and the selection of the
    database when the plan names one. *)
Theorem setup_calls_in_order os login s rc os' dbproc s' :
  tdsSetupConnection os login s = (Done (rc, os', dbproc), s') ->
  rc = 0 /\ is_null dbproc = false /\
  exists host,
    servername os = Some host /\
    calls s'
    = calls s ++ login_settings os login
      ++ [Call_dbopen login (host_string os host)]
      ++ database_selection os dbproc.
Proof.
  intros H.
  destruct (tdsSetupConnection_done _ _ _ _ _ _ _ H) as (Hrc & Hnull & _).
  split; [exact Hrc|]. split; [exact Hnull|].
  exact (tdsSetupConnection_calls _ _ _ _ _ _ _ H).
Qed.

(** The connection and the world a set-up that returns has reached. *)
Lemma tdsSetupConnection_world os login s rc os' dbproc s' host :
  servername os = Some host ->
  tdsSetupConnection os login s = (Done (rc, os', dbproc), s') ->
  dbproc = session_connection os host login (lib s) /\
  lib s'
  = after_calls
      (login_settings os login ++ [Call_dbopen login (host_string os host)]
       ++ database_selection os dbproc)
      (lib s).
Proof.
  intros Hhost. unfold_setup.
  unfold session_connection, login_settings, database_selection, host_string,
    after_calls.
  rewrite Hhost.
  destruct (query os) as [q|], (table os) as [t|], (port os =? 0);
    cbv beta iota; rewrite ?snprintf_exact_query; simpl;
    branches; intros H; inversion H; subst; clear H;
    simpl; split; reflexivity.
Qed.

(** X10.  A connection the library does not give is reported as a
    connection error.  When [dbopen] answers [NULL], the set-up raises
    the error that names the host string and the user, with [dbopen] as
    its last call; when the connection is there and [dbuse] fails for
    the database of the plan, it raises the error that names the
    database, with [dbuse] as its last call.  In both cases no query is
    built. *)
Theorem setup_errors_are_connection_errors os login s host :
  servername os = Some host ->
  port os = 0 \/ strlen (string_of_int (port os)) <= 8 ->
  let conn := host_string os host in
  let dbproc := session_connection os host login (lib s) in
  let r := tdsSetupConnection os login s in
  (is_null dbproc = true ->
   fst r
   = Raised
       (report ERRCODE_FDW_UNABLE_TO_ESTABLISH_CONNECTION
          ("Failed to connect using connection string " +++ conn
           +++ " with user " +++ show (username os))) /\
   calls (snd r)
   = calls s ++ login_settings os login ++ [Call_dbopen login conn]) /\
  (is_null dbproc = false ->
   forall db,
     database os = Some db ->
     lib_dbuse L
       (lib_effect L (Call_dbopen login conn)
          (after_calls (login_settings os login) (lib s)))
       dbproc db
     = FAIL ->
     fst r
     = Raised
         (report ERRCODE_FDW_UNABLE_TO_ESTABLISH_CONNECTION
            ("Failed to select database " +++ db)) /\
     calls (snd r)
     = calls s ++ login_settings os login
       ++ [Call_dbopen login conn; Call_dbuse dbproc db]).
Proof.
  intros Hhost Hfit. cbv zeta. split.
  - intros N. exact (tdsSetupConnection_refused os login s host Hhost Hfit N).
  - intros N db Hdb U.
    exact (tdsSetupConnection_no_database os login s host db Hhost Hfit N
             Hdb U).
Qed.

(** X11.  A port whose text has more than eight characters does not fit the
    buffer of the host string: the set-up leaves defined behaviour before
    any connection is opened. *)
Theorem long_port_overruns_host_buffer os login s host :
  servername os = Some host ->
  8 < strlen (string_of_int (port os)) ->
  port os <> 0 ->
  fst (tdsSetupConnection os login s) = Undefined /\
  calls (snd (tdsSetupConnection os login s))
  = calls s ++ login_settings os login.
Proof.
  intros Hhost Hlong Hport.
  assert (Hroom :
            (strlen (host +++ ":" +++ string_of_int (port os)) + 1
             <=? (strlen host + 10) * 1) = false).
  { apply Z.leb_gt. rewrite !strlen_append. change (strlen ":") with 1. lia. }
  apply Z.eqb_neq in Hport.
  unfold_setup. unfold login_settings. rewrite Hhost, Hport.
  cbv beta iota zeta delta [negb]. rewrite Hroom.
  destruct (character_set os), (language os); simpl;
    rewrite <- ?app_assoc; split; reflexivity.
Qed.

(** X12.  An explicit query is kept as it is, whether or not a table is named
    as well: it is the query of the scan state. *)
Theorem explicit_query_is_kept cat s s' (q : string) :
  last_value "query" (merged_options cat) = Some q ->
  tdsBeginForeignScan cat s = (Done tt, s') ->
  exists festate,
    fdw_state s' = Some festate /\ fe_query festate = Some q.
Proof.
  rewrite last_value_merged. intros Hq H.
  apply tdsBeginForeignScan_done in H.
  destruct H as (os & login & os' & dbproc & s1 & s2 & tr
                 & Hopt & Hrun & Hfe & _).
  apply tdsGetOptions_done in Hopt. destruct Hopt as (_ & -> & _).
  apply tdsSetupConnection_done in Hrun. destruct Hrun as (_ & _ & ->).
  eexists. split; [exact Hfe|]. simpl. rewrite Hq. simpl. exact Hq.
Qed.

(** *** The port, from its text to the host string *)

Lemma digits_value_digit acc (c : ascii) (rest : string) :
  isdigit c = true ->
  digits_value acc (String c rest)
  = digits_value (10 * acc + (ascii_code c - 48)) rest.
Proof. intros H. simpl. now rewrite H. Qed.

Lemma digits_value_uint_acc (d : Decimal.uint) :
  forall acc : positive,
    digits_value (Z.pos acc) (NilEmpty.string_of_uint d)
    = Z.pos (Pos.of_uint_acc d acc).
Proof.
  induction d as [|d IH|d IH|d IH|d IH|d IH|d IH|d IH|d IH|d IH|d IH];
    intros acc; cbn [NilEmpty.string_of_uint Pos.of_uint_acc];
    [reflexivity|..];
    rewrite digits_value_digit by reflexivity;
    rewrite <- IH; f_equal;
    match goal with
    | |- context [ascii_code ?c] =>
        let v := eval vm_compute in (ascii_code c - 48) in
        change (ascii_code c - 48) with v
    end; lia.
Qed.

Lemma digits_value_uint (d : Decimal.uint) :
  digits_value 0 (NilEmpty.string_of_uint d) = Z.of_N (Pos.of_uint d).
Proof.
  induction d as [|d IH|d IH|d IH|d IH|d IH|d IH|d IH|d IH|d IH|d IH];
    cbn [NilEmpty.string_of_uint Pos.of_uint];
    [reflexivity|..];
    rewrite digits_value_digit by reflexivity;
    [exact IH|..];
    match goal with
    | |- context [ascii_code ?c] =>
        let v := eval vm_compute in (10 * 0 + (ascii_code c - 48)) in
        change (10 * 0 + (ascii_code c - 48)) with v
    end;
    rewrite digits_value_uint_acc; reflexivity.
Qed.

Lemma digits_value_to_uint (p : positive) :
  digits_value 0 (NilZero.string_of_uint (Pos.to_uint p)) = Z.pos p.
Proof.
  assert (H : NilZero.string_of_uint (Pos.to_uint p)
              = NilEmpty.string_of_uint (Pos.to_uint p)).
  { pose proof (Unsigned.to_uint_nonnil p).
    now destruct (Pos.to_uint p). }
  rewrite H, digits_value_uint, Unsigned.of_to. reflexivity.
Qed.

(** [strtol] reads back what ["%i"] printed. *)
Lemma strtol10_string_of_int (z : Z) :
  LONG_MIN <= z <= LONG_MAX -> strtol10 (string_of_int z) = z.
Proof.
  intros Hz.
  assert (Hclamp : clamp_long z = z) by (unfold clamp_long; lia).
  unfold string_of_int, strtol10. destruct z as [|p|p].
  - reflexivity.
  - cbn [Z.to_int NilZero.string_of_int].
    pose proof (digits_value_to_uint p) as Hd.
    pose proof (Unsigned.to_uint_nonnil p) as Hn.
    destruct (Pos.to_uint p);
      [contradiction|..];
      cbn [NilZero.string_of_uint NilEmpty.string_of_uint] in *;
      cbn [skip_spaces];
      match goal with
      | |- context [isspace ?c] => change (isspace c) with false
      end;
      cbv iota;
      match goal with
      | |- context [Ascii.eqb ?c "-"] => change (Ascii.eqb c "-") with false
      end;
      match goal with
      | |- context [Ascii.eqb ?c "+"] => change (Ascii.eqb c "+") with false
      end;
      cbv iota; now rewrite Hd.
  - cbn [Z.to_int NilZero.string_of_int skip_spaces].
    change (isspace "-") with false. cbv iota.
    change (Ascii.eqb "-" "-") with true. cbv iota.
    now rewrite digits_value_to_uint.
Qed.

(** [atoi] reads back the text of any [int]. *)
Lemma atoi_string_of_int (z : Z) :
  - 2 ^ 31 <= z < 2 ^ 31 -> atoi (string_of_int z) = z.
Proof.
  intros Hz. unfold atoi.
  rewrite strtol10_string_of_int by (unfold LONG_MIN, LONG_MAX; lia).
  unfold to_int. rewrite Z.mod_small; lia.
Qed.

(** X13.  A port written as the decimal text of a number other than 0, of at
    most eight characters, goes through resolution and formatting
    unchanged: [dbopen] gets the server name, a colon and that text. *)
Theorem port_text_reaches_dbopen cat s os s1 login (p : Z) :
  - 2 ^ 31 <= p < 2 ^ 31 -> p <> 0 ->
  strlen (string_of_int p) <= 8 ->
  precedence "port" cat = Some (string_of_int p) ->
  tdsGetOptions cat s = (Done os, s1) ->
  port os = p /\
  exists host,
    servername os = Some host /\
    dbopen_hosts (calls (snd (tdsSetupConnection os login s1)))
    = dbopen_hosts (calls s1) ++ [host +++ ":" +++ string_of_int p].
Proof.
  intros Hrange Hp Hlen Hport H.
  apply tdsGetOptions_done in H. destruct H as (-> & -> & _).
  assert (E : port (resolved_by_precedence cat) = p).
  { unfold resolved_by_precedence, plan_of. simpl. rewrite Hport.
    now apply atoi_string_of_int. }
  split; [exact E|]. eexists. split; [reflexivity|].
  erewrite tdsSetupConnection_host;
    [|reflexivity|right; rewrite E; exact Hlen].
  rewrite E. apply Z.eqb_neq in Hp. now rewrite Hp.
Qed.

End MoreSession.

(** ** The planner adapter *)

Section MorePlanner.

Context {L : DBLibrary}.
Implicit Types (s : @state L) (cat : ForeignCatalog) (os : TdsFdwOptionSet)
  (login : LOGINREC_ptr) (dbproc : DBPROCESS_ptr).

Ltac answers :=
  repeat (match goal with
          | |- context [if ?c then _ else _] => destruct c eqn:?
          end; simpl).

(** The row count touches neither the relation entry nor the scan state
    nor the notices. *)
Lemma tdsGetRowCount_frame os login dbproc s :
  let s' := snd (tdsGetRowCount os login dbproc s) in
  notices s' = notices s /\ fdw_state s' = fdw_state s /\
  baserel_rows s' = baserel_rows s /\ baserel_tuples s' = baserel_tuples s.
Proof.
  unfold tdsGetRowCount, bind, ret, ereport, dbcmd, dbsqlexec, dbresults,
    dbnextrow, DBCOUNT, lib_call, lib_read.
  simpl. answers; repeat split.
Qed.

Lemma after_calls_app (a b : list Call) (w : world L) :
  after_calls (a ++ b) w = after_calls b (after_calls a w).
Proof. apply fold_left_app. Qed.

(** A row count that returns, with the worlds it went through. *)
Lemma tdsGetRowCount_done os login dbproc s rows s' :
  tdsGetRowCount os login dbproc s = (Done rows, s') ->
  let q := query os in
  let w := after_calls [Call_dbcmd dbproc q; Call_dbsqlexec dbproc] (lib s) in
  (lib_dbresults L w dbproc = NO_MORE_RESULTS /\
   calls s' = calls s ++ count_without_result_set dbproc q /\
   rows = 0) \/
  (lib_dbresults L w dbproc = SUCCEED /\
   calls s' = calls s ++ count_with_result_set dbproc q /\
   rows
   = lib_DBCOUNT L
       (after_calls [Call_dbresults dbproc; Call_dbnextrow dbproc] w)
       dbproc).
Proof.
  unfold tdsGetRowCount, bind, ret, ereport, dbcmd, dbsqlexec, dbresults,
    dbnextrow, DBCOUNT, lib_call, lib_read, count_without_result_set,
    count_with_result_set, after_calls.
  simpl.
  answers; rewrite <- ?app_assoc; simpl;
    intros H; inversion H; subst;
    repeat match goal with
           | E : (_ =? _) = true |- _ => apply Z.eqb_eq in E
           end;
    first [ left; repeat apply conj; auto; fail
          | right; repeat apply conj; auto ].
Qed.

(** X14.  A row estimate that returns has begun a session, set the
    connection of the plan up, sent the query of the plan (the explicit
    one, or the one built from the table), executed it and asked for its
    result set.  Then either the library reported none and the estimate
    is 0 rows, nothing being fetched, or it reported one, a single row was
    fetched, and the estimate is what [DBCOUNT] says right after that
    fetch.  The tuple count is the same number, and the session is
    released last, connection first. *)
Theorem estimate_size_on_return cat s s' :
  tdsGetForeignRelSize cat s = (Done tt, s') ->
  exists os host,
    tdsGetOptions cat s = (Done os, s) /\
    servername os = Some host /\
    let login := session_login (lib s) in
    let dbproc :=
      session_connection os host login
        (after_calls (library_start login) (lib s)) in
    let q :=
      match query os with
      | Some q0 => Some q0
      | None => option_map (String.append query_prefix) (table os)
      end in
    let setup :=
      library_start login ++ login_settings os login
      ++ [Call_dbopen login (host_string os host)]
      ++ database_selection os dbproc in
    let w :=
      after_calls (setup ++ [Call_dbcmd dbproc q; Call_dbsqlexec dbproc])
        (lib s) in
    let release :=
      [Call_dbclose dbproc; Call_dbloginfree login; Call_dbexit] in
    baserel_tuples s' = baserel_rows s' /\
    ((lib_dbresults L w dbproc = NO_MORE_RESULTS /\
      calls s'
      = calls s ++ setup ++ count_without_result_set dbproc q ++ release /\
      baserel_rows s' = 0) \/
     (lib_dbresults L w dbproc = SUCCEED /\
      calls s'
      = calls s ++ setup ++ count_with_result_set dbproc q ++ release /\
      baserel_rows s'
      = lib_DBCOUNT L
          (after_calls [Call_dbresults dbproc; Call_dbnextrow dbproc] w)
          dbproc)).
Proof.
  intros H. unfold tdsGetForeignRelSize in H.
  monad_inv H as os s1 Hopt.
  destruct (tdsGetOptions_done _ _ _ _ Hopt) as (-> & _ & _).
  monad_inv H as rc s2 Hinit. inversion Hinit; subst rc s2; clear Hinit.
  destruct (lib_dbinit L (lib s) =? FAIL);
    [unfold bind, ereport in H; discriminate|].
  monad_inv H as u s4 Herr. inversion Herr; subst u s4; clear Herr.
  monad_inv H as u s5 Hmsg. inversion Hmsg; subst u s5; clear Hmsg.
  monad_inv H as login s6 Hlogin.
  unfold dblogin, lib_call in Hlogin. injection Hlogin as El Es. subst s6.
  destruct (is_null login); [unfold bind, ereport in H; discriminate|].
  monad_inv H as r s8 Hsetup. destruct r as [[rc os'] dbproc].
  destruct (tdsSetupConnection_done _ _ _ _ _ _ _ Hsetup) as (-> & _ & Hos').
  destruct (tdsSetupConnection_calls _ _ _ _ _ _ _ Hsetup)
    as (host & Hhost & Hcalls).
  destruct (tdsSetupConnection_world _ _ _ _ _ _ _ host Hhost Hsetup)
    as (Hdbproc & Hworld).
  simpl in H.
  monad_inv H as rows s9 Hcount.
  apply tdsGetRowCount_done in Hcount. cbv zeta in Hcount.
  unfold bind, set_baserel, dbclose, dbloginfree, dbexit, lib_call, ret in H.
  simpl in H. inversion H; subst s'; clear H.
  exists os, host. split; [exact Hopt|]. split; [exact Hhost|].
  intros login0 dbproc0 q setup w release.
  assert (El0 : login0 = login) by exact El.
  clearbody login0. subst login0.
  assert (Ed : dbproc0 = dbproc) by (symmetry; exact Hdbproc).
  clearbody dbproc0. subst dbproc0.
  assert (Eq : query os' = q).
  { unfold q. rewrite Hos'. destruct (query os) eqn:Q; [exact Q|reflexivity]. }
  rewrite Eq in Hcount. clear Hos' Eq.
  assert (Ew : w
               = after_calls [Call_dbcmd dbproc q; Call_dbsqlexec dbproc]
                   (lib s8)).
  { unfold w, setup. rewrite Hworld, !after_calls_app. reflexivity. }
  assert (Ec : calls s8 = calls s ++ setup).
  { rewrite Hcalls. unfold setup, library_start. simpl.
    rewrite <- !app_assoc. reflexivity. }
  rewrite <- Ew in Hcount. clearbody w q.
  cbn [baserel_rows baserel_tuples calls].
  split; [reflexivity|].
  destruct Hcount as [(Hres & Hc & ->)|(Hres & Hc & ->)]; [left|right];
    (split; [exact Hres|]);
    (split; [rewrite Hc, Ec; unfold release; rewrite <- !app_assoc;
             reflexivity|reflexivity]).
Qed.

(** X15.  A row estimate that does not return leaves the relation entry as it
    was: no row or tuple count is written on a failure. *)
Theorem estimate_size_failure_writes_nothing cat s e s' :
  tdsGetForeignRelSize cat s = (Raised e, s') ->
  baserel_rows s' = baserel_rows s /\ baserel_tuples s' = baserel_tuples s.
Proof.
  unfold tdsGetForeignRelSize, bind. rewrite tdsGetOptions_run.
  destruct (is_null (precedence "table" cat)
            && is_null (precedence "query" cat)).
  { intros H; inversion H; subst. split; reflexivity. }
  unfold dbinit, dberrhandle, dbmsghandle, dblogin, lib_call, ereport, ret.
  simpl.
  destruct (lib_dbinit L (lib s) =? FAIL); simpl.
  { intros H; inversion H; subst. split; reflexivity. }
  match goal with
  | |- context [is_null ?l] => destruct (is_null l); simpl
  end.
  { intros H; inversion H; subst. split; reflexivity. }
  match goal with
  | |- context [tdsSetupConnection ?o ?l ?st] =>
      pose proof (tdsSetupConnection_frame o l st) as Hframe;
      pose proof (tdsSetupConnection_done o l st) as Hdone;
      destruct (tdsSetupConnection o l st) as [[[[rc os'] dbproc]|e1|] s1]
  end; simpl in Hframe; destruct Hframe as (_ & _ & _ & Hr1 & Ht1);
    simpl in Hr1, Ht1.
  - destruct (Hdone _ _ _ _ eq_refl) as (-> & _ & _). simpl.
    match goal with
    | |- context [tdsGetRowCount ?o ?l ?d ?st] =>
        pose proof (tdsGetRowCount_frame o l d st) as Hcount;
        destruct (tdsGetRowCount o l d st) as [[rows|e2|] s2]
    end; simpl in Hcount; destruct Hcount as (_ & _ & Hr2 & Ht2).
    + unfold set_baserel, dbclose, dbloginfree, dbexit, lib_call. simpl.
      discriminate.
    + intros H; inversion H; subst. split; congruence.
    + discriminate.
  - intros H; inversion H; subst. split; congruence.
  - discriminate.
Qed.

(** X16.  The cost estimate and the path construction call nothing of the
    library and deliver no notice, and they leave the scan state and the
    row estimate of the relation as they are.  When they return, the
    startup cost is 0 or 25, the total cost is the sum of the row estimate
    and the startup cost as two doubles add, which is their exact sum for
    a row estimate within 2^53 - 25 in magnitude, and the path handed to
    [add_path] carries the row estimate and the two costs. *)
Theorem costs_need_no_connection cat s :
  let r := tdsEstimateCosts cat s in
  let p := tdsGetForeignPaths cat s in
  calls (snd r) = calls s /\ notices (snd r) = notices s /\
  calls (snd p) = calls s /\ notices (snd p) = notices s /\
  fdw_state (snd p) = fdw_state s /\
  baserel_rows (snd p) = baserel_rows s /\
  baserel_tuples (snd p) = baserel_tuples s /\
  (forall startup_cost total_cost,
      fst r = Done (startup_cost, total_cost) ->
      fst p = Done (mkForeignPath (baserel_rows s) startup_cost total_cost) /\
      (startup_cost = 0 \/ startup_cost = 25) /\
      total_cost = double_add (baserel_rows s) startup_cost /\
      (Z.abs (baserel_rows s) + 25 <= 2 ^ 53 ->
       total_cost = baserel_rows s + startup_cost)).
Proof.
  cbv zeta.
  unfold tdsGetForeignPaths, tdsEstimateCosts, tdsGetStartupCost, bind,
    get_baserel_rows, ret.
  rewrite tdsGetOptions_run.
  destruct (is_null (precedence "table" cat)
            && is_null (precedence "query" cat)); simpl.
  - repeat apply conj; try reflexivity. intros a b H. discriminate H.
  - match goal with
    | |- context [if ?c then _ else _] => destruct c
    end; simpl; repeat apply conj; try reflexivity;
      intros a b H; inversion H; subst;
      repeat apply conj; auto;
      intros Hrows; apply double_add_exact; lia.
Qed.

(** X17.  The older planner entry point does what the two newer ones do one
    after the other: the same outcome, the same calls and relation entry,
    the same two costs. *)
Theorem plan_foreign_scan_agrees cat s :
  costs_of_plan (tdsPlanForeignScan cat s) = size_then_costs cat s.
Proof.
  unfold size_then_costs, tdsPlanForeignScan, tdsGetForeignRelSize,
    tdsEstimateCosts, tdsGetStartupCost, bind.
  rewrite tdsGetOptions_run.
  destruct (is_null (precedence "table" cat)
            && is_null (precedence "query" cat)) eqn:G; [reflexivity|].
  cbn [servername resolved_by_precedence plan_of].
  set (startup :=
         if String.eqb
              match precedence "servername" cat with
              | Some v => v
              | None => DEFAULT_SERVERNAME
              end "127.0.0.1"
            || String.eqb
                 match precedence "servername" cat with
                 | Some v => v
                 | None => DEFAULT_SERVERNAME
                 end "localhost"
         then 0 else 25).
  assert (Hstartup :
            forall s0 : @state L,
              (if String.eqb
                    match precedence "servername" cat with
                    | Some v => v
                    | None => DEFAULT_SERVERNAME
                    end "127.0.0.1"
                  || String.eqb
                       match precedence "servername" cat with
                       | Some v => v
                       | None => DEFAULT_SERVERNAME
                       end "localhost"
               then ret 0 else ret 25) s0 = (Done startup, s0)).
  { intros s0. unfold startup.
    match goal with |- context [if ?c then _ else _] => destruct c end;
      reflexivity. }
  rewrite Hstartup.
  unfold dbinit, dberrhandle, dbmsghandle, dblogin, lib_call, ereport, ret.
  simpl.
  destruct (lib_dbinit L (lib s) =? FAIL); simpl; [reflexivity|].
  match goal with
  | |- context [is_null ?l] => destruct (is_null l); simpl
  end; [reflexivity|].
  match goal with
  | |- context [tdsSetupConnection ?o ?l ?st] =>
      pose proof (tdsSetupConnection_done o l st) as Hdone;
      destruct (tdsSetupConnection o l st) as [[[[rc os'] dbproc]|e1|] s1]
  end; simpl; [|reflexivity|reflexivity].
  destruct (Hdone _ _ _ _ eq_refl) as (-> & _ & _). simpl.
  destruct (tdsGetRowCount os' _ dbproc s1) as [[rows|e2|] s2]; simpl;
    [|reflexivity|reflexivity].
  unfold set_baserel, dbclose, dbloginfree, dbexit, lib_call,
    get_baserel_rows. simpl.
  rewrite tdsGetOptions_run, G. simpl.
  fold startup.
  match goal with
  | |- context [if ?c then _ else _] =>
      change (if c then ret 0 else ret 25)
        with (if c then @ret L Z 0 else ret 25)
  end.
  unfold startup.
  match goal with |- context [if ?c then _ else _] => destruct c end;
    reflexivity.
Qed.

End MorePlanner.

(** ** The scan cursor, request by request *)

Section MoreScan.

Context {L : DBLibrary}.
Implicit Types (s : @state L) (cat : ForeignCatalog)
  (festate : TdsFdwExecutionState) (login : LOGINREC_ptr)
  (dbproc : DBPROCESS_ptr).

Ltac run_scan :=
  unfold tdsIterateForeignScan_first, tdsIterateForeignScan_fetch, set_first,
    incr_row, get_festate, set_fdw_state, bind, ret, ereport, palloc, dbcmd,
    dbsqlexec, dbresults, dbnextrow, dbnumcols, lib_call, lib_read.

Ltac answers :=
  repeat (match goal with
          | |- context [if ?c then _ else _] => destruct c eqn:?
          end; simpl).

(** The first-iteration block delivers no notice and leaves the relation
    entry alone; when it returns, the result set is there. *)
Lemma tdsIterateForeignScan_first_frame festate s :
  fdw_state s = Some festate ->
  let r := tdsIterateForeignScan_first festate s in
  notices (snd r) = notices s /\
  baserel_rows (snd r) = baserel_rows s /\
  baserel_tuples (snd r) = baserel_tuples s /\
  (forall e, fst r = Raised e ->
             errcode e = Some ERRCODE_FDW_UNABLE_TO_CREATE_EXECUTION) /\
  (forall u, fst r = Done u ->
             lib (snd r)
             = after_calls (compile_execute_calls festate) (lib s)).
Proof.
  intros Hfe. run_scan. rewrite Hfe. simpl.
  answers; repeat apply conj; try reflexivity;
    intros e H; inversion H; reflexivity.
Qed.

(** Fetching, by the answer of [dbnextrow]. *)
Lemma tdsIterateForeignScan_fetch_run festate cur s :
  fdw_state s = Some cur ->
  let dbproc := fe_dbproc festate in
  let rc := lib_dbnextrow L (lib s) dbproc in
  let w1 := lib_effect L (Call_dbnextrow dbproc) (lib s) in
  let r := tdsIterateForeignScan_fetch festate None s in
  if rc =? NO_MORE_ROWS then
    r = (Done None,
         mkState w1 (calls s ++ [Call_dbnextrow dbproc])
           (notices s ++ [no_more_rows_notice]) (Some cur)
           (baserel_rows s) (baserel_tuples s))
  else if rc =? REG_ROW then
    if fe_row cur <? INT_MAX then
      exists values tr,
        r = (Done (Some values),
             mkState w1
               (calls s
                ++ Call_dbnextrow dbproc :: Call_dbnumcols dbproc :: tr)
               (notices s)
               (Some (mkTdsFdwExecutionState (fe_login cur) (fe_dbproc cur)
                        (fe_query cur) (fe_first cur) (fe_row cur + 1)))
               (baserel_rows s) (baserel_tuples s)) /\
        List.length values = Z.to_nat (lib_dbnumcols L w1 dbproc) /\
        forallb is_row_access tr = true
    else
      r = (Undefined,
           mkState w1 (calls s ++ [Call_dbnextrow dbproc]) (notices s)
             (Some cur) (baserel_rows s) (baserel_tuples s))
  else
    exists e,
      r = (Raised e,
           mkState w1 (calls s ++ [Call_dbnextrow dbproc]) (notices s)
             (Some cur) (baserel_rows s) (baserel_tuples s)) /\
      errcode e = Some (if rc =? BUF_FULL then ERRCODE_FDW_OUT_OF_MEMORY
                        else ERRCODE_FDW_UNABLE_TO_CREATE_EXECUTION).
Proof.
  intros Hfe. cbv zeta. run_scan. rewrite Hfe. simpl.
  destruct (lib_dbnextrow L (lib s) (fe_dbproc festate) =? NO_MORE_ROWS);
    simpl; [reflexivity|].
  destruct (lib_dbnextrow L (lib s) (fe_dbproc festate) =? REG_ROW); simpl.
  - destruct (fe_row cur <? INT_MAX); simpl; [|reflexivity].
    match goal with
    | |- context [tdsIterateForeignScan_columns ?d ?n ?c ?st] =>
        destruct (tdsIterateForeignScan_columns_run d n c st)
          as (values & tr & Hrun & Hcls & Hlen & _); rewrite Hrun
    end.
    simpl. exists values, tr. unfold add_calls. simpl.
    rewrite <- !app_assoc. simpl.
    repeat apply conj; [reflexivity|exact Hlen|exact Hcls].
  - destruct (lib_dbnextrow L (lib s) (fe_dbproc festate) =? BUF_FULL);
      simpl; [eexists; split; reflexivity|].
    destruct (lib_dbnextrow L (lib s) (fe_dbproc festate) =? FAIL);
      simpl; eexists; split; reflexivity.
Qed.

(** A request in a state whose [first] is cleared is the fetch alone. *)
Lemma tdsIterateForeignScan_later festate s :
  fdw_state s = Some festate -> fe_first festate = 0 ->
  tdsIterateForeignScan s = tdsIterateForeignScan_fetch festate None s.
Proof.
  intros Hfe H0. unfold tdsIterateForeignScan, bind, get_festate.
  rewrite Hfe, H0. reflexivity.
Qed.

Lemma new_calls (a b : list Call) : skipn (List.length a) (a ++ b) = b.
Proof. now rewrite skipn_app, skipn_all, Nat.sub_diag. Qed.

(** One request moves the row counter by one when it fetches a row, and
    not at all otherwise; a request that returns a row has fetched it. *)
Lemma tdsIterateForeignScan_counts festate s :
  fdw_state s = Some festate ->
  fe_row festate < INT_MAX ->
  exists festate',
    fdw_state (snd (tdsIterateForeignScan s)) = Some festate' /\
    fe_row festate' = fe_row festate + fetched s /\
    0 <= delivered s <= fetched s /\ fetched s <= 1.
Proof.
  intros Hfe Hroom. apply Z.ltb_lt in Hroom.
  unfold fetched, delivered, tdsIterateForeignScan, bind, get_festate.
  rewrite Hfe.
  destruct (fe_first festate =? 0); cbn [negb].
  - unfold ret.
    pose proof (tdsIterateForeignScan_fetch_run festate festate s Hfe) as H.
    cbv zeta in H. rewrite Hroom in H.
    destruct (lib_dbnextrow L (lib s) (fe_dbproc festate) =? NO_MORE_ROWS).
    { rewrite H. simpl. rewrite new_calls. simpl.
      eexists. split; [reflexivity|lia]. }
    destruct (lib_dbnextrow L (lib s) (fe_dbproc festate) =? REG_ROW).
    { destruct H as (values & tr & -> & _). simpl. rewrite new_calls. simpl.
      eexists. split; [reflexivity|]. simpl. lia. }
    destruct H as (e & -> & _). simpl. rewrite new_calls. simpl.
    eexists. split; [reflexivity|lia].
  - destruct (tdsIterateForeignScan_first_cases festate s Hfe)
      as (k & _ & Hc & Hst & Hout & _).
    destruct (tdsIterateForeignScan_first festate s) as [[u|e|] s1];
      simpl in Hc, Hst, Hout; [| |contradiction].
    + subst k.
      pose proof (tdsIterateForeignScan_fetch_run festate _ s1 Hst) as H.
      cbv zeta in H. cbn [fe_row] in H. rewrite Hroom in H.
      destruct (lib_dbnextrow L (lib s1) (fe_dbproc festate) =? NO_MORE_ROWS).
      { rewrite H. simpl. rewrite Hc, <- app_assoc, new_calls. simpl.
        eexists. split; [reflexivity|simpl; lia]. }
      destruct (lib_dbnextrow L (lib s1) (fe_dbproc festate) =? REG_ROW).
      { destruct H as (values & tr & -> & _). simpl.
        rewrite Hc, <- app_assoc, new_calls. simpl.
        eexists. split; [reflexivity|]. simpl. lia. }
      destruct H as (e & -> & _). simpl.
      rewrite Hc, <- app_assoc, new_calls. simpl.
      eexists. split; [reflexivity|simpl; lia].
    + simpl. rewrite Hc, new_calls.
      assert (Hnone :
                existsb
                  (fun c => match c with
                            | Call_dbnumcols _ => true
                            | _ => false
                            end)
                  (firstn k (compile_execute_calls festate)) = false)
        by (destruct k as [|[|[|[|k]]]]; reflexivity).
      rewrite Hnone. eexists. split; [exact Hst|simpl; lia].
Qed.

(** X23.  The row counter of the scan state counts the rows fetched.  As
    long as the counter, an [int], has room for one more row per request,
    it grows over these requests, whatever their outcomes, by the number
    of requests in which [dbnextrow] gave a row, which is at least the
    number of requests that returned one. *)
Theorem row_counter_counts_fetched_rows (n : nat) s festate :
  fdw_state s = Some festate ->
  fe_row festate + Z.of_nat n <= INT_MAX ->
  (exists festate',
      fdw_state (iterate_times n s) = Some festate' /\
      fe_row festate' = fe_row festate + rows_fetched n s) /\
  0 <= rows_delivered n s <= rows_fetched n s /\
  rows_fetched n s <= Z.of_nat n.
Proof.
  intros Hfe. induction n as [|n IH]; intros Hroom.
  - split; [exists festate; split; [exact Hfe|simpl; lia]|].
    simpl. lia.
  - destruct IH as ((fn & Hst & Hrow) & Hbound & Hmax); [lia|].
    destruct (tdsIterateForeignScan_counts fn (iterate_times n s) Hst)
      as (f' & Hst' & Hrow' & Hone & Hone'); [lia|].
    split; [exists f'; split; [exact Hst'|cbn [rows_fetched]; lia]|].
    cbn [rows_delivered rows_fetched]. lia.
Qed.

(** X20.  What a request that returns hands back follows [dbnextrow].
    The slot is empty when it answered [NO_MORE_ROWS]: no column was
    looked at, and the last notice delivered is "No more rows".  The slot
    is filled when it answered [REG_ROW], from an array of values that has
    one cell for each column [dbnumcols] reports; the array is what
    [BuildTupleFromCStrings] is given.  The three calls of the first
    request come before, all of them or none, and [dbnextrow] answers in
    the world they leave. *)
Theorem returned_slot_reflects_dbnextrow festate s slot s' :
  fdw_state s = Some festate ->
  tdsIterateForeignScan s = (Done slot, s') ->
  let dbproc := fe_dbproc festate in
  exists before s1,
    before = (if fe_first festate =? 0 then []
              else compile_execute_calls festate) /\
    calls s1 = calls s ++ before /\
    lib s1 = after_calls before (lib s) /\
    match slot with
    | None =>
        lib_dbnextrow L (lib s1) dbproc = NO_MORE_ROWS /\
        (exists earlier, notices s' = earlier ++ [no_more_rows_notice]) /\
        calls s' = calls s1 ++ [Call_dbnextrow dbproc]
    | Some values =>
        lib_dbnextrow L (lib s1) dbproc = REG_ROW /\
        List.length values = Z.to_nat (lib_dbnumcols L (lib s') dbproc) /\
        exists tr,
          calls s'
          = calls s1 ++ Call_dbnextrow dbproc :: Call_dbnumcols dbproc :: tr
          /\ forallb is_row_access tr = true
    end.
Proof.
  intros Hfe H. cbv zeta. unfold tdsIterateForeignScan in H.
  monad_inv H as f s0 Hget. unfold get_festate in Hget. rewrite Hfe in Hget.
  inversion Hget; subst f s0; clear Hget.
  monad_inv H as u s1 Hfirst.
  assert (Hs1 : exists cur,
             fdw_state s1 = Some cur /\
             calls s1
             = calls s ++ (if fe_first festate =? 0 then []
                           else compile_execute_calls festate) /\
             lib s1
             = after_calls (if fe_first festate =? 0 then []
                            else compile_execute_calls festate) (lib s)).
  { destruct (fe_first festate =? 0); cbn [negb] in Hfirst.
    - inversion Hfirst; subst s1. exists festate.
      rewrite app_nil_r. auto.
    - destruct (tdsIterateForeignScan_first_cases festate s Hfe)
        as (k & _ & Hc & Hst & Hout & _).
      destruct (tdsIterateForeignScan_first_frame festate s Hfe)
        as (_ & _ & _ & _ & Hw).
      rewrite Hfirst in Hc, Hst, Hout, Hw.
      simpl in Hc, Hst, Hout, Hw.
      subst k. eexists. split; [exact Hst|].
      split; [exact Hc|]. exact (Hw u eq_refl). }
  destruct Hs1 as (cur & Hcur & Hc1 & Hw1).
  exists (if fe_first festate =? 0 then [] else compile_execute_calls festate),
    s1.
  split; [reflexivity|]. split; [exact Hc1|]. split; [exact Hw1|].
  pose proof (tdsIterateForeignScan_fetch_run festate cur s1 Hcur) as Hrun.
  cbv zeta in Hrun.
  destruct (lib_dbnextrow L (lib s1) (fe_dbproc festate) =? NO_MORE_ROWS)
    eqn:E1.
  { rewrite Hrun in H. inversion H; subst slot s'; clear H. simpl.
    apply Z.eqb_eq in E1. repeat apply conj; eauto. }
  destruct (lib_dbnextrow L (lib s1) (fe_dbproc festate) =? REG_ROW) eqn:E2.
  { destruct (fe_row cur <? INT_MAX); [|rewrite Hrun in H; discriminate H].
    destruct Hrun as (values & tr & Hrun & Hlen & Hcls).
    rewrite Hrun in H. inversion H; subst slot s'; clear H. simpl.
    apply Z.eqb_eq in E2.
    repeat apply conj; auto. exists tr. auto. }
  destruct Hrun as (e & Hrun & _). rewrite Hrun in H. discriminate H.
Qed.

(** X21.  On a request after the first, an answer of [dbnextrow] that
    is neither a row nor the end of the rows is reported as an error: out
    of memory for [BUF_FULL], a failed execution for [FAIL] and for every
    other code.  The request makes no further call, and the scan state,
    its row counter included, stays as it was. *)
Theorem fetch_errors_by_return_code festate s :
  fdw_state s = Some festate ->
  fe_first festate = 0 ->
  let rc := lib_dbnextrow L (lib s) (fe_dbproc festate) in
  rc <> NO_MORE_ROWS ->
  rc <> REG_ROW ->
  exists e,
    fst (tdsIterateForeignScan s) = Raised e /\
    errcode e = Some (if rc =? BUF_FULL then ERRCODE_FDW_OUT_OF_MEMORY
                      else ERRCODE_FDW_UNABLE_TO_CREATE_EXECUTION) /\
    calls (snd (tdsIterateForeignScan s))
    = calls s ++ [Call_dbnextrow (fe_dbproc festate)] /\
    fdw_state (snd (tdsIterateForeignScan s)) = fdw_state s.
Proof.
  intros Hfe H0. cbv zeta. intros H1 H2.
  rewrite (tdsIterateForeignScan_later festate s Hfe H0).
  pose proof (tdsIterateForeignScan_fetch_run festate festate s Hfe) as Hrun.
  cbv zeta in Hrun.
  apply Z.eqb_neq in H1, H2. rewrite H1, H2 in Hrun.
  destruct Hrun as (e & Hrun & Hcode). rewrite Hrun. simpl.
  exists e. rewrite Hfe. repeat apply conj; auto.
Qed.

(** X22.  The first request needs a result set: when the query is accepted and
    executed but [dbresults] answers anything other than [SUCCEED] (a
    failure, no result set at all, an unknown code), the request raises a
    failed execution after the three calls, fetches nothing, and leaves
    [first] cleared. *)
Theorem first_request_needs_a_result_set festate s :
  fdw_state s = Some festate ->
  fe_first festate <> 0 ->
  let dbproc := fe_dbproc festate in
  let w1 := lib_effect L (Call_dbcmd dbproc (fe_query festate)) (lib s) in
  let w2 := lib_effect L (Call_dbsqlexec dbproc) w1 in
  lib_dbcmd L (lib s) dbproc (fe_query festate) <> FAIL ->
  lib_dbsqlexec L w1 dbproc <> FAIL ->
  lib_dbresults L w2 dbproc <> SUCCEED ->
  exists e,
    fst (tdsIterateForeignScan s) = Raised e /\
    errcode e = Some ERRCODE_FDW_UNABLE_TO_CREATE_EXECUTION /\
    calls (snd (tdsIterateForeignScan s))
    = calls s ++ compile_execute_calls festate /\
    fdw_state (snd (tdsIterateForeignScan s))
    = Some (mkTdsFdwExecutionState (fe_login festate) (fe_dbproc festate)
              (fe_query festate) 0 (fe_row festate)).
Proof.
  intros Hfe H1 dbproc w1 w2 Hcmd Hexec Hres.
  apply Z.eqb_neq in H1, Hcmd, Hexec, Hres.
  unfold tdsIterateForeignScan, bind, get_festate. rewrite Hfe, H1.
  cbn [negb]. run_scan. rewrite Hfe. simpl.
  fold dbproc. rewrite Hcmd. simpl. fold w1. rewrite Hexec. simpl.
  fold w2. rewrite Hres.
  unfold compile_execute_calls. fold dbproc.
  destruct (lib_dbresults L w2 dbproc =? FAIL); simpl;
    [|destruct (lib_dbresults L w2 dbproc =? NO_MORE_RESULTS); simpl];
    eexists; rewrite <- ?app_assoc; simpl;
    repeat apply conj; reflexivity.
Qed.

(** X18.  A scan that has begun has initialised the library, registered the
    two callbacks and obtained the login record before anything else,
    then has set the login up, opened one connection to the host of the
    plan and selected the database when the plan names one.  The scan
    state holds the two handles, neither of them [NULL], with [first] set
    and the row counter at 0. *)
Theorem begin_scan_calls_and_state cat s s' :
  tdsBeginForeignScan cat s = (Done tt, s') ->
  exists os login dbproc host festate,
    tdsGetOptions cat s = (Done os, s) /\
    servername os = Some host /\
    is_null login = false /\ is_null dbproc = false /\
    calls s'
    = calls s ++ library_start login ++ login_settings os login
      ++ [Call_dbopen login (host_string os host)]
      ++ database_selection os dbproc /\
    fdw_state s' = Some festate /\
    fe_login festate = login /\ fe_dbproc festate = dbproc /\
    fe_first festate = 1 /\ fe_row festate = 0.
Proof.
  intros H. unfold tdsBeginForeignScan in H.
  monad_inv H as os s1 Hopt.
  destruct (tdsGetOptions_done _ _ _ _ Hopt) as (-> & _ & _).
  monad_inv H as rc s2 Hinit. inversion Hinit; subst rc s2; clear Hinit.
  monad_inv H as u s3 Hchk.
  destruct (lib_dbinit L (lib s) =? FAIL); [discriminate|].
  inversion Hchk; subst u s3; clear Hchk.
  monad_inv H as u s4 Herr. inversion Herr; subst u s4; clear Herr.
  monad_inv H as u s5 Hmsg. inversion Hmsg; subst u s5; clear Hmsg.
  monad_inv H as login s6 Hlogin. inversion Hlogin; subst s6; clear Hlogin.
  monad_inv H as u s7 Hchk.
  destruct (is_null login) eqn:Hnull; [discriminate|].
  inversion Hchk; subst u s7; clear Hchk.
  monad_inv H as r s8 Hsetup. destruct r as [[rc os'] dbproc].
  destruct (tdsSetupConnection_done _ _ _ _ _ _ _ Hsetup) as (-> & Hdb & _).
  destruct (tdsSetupConnection_calls _ _ _ _ _ _ _ Hsetup)
    as (host & Hhost & Hcalls).
  unfold bind, palloc, ret, set_fdw_state in H. simpl in H.
  inversion H; subst s'; clear H. simpl.
  exists os, login, dbproc, host. eexists.
  split; [exact Hopt|]. split; [exact Hhost|].
  split; [exact Hnull|]. split; [exact Hdb|].
  split.
  { rewrite Hcalls. simpl. rewrite <- !app_assoc. reflexivity. }
  split; [reflexivity|]. simpl. repeat apply conj; auto.
Qed.

(** X19.  A scan that fails to begin stores no scan state and releases
    nothing of what it had obtained: whatever calls it made, none of them
    is [dbclose], [dbloginfree] or [dbexit]. *)
Theorem begin_failure_stores_no_state cat s e s' :
  tdsBeginForeignScan cat s = (Raised e, s') ->
  fdw_state s' = fdw_state s /\
  exists tr,
    calls s' = calls s ++ tr /\
    filter is_release tr = [].
Proof.
  unfold tdsBeginForeignScan, bind. rewrite tdsGetOptions_run.
  destruct (is_null (precedence "table" cat)
            && is_null (precedence "query" cat)).
  { intros H; inversion H; subst. split; [reflexivity|].
    exists []. rewrite app_nil_r. split; reflexivity. }
  unfold dbinit, dberrhandle, dbmsghandle, dblogin, lib_call, ereport, ret.
  simpl.
  destruct (lib_dbinit L (lib s) =? FAIL); simpl.
  { intros H; inversion H; subst. split; [reflexivity|].
    exists [Call_dbinit]. simpl. split; reflexivity. }
  match goal with
  | |- context [is_null ?l] => destruct (is_null l); simpl
  end.
  { intros H; inversion H; subst. split; [reflexivity|].
    eexists. simpl. rewrite <- !app_assoc. simpl. split; reflexivity. }
  match goal with
  | |- context [tdsSetupConnection ?o ?l ?st] =>
      pose proof (tdsSetupConnection_frame o l st) as Hframe;
      pose proof (tdsSetupConnection_done o l st) as Hdone;
      destruct (tdsSetupConnection o l st) as [[[[rc os'] dbproc]|e1|] s1]
  end; simpl in Hframe;
    destruct Hframe as ((tr & Htr & Hcls) & _ & Hfe & _);
    simpl in Htr, Hfe.
  - destruct (Hdone _ _ _ _ eq_refl) as (-> & _ & _). simpl.
    unfold palloc, set_fdw_state. simpl. discriminate.
  - intros H; inversion H; subst. split; [exact Hfe|].
    exists ([Call_dbinit; Call_dberrhandle; Call_dbmsghandle; Call_dblogin]
            ++ tr).
    rewrite Htr, <- !app_assoc. simpl.
    split; [reflexivity|].
    apply (filter_other_class is_session_setup); auto.
    apply setup_is_not_release.
  - discriminate.
Qed.

(** X25.  A re-scan does not rewind: after it the next request goes on from
    the row the cursor is at, with [dbnextrow] first and no query sent
    again. *)
Theorem rescan_does_not_rewind festate s :
  fdw_state s = Some festate ->
  fe_first festate = 0 ->
  let r := bind tdsReScanForeignScan (fun _ => tdsIterateForeignScan) s in
  r = tdsIterateForeignScan s /\
  exists tr,
    calls (snd r) = calls s ++ Call_dbnextrow (fe_dbproc festate) :: tr /\
    forallb is_row_access tr = true /\
    filter is_compile_execute tr = [].
Proof.
  intros Hfe H0. cbv zeta. unfold bind, tdsReScanForeignScan, ret.
  split; [reflexivity|].
  rewrite (tdsIterateForeignScan_later festate s Hfe H0).
  destruct (tdsIterateForeignScan_fetch_cases festate festate None s Hfe)
    as (tr & row' & Hc & Hcls & _).
  exists tr. split; [exact Hc|]. split; [exact Hcls|].
  apply (filter_other_class is_row_access); auto.
  apply row_access_is_not_compile_execute.
Qed.

(** X26.  A conversion asks before it converts.  Its first call is
    [dbwillconvert], asking for binary when the source is binary and for
    text otherwise.  When the library refuses, no other call is made and
    the cell is [NULL].  [dbconvert] is called at most once, only after
    the library agreed, with the types asked about and with the length
    of the source for binary and -1, a terminated string, for text.  A
    conversion that returns has a [NULL] cell exactly when the library
    refused. *)
Theorem conversion_asks_before_converting dbproc srctype
    (src : list Byte.byte) srclen s :
  let binary := (srctype =? SYBBINARY) || (srctype =? SYBVARBINARY) in
  let desttype := if binary then SYBBINARY else SYBCHAR in
  let destlen := if binary then srclen else -1 in
  let can := lib_dbwillconvert L (lib s) srctype desttype in
  let r := tdsConvertToCString dbproc srctype src srclen s in
  exists rest,
    calls (snd r) = calls s ++ Call_dbwillconvert srctype desttype :: rest /\
    (can = FALSE -> rest = [] /\ fst r = Done None) /\
    (rest = [] \/
     (rest = [Call_dbconvert dbproc srctype src srclen desttype destlen] /\
      can <> FALSE)) /\
    (forall cell, fst r = Done cell -> (cell = None <-> can = FALSE)).
Proof.
  cbv zeta. rewrite tdsConvertToCString_run.
  unfold tdsConvertToCString_switch.
  assert (Hchar :
            (srctype =? SYBCHAR) || (srctype =? SYBVARCHAR)
            || (srctype =? SYBTEXT) = true ->
            (srctype =? SYBBINARY) || (srctype =? SYBVARBINARY) = false).
  { destruct (srctype =? SYBCHAR) eqn:A, (srctype =? SYBVARCHAR) eqn:B,
      (srctype =? SYBTEXT) eqn:C, (srctype =? SYBBINARY) eqn:D,
      (srctype =? SYBVARBINARY) eqn:E; simpl; try reflexivity;
      try discriminate;
      repeat match goal with
             | H : (_ =? _) = true |- _ => apply Z.eqb_eq in H
             end;
      subst; discriminate. }
  destruct ((srctype =? SYBCHAR) || (srctype =? SYBVARCHAR)
            || (srctype =? SYBTEXT)) eqn:T;
    [rewrite (Hchar eq_refl)
    |destruct ((srctype =? SYBBINARY) || (srctype =? SYBVARBINARY))];
    match goal with
    | |- context [lib_dbwillconvert L (lib s) srctype ?t =? FALSE] =>
        destruct (lib_dbwillconvert L (lib s) srctype t =? FALSE) eqn:W
    end;
    simpl;
    first [ apply Z.eqb_eq in W; exists [];
            repeat apply conj; auto;
            intros cell H; inversion H; tauto
          | apply Z.eqb_neq in W; eexists;
            split; [reflexivity|];
            split; [intros; contradiction|];
            split; [right; split; [reflexivity|exact W]|];
            intros cell H; inversion H;
            split; [discriminate|contradiction] ].
Qed.

End MoreScan.

(** ** The further properties at the scenarios *)

(** The server-only configuration resolves to no plan. *)
Lemma resolution_requires_table_or_query_witness :
  let s := fresh (Script.healthy two_rows) in
  supplies "table" (merged_options server_only_cat) = false /\
  supplies "query" (merged_options server_only_cat) = false /\
  is_ConfigurationError missing_table_and_query = true /\
  tdsGetOptions server_only_cat s = (Raised missing_table_and_query, s) /\
  tdsBeginForeignScan server_only_cat s = (Raised missing_table_and_query, s)
  /\
  tdsGetForeignRelSize server_only_cat s
  = (Raised missing_table_and_query, s) /\
  tdsEstimateCosts server_only_cat s = (Raised missing_table_and_query, s) /\
  tdsGetForeignPaths server_only_cat s = (Raised missing_table_and_query, s)
  /\
  tdsPlanForeignScan server_only_cat s = (Raised missing_table_and_query, s).
Proof.
  intros s.
  assert (Ht : supplies "table" (merged_options server_only_cat) = false)
    by reflexivity.
  assert (Hq : supplies "query" (merged_options server_only_cat) = false)
    by reflexivity.
  split; [exact Ht|]. split; [exact Hq|].
  exact (resolution_requires_table_or_query (L := Script.library)
           server_only_cat s Ht Hq).
Defined.

(** The table-only configuration is planned at the loopback address. *)
Lemma servername_defaults_to_loopback_witness :
  let s := fresh (Script.healthy two_rows) in
  let os :=
    mkTdsFdwOptionSet (Some "127.0.0.1") None None 0 None None None None
      (Some "t") in
  supplies "servername" (merged_options table_only_cat) = false /\
  tdsGetOptions table_only_cat s = (Done os, s) /\
  servername os = Some "127.0.0.1" /\
  tdsEstimateCosts table_only_cat s = (Done (0, baserel_rows s + 0), s).
Proof.
  intros s os.
  assert (Hn : supplies "servername" (merged_options table_only_cat) = false)
    by reflexivity.
  assert (Hopt : tdsGetOptions table_only_cat s = (Done os, s))
    by (vm_compute; reflexivity).
  split; [exact Hn|]. split; [exact Hopt|].
  exact (servername_defaults_to_loopback (L := Script.library)
           table_only_cat s os s Hn Hopt).
Defined.

(** [table] is an option of foreign tables. *)
Lemma option_contexts_are_disjoint_witness :
  tdsIsValidOption "table" ForeignTableRelationId = true /\
  ForeignTableRelationId = ForeignTableRelationId /\
  In ForeignTableRelationId
    [ForeignServerRelationId; UserMappingRelationId; ForeignTableRelationId].
Proof.
  assert (H : tdsIsValidOption "table" ForeignTableRelationId = true)
    by reflexivity.
  split; [exact H|].
  exact (option_contexts_are_disjoint "table" ForeignTableRelationId
           ForeignTableRelationId H H).
Defined.

(** A table and a database pass as the options of a foreign table. *)
Lemma validator_accepts_only_well_formed_witness :
  let s := fresh (Script.healthy two_rows) in
  tds_fdw_validator table_and_database ForeignTableRelationId s = (Done tt, s)
  /\
  s = s /\
  Forall (fun def => tdsIsValidOption (defname def) ForeignTableRelationId
                     = true)
    table_and_database /\
  NoDup (map defname (filter text_option table_and_database)) /\
  supplies "query" table_and_database && supplies "table" table_and_database
  = false.
Proof.
  intros s.
  assert (H : tds_fdw_validator table_and_database ForeignTableRelationId s
              = (Done tt, s))
    by (vm_compute; reflexivity).
  split; [exact H|].
  exact (validator_accepts_only_well_formed (L := Script.library)
           table_and_database ForeignTableRelationId s s H).
Defined.

Lemma validator_accepts_well_formed_witness :
  let s := fresh (Script.healthy two_rows) in
  Forall (fun def => tdsIsValidOption (defname def) ForeignTableRelationId
                     = true)
    table_and_database /\
  NoDup (map defname table_and_database) /\
  supplies "query" table_and_database && supplies "table" table_and_database
  = false /\
  tds_fdw_validator table_and_database ForeignTableRelationId s = (Done tt, s).
Proof.
  intros s.
  assert (Hall : Forall (fun def => tdsIsValidOption (defname def)
                                      ForeignTableRelationId = true)
                   table_and_database)
    by (repeat constructor).
  assert (Hnodup : NoDup (map defname table_and_database)).
  { simpl. constructor; [intros [H|[]]; discriminate H|].
    constructor; [intros []|constructor]. }
  assert (Hboth : supplies "query" table_and_database
                  && supplies "table" table_and_database = false)
    by reflexivity.
  split; [exact Hall|]. split; [exact Hnodup|]. split; [exact Hboth|].
  exact (validator_accepts_well_formed (L := Script.library)
           table_and_database ForeignTableRelationId s Hall Hnodup Hboth).
Defined.

(** The table of the [employees] configuration, which passes the
    validator at its three levels. *)
Lemma validated_options_are_not_shadowed_witness :
  let s := fresh (Script.healthy two_rows) in
  validated employees_cat s /\
  "table" <> "port" /\
  In (mkDefElem "table" "employees") (merged_options employees_cat) /\
  precedence "table" employees_cat = Some "employees" /\
  (supplies "table" (f_table_options employees_cat) = true ->
   supplies "table" (f_server_options employees_cat) = false /\
   supplies "table" (f_mapping_options employees_cat) = false) /\
  (supplies "table" (f_server_options employees_cat) = true ->
   supplies "table" (f_mapping_options employees_cat) = false).
Proof.
  intros s.
  assert (Hv : validated employees_cat s)
    by (unfold validated; repeat split; vm_compute; reflexivity).
  assert (Hname : "table" <> "port") by discriminate.
  assert (Hin : In (mkDefElem "table" "employees")
                  (merged_options employees_cat))
    by (vm_compute; auto).
  split; [exact Hv|]. split; [exact Hname|]. split; [exact Hin|].
  exact (validated_options_are_not_shadowed (L := Script.library)
           employees_cat s "table" "employees" Hv Hname Hin).
Defined.

(** A server name given as an option of the wrapper itself. *)
Lemma validator_rejects_outside_its_contexts_witness :
  let s := fresh (Script.healthy two_rows) in
  ~ In wrapper_context
      [ForeignServerRelationId; UserMappingRelationId;
       ForeignTableRelationId] /\
  tds_fdw_validator [] wrapper_context s = (Done tt, s) /\
  tds_fdw_validator [mkDefElem "servername" "dbhost"] wrapper_context s
  = (Raised
       (mkErrorData (Some ERRCODE_FDW_INVALID_OPTION_NAME)
          ("Invalid option " +++ double_quote
           +++ defname (mkDefElem "servername" "dbhost") +++ double_quote)
          (Some "Valid options in this context are: <none>")),
     s).
Proof.
  intros s.
  assert (Hout : ~ In wrapper_context
                     [ForeignServerRelationId; UserMappingRelationId;
                      ForeignTableRelationId])
    by (intros [H|[H|[H|[]]]]; discriminate H).
  split; [exact Hout|].
  exact (validator_rejects_outside_its_contexts (L := Script.library)
           wrapper_context (mkDefElem "servername" "dbhost") [] s Hout).
Defined.

(** The session of the [employees] plan against a healthy server. *)
Lemma setup_calls_in_order_witness :
  let s := fresh (Script.healthy two_rows) in
  let os' := set_query (Some "SELECT * FROM employees") employees_plan in
  let dbproc : DBPROCESS_ptr := Some 2%N in
  let login : LOGINREC_ptr := Some 1%N in
  let s' := snd (tdsSetupConnection employees_plan login s) in
  tdsSetupConnection employees_plan login s = (Done (0, os', dbproc), s') /\
  0 = 0 /\ is_null dbproc = false /\
  exists host,
    servername employees_plan = Some host /\
    calls s'
    = calls s ++ login_settings employees_plan login
      ++ [Call_dbopen login (host_string employees_plan host)]
      ++ database_selection employees_plan dbproc.
Proof.
  intros s os' dbproc login s'.
  assert (H : tdsSetupConnection employees_plan login s
              = (Done (0, os', dbproc), s'))
    by (vm_compute; reflexivity).
  split; [exact H|].
  exact (setup_calls_in_order (L := Script.library) employees_plan login s 0
           os' dbproc s' H).
Defined.

(** The session of the [employees] plan against a server that cannot be
    reached: [dbopen] answers [NULL]. *)
Lemma setup_errors_are_connection_errors_witness :
  let s := fresh unreachable in
  let login : LOGINREC_ptr := Some 1%N in
  let r := tdsSetupConnection employees_plan login s in
  servername employees_plan = Some "dbhost" /\
  (port employees_plan = 0 \/
   strlen (string_of_int (port employees_plan)) <= 8) /\
  is_null (session_connection employees_plan "dbhost" login (lib s)) = true /\
  fst r
  = Raised
      (report ERRCODE_FDW_UNABLE_TO_ESTABLISH_CONNECTION
         ("Failed to connect using connection string "
          +++ host_string employees_plan "dbhost"
          +++ " with user " +++ show (username employees_plan))) /\
  calls (snd r)
  = calls s ++ login_settings employees_plan login
    ++ [Call_dbopen login (host_string employees_plan "dbhost")].
Proof.
  intros s login r.
  assert (Hhost : servername employees_plan = Some "dbhost") by reflexivity.
  assert (Hfit : port employees_plan = 0 \/
                 strlen (string_of_int (port employees_plan)) <= 8)
    by (right; vm_compute; discriminate).
  assert (N : is_null (session_connection employees_plan "dbhost" login
                         (lib s)) = true)
    by (vm_compute; reflexivity).
  split; [exact Hhost|]. split; [exact Hfit|]. split; [exact N|].
  exact (proj1 (setup_errors_are_connection_errors (L := Script.library)
                  employees_plan login s "dbhost" Hhost Hfit) N).
Defined.

(** The [employees] plan with a port of nine digits. *)
Lemma long_port_overruns_host_buffer_witness :
  let s := fresh (Script.healthy two_rows) in
  let os := set_port 123456789 employees_plan in
  let login : LOGINREC_ptr := Some 1%N in
  servername os = Some "dbhost" /\
  8 < strlen (string_of_int (port os)) /\
  port os <> 0 /\
  fst (tdsSetupConnection os login s) = Undefined /\
  calls (snd (tdsSetupConnection os login s))
  = calls s ++ login_settings os login.
Proof.
  intros s os login.
  assert (Hhost : servername os = Some "dbhost") by reflexivity.
  assert (Hlong : 8 < strlen (string_of_int (port os)))
    by (vm_compute; reflexivity).
  assert (Hport : port os <> 0) by (vm_compute; discriminate).
  split; [exact Hhost|]. split; [exact Hlong|]. split; [exact Hport|].
  exact (long_port_overruns_host_buffer (L := Script.library) os login s
           "dbhost" Hhost Hlong Hport).
Defined.

(** The configuration that gives both a query and a table. *)
Lemma explicit_query_is_kept_witness :
  let s := fresh (Script.healthy two_rows) in
  let s' := snd (tdsBeginForeignScan conflicting_cat s) in
  last_value "query" (merged_options conflicting_cat)
  = Some "SELECT id FROM t" /\
  tdsBeginForeignScan conflicting_cat s = (Done tt, s') /\
  exists festate,
    fdw_state s' = Some festate /\
    fe_query festate = Some "SELECT id FROM t".
Proof.
  intros s s'.
  assert (Hq : last_value "query" (merged_options conflicting_cat)
               = Some "SELECT id FROM t")
    by reflexivity.
  assert (H : tdsBeginForeignScan conflicting_cat s = (Done tt, s'))
    by (vm_compute; reflexivity).
  split; [exact Hq|]. split; [exact H|].
  exact (explicit_query_is_kept (L := Script.library) conflicting_cat s s'
           "SELECT id FROM t" Hq H).
Defined.

(** The port 1433 of the [employees] configuration. *)
Lemma port_text_reaches_dbopen_witness :
  let s := fresh (Script.healthy two_rows) in
  let login : LOGINREC_ptr := Some 1%N in
  - 2 ^ 31 <= 1433 < 2 ^ 31 /\
  1433 <> 0 /\
  strlen (string_of_int 1433) <= 8 /\
  precedence "port" employees_cat = Some (string_of_int 1433) /\
  tdsGetOptions employees_cat s = (Done employees_plan, s) /\
  port employees_plan = 1433 /\
  exists host,
    servername employees_plan = Some host /\
    dbopen_hosts (calls (snd (tdsSetupConnection employees_plan login s)))
    = dbopen_hosts (calls s) ++ [host +++ ":" +++ string_of_int 1433].
Proof.
  intros s login.
  assert (Hrange : - 2 ^ 31 <= 1433 < 2 ^ 31) by lia.
  assert (Hp : 1433 <> 0) by lia.
  assert (Hlen : strlen (string_of_int 1433) <= 8)
    by (vm_compute; discriminate).
  assert (Hport : precedence "port" employees_cat
                  = Some (string_of_int 1433))
    by reflexivity.
  assert (Hopt : tdsGetOptions employees_cat s = (Done employees_plan, s))
    by (vm_compute; reflexivity).
  split; [exact Hrange|]. split; [exact Hp|]. split; [exact Hlen|].
  split; [exact Hport|]. split; [exact Hopt|].
  exact (port_text_reaches_dbopen (L := Script.library) employees_cat s
           employees_plan s login 1433 Hrange Hp Hlen Hport Hopt).
Defined.

(** The row estimate of the [employees] configuration against a healthy
    server with two rows. *)
Lemma estimate_size_on_return_witness :
  let s := fresh (Script.healthy two_rows) in
  let s' := snd (tdsGetForeignRelSize employees_cat s) in
  tdsGetForeignRelSize employees_cat s = (Done tt, s') /\
  baserel_rows s' = 2 /\
  exists os host,
    tdsGetOptions employees_cat s = (Done os, s) /\
    servername os = Some host /\
    let login := session_login (lib s) in
    let dbproc :=
      session_connection os host login
        (after_calls (library_start login) (lib s)) in
    let q :=
      match query os with
      | Some q0 => Some q0
      | None => option_map (String.append query_prefix) (table os)
      end in
    let setup :=
      library_start login ++ login_settings os login
      ++ [Call_dbopen login (host_string os host)]
      ++ database_selection os dbproc in
    let w :=
      after_calls (setup ++ [Call_dbcmd dbproc q; Call_dbsqlexec dbproc])
        (lib s) in
    let release :=
      [Call_dbclose dbproc; Call_dbloginfree login; Call_dbexit] in
    baserel_tuples s' = baserel_rows s' /\
    ((lib_dbresults Script.library w dbproc = NO_MORE_RESULTS /\
      calls s'
      = calls s ++ setup ++ count_without_result_set dbproc q ++ release /\
      baserel_rows s' = 0) \/
     (lib_dbresults Script.library w dbproc = SUCCEED /\
      calls s'
      = calls s ++ setup ++ count_with_result_set dbproc q ++ release /\
      baserel_rows s'
      = lib_DBCOUNT Script.library
          (after_calls [Call_dbresults dbproc; Call_dbnextrow dbproc] w)
          dbproc)).
Proof.
  intros s s'.
  assert (H : tdsGetForeignRelSize employees_cat s = (Done tt, s'))
    by (vm_compute; reflexivity).
  split; [exact H|]. split; [vm_compute; reflexivity|].
  exact (estimate_size_on_return (L := Script.library) employees_cat s s' H).
Defined.

(** The row estimate against a server whose result set cannot be
    retrieved. *)
Lemma estimate_size_failure_writes_nothing_witness :
  let s := fresh failing_results in
  let e :=
    report ERRCODE_FDW_UNABLE_TO_CREATE_EXECUTION
      "Failed to get results from query SELECT * FROM employees" in
  let s' := snd (tdsGetForeignRelSize employees_cat s) in
  tdsGetForeignRelSize employees_cat s = (Raised e, s') /\
  baserel_rows s' = baserel_rows s /\ baserel_tuples s' = baserel_tuples s.
Proof.
  intros s e s'.
  assert (H : tdsGetForeignRelSize employees_cat s = (Raised e, s'))
    by (vm_compute; reflexivity).
  split; [exact H|].
  exact (estimate_size_failure_writes_nothing (L := Script.library)
           employees_cat s e s' H).
Defined.

(** The three rows asked for from the [employees] scan, which has two. *)
Lemma row_counter_counts_fetched_rows_witness :
  fdw_state employees_begun = Some employees_festate /\
  fe_row employees_festate + Z.of_nat 3 <= INT_MAX /\
  rows_fetched 3 employees_begun = 2 /\
  (exists festate',
      fdw_state (iterate_times 3 employees_begun) = Some festate' /\
      fe_row festate'
      = fe_row employees_festate + rows_fetched 3 employees_begun) /\
  0 <= rows_delivered 3 employees_begun <= rows_fetched 3 employees_begun /\
  rows_fetched 3 employees_begun <= Z.of_nat 3.
Proof.
  assert (H : fdw_state employees_begun = Some employees_festate)
    by (vm_compute; reflexivity).
  assert (Hroom : fe_row employees_festate + Z.of_nat 3 <= INT_MAX)
    by (vm_compute; discriminate).
  split; [exact H|]. split; [exact Hroom|].
  split; [vm_compute; reflexivity|].
  exact (row_counter_counts_fetched_rows (L := Script.library) 3
           employees_begun employees_festate H Hroom).
Defined.

(** The first row of the [employees] scan. *)
Lemma returned_slot_reflects_dbnextrow_witness :
  let s := employees_begun in
  let slot : TupleTableSlot := Some [Some (text "ab"); None] in
  let s' := iterate_times 1 employees_begun in
  let dbproc := fe_dbproc employees_festate in
  fdw_state s = Some employees_festate /\
  tdsIterateForeignScan s = (Done slot, s') /\
  exists before s1,
    before = (if fe_first employees_festate =? 0 then []
              else compile_execute_calls employees_festate) /\
    calls s1 = calls s ++ before /\
    lib s1 = after_calls before (lib s) /\
    match slot with
    | None =>
        lib_dbnextrow Script.library (lib s1) dbproc = NO_MORE_ROWS /\
        (exists earlier, notices s' = earlier ++ [no_more_rows_notice]) /\
        calls s' = calls s1 ++ [Call_dbnextrow dbproc]
    | Some values =>
        lib_dbnextrow Script.library (lib s1) dbproc = REG_ROW /\
        List.length values
        = Z.to_nat (lib_dbnumcols Script.library (lib s') dbproc) /\
        exists tr,
          calls s'
          = calls s1 ++ Call_dbnextrow dbproc :: Call_dbnumcols dbproc :: tr
          /\ forallb is_row_access tr = true
    end.
Proof.
  intros s slot s' dbproc.
  assert (Hfe : fdw_state s = Some employees_festate)
    by (vm_compute; reflexivity).
  assert (H : tdsIterateForeignScan s = (Done slot, s'))
    by (vm_compute; reflexivity).
  split; [exact Hfe|]. split; [exact H|].
  exact (returned_slot_reflects_dbnextrow (L := Script.library)
           employees_festate s slot s' Hfe H).
Defined.

(** A later request to a library whose row buffer is full. *)
Lemma fetch_errors_by_return_code_witness :
  let s := later_request BUF_FULL in
  let rc := lib_dbnextrow (answering BUF_FULL) (lib s)
              (fe_dbproc later_festate) in
  fdw_state s = Some later_festate /\
  fe_first later_festate = 0 /\
  rc <> NO_MORE_ROWS /\ rc <> REG_ROW /\
  exists e,
    fst (tdsIterateForeignScan s) = Raised e /\
    errcode e = Some (if rc =? BUF_FULL then ERRCODE_FDW_OUT_OF_MEMORY
                      else ERRCODE_FDW_UNABLE_TO_CREATE_EXECUTION) /\
    calls (snd (tdsIterateForeignScan s))
    = calls s ++ [Call_dbnextrow (fe_dbproc later_festate)] /\
    fdw_state (snd (tdsIterateForeignScan s)) = fdw_state s.
Proof.
  intros s rc.
  assert (Hfe : fdw_state s = Some later_festate) by reflexivity.
  assert (H0 : fe_first later_festate = 0) by reflexivity.
  assert (H1 : rc <> NO_MORE_ROWS) by (vm_compute; discriminate).
  assert (H2 : rc <> REG_ROW) by (vm_compute; discriminate).
  split; [exact Hfe|]. split; [exact H0|]. split; [exact H1|].
  split; [exact H2|].
  exact (fetch_errors_by_return_code (L := answering BUF_FULL) later_festate
           s Hfe H0 H1 H2).
Defined.

(** The first request of the [employees] scan against a server that has
    no result set for the query. *)
Lemma first_request_needs_a_result_set_witness :
  let s := snd (tdsBeginForeignScan employees_cat (fresh no_result_set)) in
  let festate := employees_festate in
  let dbproc := fe_dbproc festate in
  let w1 :=
    lib_effect Script.library (Call_dbcmd dbproc (fe_query festate)) (lib s)
  in
  let w2 := lib_effect Script.library (Call_dbsqlexec dbproc) w1 in
  fdw_state s = Some festate /\
  fe_first festate <> 0 /\
  lib_dbcmd Script.library (lib s) dbproc (fe_query festate) <> FAIL /\
  lib_dbsqlexec Script.library w1 dbproc <> FAIL /\
  lib_dbresults Script.library w2 dbproc <> SUCCEED /\
  exists e,
    fst (tdsIterateForeignScan s) = Raised e /\
    errcode e = Some ERRCODE_FDW_UNABLE_TO_CREATE_EXECUTION /\
    calls (snd (tdsIterateForeignScan s))
    = calls s ++ compile_execute_calls festate /\
    fdw_state (snd (tdsIterateForeignScan s))
    = Some (mkTdsFdwExecutionState (fe_login festate) (fe_dbproc festate)
              (fe_query festate) 0 (fe_row festate)).
Proof.
  intros s festate dbproc w1 w2.
  assert (Hfe : fdw_state s = Some festate) by (vm_compute; reflexivity).
  assert (H1 : fe_first festate <> 0) by (vm_compute; discriminate).
  assert (Hcmd : lib_dbcmd Script.library (lib s) dbproc (fe_query festate)
                 <> FAIL)
    by (vm_compute; discriminate).
  assert (Hexec : lib_dbsqlexec Script.library w1 dbproc <> FAIL)
    by (vm_compute; discriminate).
  assert (Hres : lib_dbresults Script.library w2 dbproc <> SUCCEED)
    by (vm_compute; discriminate).
  split; [exact Hfe|]. split; [exact H1|]. split; [exact Hcmd|].
  split; [exact Hexec|]. split; [exact Hres|].
  exact (first_request_needs_a_result_set (L := Script.library) festate s
           Hfe H1 Hcmd Hexec Hres).
Defined.

(** The [employees] scan as it begins. *)
Lemma begin_scan_calls_and_state_witness :
  let s := fresh (Script.healthy two_rows) in
  let s' := employees_begun in
  tdsBeginForeignScan employees_cat s = (Done tt, s') /\
  exists os login dbproc host festate,
    tdsGetOptions employees_cat s = (Done os, s) /\
    servername os = Some host /\
    is_null login = false /\ is_null dbproc = false /\
    calls s'
    = calls s ++ library_start login ++ login_settings os login
      ++ [Call_dbopen login (host_string os host)]
      ++ database_selection os dbproc /\
    fdw_state s' = Some festate /\
    fe_login festate = login /\ fe_dbproc festate = dbproc /\
    fe_first festate = 1 /\ fe_row festate = 0.
Proof.
  intros s s'.
  assert (H : tdsBeginForeignScan employees_cat s = (Done tt, s'))
    by (vm_compute; reflexivity).
  split; [exact H|].
  exact (begin_scan_calls_and_state (L := Script.library) employees_cat s s'
           H).
Defined.

(** The [employees] scan against a server that cannot be reached. *)
Lemma begin_failure_stores_no_state_witness :
  let s := fresh unreachable in
  let e :=
    report ERRCODE_FDW_UNABLE_TO_ESTABLISH_CONNECTION
      "Failed to connect using connection string dbhost:1433 with user reader"
  in
  let s' := snd (tdsBeginForeignScan employees_cat s) in
  tdsBeginForeignScan employees_cat s = (Raised e, s') /\
  fdw_state s' = fdw_state s /\
  exists tr,
    calls s' = calls s ++ tr /\
    filter is_release tr = [].
Proof.
  intros s e s'.
  assert (H : tdsBeginForeignScan employees_cat s = (Raised e, s'))
    by (vm_compute; reflexivity).
  split; [exact H|].
  exact (begin_failure_stores_no_state (L := Script.library) employees_cat s
           e s' H).
Defined.

(** A re-scan of the [employees] scan after its first row. *)
Lemma rescan_does_not_rewind_witness :
  let s := iterate_times 1 employees_begun in
  let festate :=
    mkTdsFdwExecutionState (Some 1%N) (Some 2%N)
      (Some "SELECT * FROM employees") 0 1 in
  let r := bind tdsReScanForeignScan (fun _ => tdsIterateForeignScan) s in
  fdw_state s = Some festate /\
  fe_first festate = 0 /\
  r = tdsIterateForeignScan s /\
  exists tr,
    calls (snd r) = calls s ++ Call_dbnextrow (fe_dbproc festate) :: tr /\
    forallb is_row_access tr = true /\
    filter is_compile_execute tr = [].
Proof.
  intros s festate r.
  assert (Hfe : fdw_state s = Some festate) by (vm_compute; reflexivity).
  assert (H0 : fe_first festate = 0) by reflexivity.
  split; [exact Hfe|]. split; [exact H0|].
  exact (rescan_does_not_rewind (L := Script.library) festate s Hfe H0).
Defined.
